(** * Programmable UV chamber: the controller of [main.py]

    A shallow embedding of the MicroPython controller: the program-file
    helpers, [get_duration_sec], and one iteration of the super loop
    ([while True:] at line 261 of [main.py]) as a function of the hardware
    readings of that iteration and of the module's global variables.

    Conventions of the embedding:
    - Python integers are [Z]; the constants that name states ([MODE_SIMPLE],
      [S_RUNNING], ...) are the integers the source gives them, and the
      dispatch is the source's chain of comparisons;
    - Python floats ([uv.value], the durations in seconds) are exact
      rationals [Q];
    - program dictionaries are objects of a heap, and [saved_programs] and
      [current_program] hold references to them, as in Python; step
      dictionaries are held by value (the source rebinds [temp_step] to a
      new dictionary, line 624, before it next writes to it);
    - an uncaught Python exception ([KeyError], [IndexError], [TypeError])
      is the outcome [Raise]; [continue] is the outcome [Continue];
    - display, buzzer, sleeping and the colours written to the NeoPixels are
      outputs without influence on the control state and are left out of
      the loop, except where an argument of a display call can raise; the
      display helpers and the time formats are embedded on their own, as
      functions on strings ("Display formatting"). *)

From Stdlib Require Import ZArith QArith Qround Lia Bool Ascii.
From Stdlib Require Import DecimalPos DecimalZ DecimalString.
From stdpp Require Import base list strings.

Local Open Scope Z_scope.

(** ** Python primitives *)

(** [l[i]]: a negative index counts from the end; out of range is
    [IndexError] ([None]). *)
Definition py_index {A : Type} (l : list A) (i : Z) : option A :=
  let n := Z.of_nat (length l) in
  if (0 <=? i) && (i <? n) then l !! Z.to_nat i
  else if (- n <=? i) && (i <? 0) then l !! Z.to_nat (n + i)
  else None.

(** [max(a, min(b, x))], the clamp of every value editor. *)
Definition clamp (lo hi x : Z) : Z := Z.max lo (Z.min hi x).

(** [(1 if d > 0 else -1)] *)
Definition dir (d : Z) : Z := if 0 <? d then 1 else -1.

(** [f"{n:02d}"] *)
Definition fmt_02d (n : Z) : string :=
  let s := NilZero.string_of_int (Z.to_int n) in
  if (String.length s <? 2)%nat then ("0" ++ s)%string else s.

(** [s.split(c)] *)
Fixpoint split_on (c : Ascii.ascii) (s : string) : list string :=
  match s with
  | EmptyString => [EmptyString]
  | String a rest =>
      if Ascii.eqb a c then EmptyString :: split_on c rest
      else match split_on c rest with
           | w :: ws => String a w :: ws
           | [] => [String a EmptyString]
           end
  end.

(** [int(s)] on a decimal numeral with an optional minus sign, [None] for
    [ValueError].  (Python also accepts a plus sign, surrounding blanks and
    underscores; the program only ever parses the suffix [fmt_02d] wrote.) *)
Definition py_int (s : string) : option Z :=
  Z.of_int <$> NilZero.int_of_string s.

(** [time.ticks_diff(a, b)] for two readings of the tick counter between
    which the counter has not wrapped and which are less than 2^29 ms
    (about 149 hours) apart: the library returns [a - b] wrapped into the
    interval from -2^29 to 2^29 - 1, which for such readings is [a - b]
    ([ticks_diff_wrapped], [ticks_diff_not_wrapped]). *)
Definition ticks_diff (a b : Z) : Z := a - b.

(** ** Configuration tables *)

(** (unit_name, default_value, min_val, max_val) *)
Definition TIME_UNITS : list (string * Z * Z * Z) :=
  [ ("min:sec"%string, 60, 1, 3600);
    ("hr:min"%string, 30, 1, 1440);
    ("sec:ms"%string, 1000, 100, 60000) ].

Definition TIME_STEPS : list Z := [1; 1; 100].

Definition unit_name (e : string * Z * Z * Z) : string := e.1.1.1.
Definition unit_default (e : string * Z * Z * Z) : Z := e.1.1.2.
Definition unit_min (e : string * Z * Z * Z) : Z := e.1.2.
Definition unit_max (e : string * Z * Z * Z) : Z := e.2.

Definition INT_MIN : Z := 0.
Definition INT_MAX : Z := 100.
Definition INT_STEP : Z := 1.

Definition main_menu_items : list string :=
  ["Simple Mode"; "Custom Mode"]%string.
Definition custom_menu_items : list string :=
  ["Load Program"; "Create New"; "Run Program"]%string.

Definition blink_interval_ms : Z := 500.

(** ** State-machine constants *)

Definition MODE_MAIN_MENU : Z := 0.
Definition MODE_SIMPLE : Z := 1.
Definition MODE_CUSTOM_MENU : Z := 2.
Definition MODE_CUSTOM_CREATE : Z := 3.

Definition S_IDLE : Z := 0.
Definition S_SET_TIME_UNIT : Z := 1.
Definition S_SET_TIME : Z := 2.
Definition S_SET_INTENS : Z := 3.
Definition S_RUNNING : Z := 4.
Definition S_DONE : Z := 5.

Definition C_MENU_LOAD : Z := 0.
Definition C_MENU_CREATE : Z := 1.
Definition C_MENU_RUN : Z := 2.

Definition C_CREATE_START : Z := 0.
Definition C_CREATE_SET_TIME_UNIT : Z := 1.
Definition C_CREATE_SET_TIME : Z := 2.
Definition C_CREATE_SET_INTENS : Z := 3.
Definition C_CREATE_ADD_STEP : Z := 4.
Definition C_CREATE_SET_LOOPS : Z := 5.
Definition C_CREATE_SET_NAME : Z := 6.
Definition C_CREATE_SAVE_PROG : Z := 7.

Definition C_RUN_START : Z := 0.
Definition C_RUN_STEP : Z := 1.
Definition C_RUN_DONE : Z := 2.

Definition C_LOAD_SELECT : Z := 0.
Definition C_LOAD_CONFIRM : Z := 1.

(** ** Programs *)

(** A step dictionary with the keys "u", "v", "i"; a key not (yet) in the
    dictionary is [None]. *)
Record Step := mkStep {
  step_u : option Z;
  step_v : option Z;
  step_i : option Z
}.

(** A program dictionary with the keys "name", "loops", "steps"; the empty
    dictionary [{}] has none of them. *)
Record Program := mkProgram {
  prog_name : option string;
  prog_loops : option Z;
  prog_steps : option (list Step)
}.

Definition empty_step : Step := mkStep None None None.
Definition empty_program : Program := mkProgram None None None.

(** [not p] for a dictionary: true when it has no key. *)
Definition dict_is_empty (p : Program) : bool :=
  match prog_name p, prog_loops p, prog_steps p with
  | None, None, None => true
  | _, _, _ => false
  end.

(** [not p.get("steps")]: the key is missing or the list is empty. *)
Definition no_steps (p : Program) : bool :=
  match prog_steps p with
  | None | Some [] => true
  | Some (_ :: _) => false
  end.

(** References to program dictionaries. *)
Definition loc := nat.

(** [get_duration_sec(step)]; [None] is the [KeyError] of a missing key. *)
Definition get_duration_sec (step : Step) : option Q :=
  idx ← step_u step;
  val ← step_v step;
  Some (if idx =? 0 then inject_Z val
        else if idx =? 1 then inject_Z (val * 60)
        else if idx =? 2 then (inject_Z val / 1000)%Q
        else 0%Q).

(** ** The programs file *)

(** What opening and parsing [uv_programs.json] meets: no file, a file that
    cannot be read, text that is not JSON, or a stored list of programs.
    A file that parses is taken to hold what [save_programs_to_file]
    writes: a list of program dictionaries whose values have the types the
    wizard gives them (a string as name, an integer as loop count, a list
    of step dictionaries with integer values); a key may be missing.  JSON
    text of any other content has no [FileState]: what loading returns for
    it is given by [Json.load_programs_from_file]. *)
Inductive FileState :=
  | Absent
  | Unreadable
  | Corrupt
  | Stored (programs : list Program).

Inductive Exn := OSError | ValueError | TypeError | KeyError | IndexError.

(** Outcome of a fallible call: a value or a raised exception. *)
Inductive Exc (A : Type) :=
  | Returns (a : A)
  | Raises (e : Exn).
Arguments Returns {A} a.
Arguments Raises {A} e.

Definition exc_bind {A B : Type} (m : Exc A) (k : A -> Exc B) : Exc B :=
  match m with
  | Returns a => k a
  | Raises e => Raises e
  end.

(** [try: body  except Exception as e: handler] *)
Definition try_except {A : Type} (body : Exc A) (handler : Exn -> Exc A) : Exc A :=
  match body with
  | Returns a => Returns a
  | Raises e => handler e
  end.

(** [open(PROGRAMS_FILE, 'r')] *)
Definition open_read (f : FileState) : Exc FileState :=
  match f with
  | Absent | Unreadable => Raises OSError
  | _ => Returns f
  end.

(** [json.load(f)] *)
Definition json_load (f : FileState) : Exc (list Program) :=
  match f with
  | Stored programs => Returns programs
  | Corrupt => Raises ValueError
  | Absent | Unreadable => Raises OSError
  end.

Definition load_programs_from_file (f : FileState) : Exc (list Program) :=
  try_except
    (exc_bind (open_read f) (fun h =>
     exc_bind (json_load h) (fun programs =>
     Returns programs)))
    (fun _ => Returns []).

(** What the flash does to a write: it succeeds, the file cannot be opened
    for writing (it keeps its content), or the write fails after the file
    was truncated. *)
Inductive WriteOutcome := WriteOk | OpenFails | WriteFails.

(** [open(PROGRAMS_FILE, 'w')], then [json.dump(programs_list, f)]: the
    result and the file left behind. *)
Definition open_write_dump (w : WriteOutcome) (programs_list : list Program)
    (f : FileState) : Exc unit * FileState :=
  match w with
  | WriteOk => (Returns tt, Stored programs_list)
  | OpenFails => (Raises OSError, f)
  | WriteFails => (Raises OSError, Corrupt)
  end.

Definition save_programs_to_file (w : WriteOutcome)
    (programs_list : list Program) (f : FileState) : Exc unit * FileState :=
  let r := open_write_dump w programs_list f in
  (try_except r.1 (fun _ => Returns tt), r.2).

(** ** Hardware readings of one loop iteration *)

(** The button as one sampling sequence sees it: not pressed, pressed and
    released before the long-press threshold, or held beyond it (and
    released at some time: the menus wait for the release, lines 511, 578
    and 610). *)
Inductive Button := Released | ShortPress | LongPress.

Definition is_pressed (b : Button) : bool :=
  match b with Released => false | _ => true end.
Definition is_long (b : Button) : bool :=
  match b with LongPress => true | _ => false end.

Record Input := mkInput {
  enc_value : Z;          (* enc.getValue() *)
  now : Z;                (* time.ticks_ms() at the top of the loop *)
  lid_open : bool;        (* lid_switch.value() == 0 *)
  btn : Button;           (* first sampling of the button *)
  btn_again : Button;     (* a second sampling later in the same iteration *)
  stamp : Z;              (* time.ticks_ms() when a run or step is started *)
  write : WriteOutcome    (* fate of a write to the programs file *)
}.

(** ** Global variables *)

Record State := mkState {
  main_state : Z;
  main_menu_idx : Z;
  simple_state : Z;
  custom_menu_idx : Z;
  create_state : Z;
  run_state : Z;
  load_state : Z;
  load_program_idx : Z;
  _last_enc : Z;
  s_current_time_unit_idx : Z;
  s_set_value : Z;
  s_set_int : Z;
  s_run_duration_sec : Q;
  s_start_ts : option Z;
  saved_programs : list loc;
  current_program : loc;
  temp_step : Step;
  temp_program_name : string;
  temp_program_loops : Z;
  c_run_duration_sec : Q;
  c_start_ts : option Z;
  c_run_current_step : Z;
  c_run_current_loop : Z;
  temp_add_another : bool;
  last_blink_ms : Z;
  blink_state_on : bool;
  lid_was_open : bool;
  neopixel : bool;
  uv : Q;
  heap : list Program;
  programs_file : FileState
}.

Definition set_main_state (x : Z) (s : State) : State :=
  mkState x (main_menu_idx s) (simple_state s) (custom_menu_idx s)
    (create_state s) (run_state s) (load_state s) (load_program_idx s)
    (_last_enc s) (s_current_time_unit_idx s) (s_set_value s) (s_set_int s)
    (s_run_duration_sec s) (s_start_ts s) (saved_programs s)
    (current_program s) (temp_step s) (temp_program_name s)
    (temp_program_loops s) (c_run_duration_sec s) (c_start_ts s)
    (c_run_current_step s) (c_run_current_loop s) (temp_add_another s)
    (last_blink_ms s) (blink_state_on s) (lid_was_open s) (neopixel s) (uv s)
    (heap s) (programs_file s).

Definition set_main_menu_idx (x : Z) (s : State) : State :=
  mkState (main_state s) x (simple_state s) (custom_menu_idx s)
    (create_state s) (run_state s) (load_state s) (load_program_idx s)
    (_last_enc s) (s_current_time_unit_idx s) (s_set_value s) (s_set_int s)
    (s_run_duration_sec s) (s_start_ts s) (saved_programs s)
    (current_program s) (temp_step s) (temp_program_name s)
    (temp_program_loops s) (c_run_duration_sec s) (c_start_ts s)
    (c_run_current_step s) (c_run_current_loop s) (temp_add_another s)
    (last_blink_ms s) (blink_state_on s) (lid_was_open s) (neopixel s) (uv s)
    (heap s) (programs_file s).

Definition set_simple_state (x : Z) (s : State) : State :=
  mkState (main_state s) (main_menu_idx s) x (custom_menu_idx s)
    (create_state s) (run_state s) (load_state s) (load_program_idx s)
    (_last_enc s) (s_current_time_unit_idx s) (s_set_value s) (s_set_int s)
    (s_run_duration_sec s) (s_start_ts s) (saved_programs s)
    (current_program s) (temp_step s) (temp_program_name s)
    (temp_program_loops s) (c_run_duration_sec s) (c_start_ts s)
    (c_run_current_step s) (c_run_current_loop s) (temp_add_another s)
    (last_blink_ms s) (blink_state_on s) (lid_was_open s) (neopixel s) (uv s)
    (heap s) (programs_file s).

Definition set_custom_menu_idx (x : Z) (s : State) : State :=
  mkState (main_state s) (main_menu_idx s) (simple_state s) x (create_state s)
    (run_state s) (load_state s) (load_program_idx s) (_last_enc s)
    (s_current_time_unit_idx s) (s_set_value s) (s_set_int s)
    (s_run_duration_sec s) (s_start_ts s) (saved_programs s)
    (current_program s) (temp_step s) (temp_program_name s)
    (temp_program_loops s) (c_run_duration_sec s) (c_start_ts s)
    (c_run_current_step s) (c_run_current_loop s) (temp_add_another s)
    (last_blink_ms s) (blink_state_on s) (lid_was_open s) (neopixel s) (uv s)
    (heap s) (programs_file s).

Definition set_create_state (x : Z) (s : State) : State :=
  mkState (main_state s) (main_menu_idx s) (simple_state s)
    (custom_menu_idx s) x (run_state s) (load_state s) (load_program_idx s)
    (_last_enc s) (s_current_time_unit_idx s) (s_set_value s) (s_set_int s)
    (s_run_duration_sec s) (s_start_ts s) (saved_programs s)
    (current_program s) (temp_step s) (temp_program_name s)
    (temp_program_loops s) (c_run_duration_sec s) (c_start_ts s)
    (c_run_current_step s) (c_run_current_loop s) (temp_add_another s)
    (last_blink_ms s) (blink_state_on s) (lid_was_open s) (neopixel s) (uv s)
    (heap s) (programs_file s).

Definition set_run_state (x : Z) (s : State) : State :=
  mkState (main_state s) (main_menu_idx s) (simple_state s)
    (custom_menu_idx s) (create_state s) x (load_state s) (load_program_idx s)
    (_last_enc s) (s_current_time_unit_idx s) (s_set_value s) (s_set_int s)
    (s_run_duration_sec s) (s_start_ts s) (saved_programs s)
    (current_program s) (temp_step s) (temp_program_name s)
    (temp_program_loops s) (c_run_duration_sec s) (c_start_ts s)
    (c_run_current_step s) (c_run_current_loop s) (temp_add_another s)
    (last_blink_ms s) (blink_state_on s) (lid_was_open s) (neopixel s) (uv s)
    (heap s) (programs_file s).

Definition set_load_state (x : Z) (s : State) : State :=
  mkState (main_state s) (main_menu_idx s) (simple_state s)
    (custom_menu_idx s) (create_state s) (run_state s) x (load_program_idx s)
    (_last_enc s) (s_current_time_unit_idx s) (s_set_value s) (s_set_int s)
    (s_run_duration_sec s) (s_start_ts s) (saved_programs s)
    (current_program s) (temp_step s) (temp_program_name s)
    (temp_program_loops s) (c_run_duration_sec s) (c_start_ts s)
    (c_run_current_step s) (c_run_current_loop s) (temp_add_another s)
    (last_blink_ms s) (blink_state_on s) (lid_was_open s) (neopixel s) (uv s)
    (heap s) (programs_file s).

Definition set_load_program_idx (x : Z) (s : State) : State :=
  mkState (main_state s) (main_menu_idx s) (simple_state s)
    (custom_menu_idx s) (create_state s) (run_state s) (load_state s) x
    (_last_enc s) (s_current_time_unit_idx s) (s_set_value s) (s_set_int s)
    (s_run_duration_sec s) (s_start_ts s) (saved_programs s)
    (current_program s) (temp_step s) (temp_program_name s)
    (temp_program_loops s) (c_run_duration_sec s) (c_start_ts s)
    (c_run_current_step s) (c_run_current_loop s) (temp_add_another s)
    (last_blink_ms s) (blink_state_on s) (lid_was_open s) (neopixel s) (uv s)
    (heap s) (programs_file s).

Definition set_last_enc (x : Z) (s : State) : State :=
  mkState (main_state s) (main_menu_idx s) (simple_state s)
    (custom_menu_idx s) (create_state s) (run_state s) (load_state s)
    (load_program_idx s) x (s_current_time_unit_idx s) (s_set_value s)
    (s_set_int s) (s_run_duration_sec s) (s_start_ts s) (saved_programs s)
    (current_program s) (temp_step s) (temp_program_name s)
    (temp_program_loops s) (c_run_duration_sec s) (c_start_ts s)
    (c_run_current_step s) (c_run_current_loop s) (temp_add_another s)
    (last_blink_ms s) (blink_state_on s) (lid_was_open s) (neopixel s) (uv s)
    (heap s) (programs_file s).

Definition set_s_current_time_unit_idx (x : Z) (s : State) : State :=
  mkState (main_state s) (main_menu_idx s) (simple_state s)
    (custom_menu_idx s) (create_state s) (run_state s) (load_state s)
    (load_program_idx s) (_last_enc s) x (s_set_value s) (s_set_int s)
    (s_run_duration_sec s) (s_start_ts s) (saved_programs s)
    (current_program s) (temp_step s) (temp_program_name s)
    (temp_program_loops s) (c_run_duration_sec s) (c_start_ts s)
    (c_run_current_step s) (c_run_current_loop s) (temp_add_another s)
    (last_blink_ms s) (blink_state_on s) (lid_was_open s) (neopixel s) (uv s)
    (heap s) (programs_file s).

Definition set_s_set_value (x : Z) (s : State) : State :=
  mkState (main_state s) (main_menu_idx s) (simple_state s)
    (custom_menu_idx s) (create_state s) (run_state s) (load_state s)
    (load_program_idx s) (_last_enc s) (s_current_time_unit_idx s) x
    (s_set_int s) (s_run_duration_sec s) (s_start_ts s) (saved_programs s)
    (current_program s) (temp_step s) (temp_program_name s)
    (temp_program_loops s) (c_run_duration_sec s) (c_start_ts s)
    (c_run_current_step s) (c_run_current_loop s) (temp_add_another s)
    (last_blink_ms s) (blink_state_on s) (lid_was_open s) (neopixel s) (uv s)
    (heap s) (programs_file s).

Definition set_s_set_int (x : Z) (s : State) : State :=
  mkState (main_state s) (main_menu_idx s) (simple_state s)
    (custom_menu_idx s) (create_state s) (run_state s) (load_state s)
    (load_program_idx s) (_last_enc s) (s_current_time_unit_idx s)
    (s_set_value s) x (s_run_duration_sec s) (s_start_ts s) (saved_programs s)
    (current_program s) (temp_step s) (temp_program_name s)
    (temp_program_loops s) (c_run_duration_sec s) (c_start_ts s)
    (c_run_current_step s) (c_run_current_loop s) (temp_add_another s)
    (last_blink_ms s) (blink_state_on s) (lid_was_open s) (neopixel s) (uv s)
    (heap s) (programs_file s).

Definition set_s_run_duration_sec (x : Q) (s : State) : State :=
  mkState (main_state s) (main_menu_idx s) (simple_state s)
    (custom_menu_idx s) (create_state s) (run_state s) (load_state s)
    (load_program_idx s) (_last_enc s) (s_current_time_unit_idx s)
    (s_set_value s) (s_set_int s) x (s_start_ts s) (saved_programs s)
    (current_program s) (temp_step s) (temp_program_name s)
    (temp_program_loops s) (c_run_duration_sec s) (c_start_ts s)
    (c_run_current_step s) (c_run_current_loop s) (temp_add_another s)
    (last_blink_ms s) (blink_state_on s) (lid_was_open s) (neopixel s) (uv s)
    (heap s) (programs_file s).

Definition set_s_start_ts (x : option Z) (s : State) : State :=
  mkState (main_state s) (main_menu_idx s) (simple_state s)
    (custom_menu_idx s) (create_state s) (run_state s) (load_state s)
    (load_program_idx s) (_last_enc s) (s_current_time_unit_idx s)
    (s_set_value s) (s_set_int s) (s_run_duration_sec s) x (saved_programs s)
    (current_program s) (temp_step s) (temp_program_name s)
    (temp_program_loops s) (c_run_duration_sec s) (c_start_ts s)
    (c_run_current_step s) (c_run_current_loop s) (temp_add_another s)
    (last_blink_ms s) (blink_state_on s) (lid_was_open s) (neopixel s) (uv s)
    (heap s) (programs_file s).

Definition set_saved_programs (x : list loc) (s : State) : State :=
  mkState (main_state s) (main_menu_idx s) (simple_state s)
    (custom_menu_idx s) (create_state s) (run_state s) (load_state s)
    (load_program_idx s) (_last_enc s) (s_current_time_unit_idx s)
    (s_set_value s) (s_set_int s) (s_run_duration_sec s) (s_start_ts s) x
    (current_program s) (temp_step s) (temp_program_name s)
    (temp_program_loops s) (c_run_duration_sec s) (c_start_ts s)
    (c_run_current_step s) (c_run_current_loop s) (temp_add_another s)
    (last_blink_ms s) (blink_state_on s) (lid_was_open s) (neopixel s) (uv s)
    (heap s) (programs_file s).

Definition set_current_program (x : loc) (s : State) : State :=
  mkState (main_state s) (main_menu_idx s) (simple_state s)
    (custom_menu_idx s) (create_state s) (run_state s) (load_state s)
    (load_program_idx s) (_last_enc s) (s_current_time_unit_idx s)
    (s_set_value s) (s_set_int s) (s_run_duration_sec s) (s_start_ts s)
    (saved_programs s) x (temp_step s) (temp_program_name s)
    (temp_program_loops s) (c_run_duration_sec s) (c_start_ts s)
    (c_run_current_step s) (c_run_current_loop s) (temp_add_another s)
    (last_blink_ms s) (blink_state_on s) (lid_was_open s) (neopixel s) (uv s)
    (heap s) (programs_file s).

Definition set_temp_step (x : Step) (s : State) : State :=
  mkState (main_state s) (main_menu_idx s) (simple_state s)
    (custom_menu_idx s) (create_state s) (run_state s) (load_state s)
    (load_program_idx s) (_last_enc s) (s_current_time_unit_idx s)
    (s_set_value s) (s_set_int s) (s_run_duration_sec s) (s_start_ts s)
    (saved_programs s) (current_program s) x (temp_program_name s)
    (temp_program_loops s) (c_run_duration_sec s) (c_start_ts s)
    (c_run_current_step s) (c_run_current_loop s) (temp_add_another s)
    (last_blink_ms s) (blink_state_on s) (lid_was_open s) (neopixel s) (uv s)
    (heap s) (programs_file s).

Definition set_temp_program_name (x : string) (s : State) : State :=
  mkState (main_state s) (main_menu_idx s) (simple_state s)
    (custom_menu_idx s) (create_state s) (run_state s) (load_state s)
    (load_program_idx s) (_last_enc s) (s_current_time_unit_idx s)
    (s_set_value s) (s_set_int s) (s_run_duration_sec s) (s_start_ts s)
    (saved_programs s) (current_program s) (temp_step s) x
    (temp_program_loops s) (c_run_duration_sec s) (c_start_ts s)
    (c_run_current_step s) (c_run_current_loop s) (temp_add_another s)
    (last_blink_ms s) (blink_state_on s) (lid_was_open s) (neopixel s) (uv s)
    (heap s) (programs_file s).

Definition set_temp_program_loops (x : Z) (s : State) : State :=
  mkState (main_state s) (main_menu_idx s) (simple_state s)
    (custom_menu_idx s) (create_state s) (run_state s) (load_state s)
    (load_program_idx s) (_last_enc s) (s_current_time_unit_idx s)
    (s_set_value s) (s_set_int s) (s_run_duration_sec s) (s_start_ts s)
    (saved_programs s) (current_program s) (temp_step s) (temp_program_name s)
    x (c_run_duration_sec s) (c_start_ts s) (c_run_current_step s)
    (c_run_current_loop s) (temp_add_another s) (last_blink_ms s)
    (blink_state_on s) (lid_was_open s) (neopixel s) (uv s) (heap s)
    (programs_file s).

Definition set_c_run_duration_sec (x : Q) (s : State) : State :=
  mkState (main_state s) (main_menu_idx s) (simple_state s)
    (custom_menu_idx s) (create_state s) (run_state s) (load_state s)
    (load_program_idx s) (_last_enc s) (s_current_time_unit_idx s)
    (s_set_value s) (s_set_int s) (s_run_duration_sec s) (s_start_ts s)
    (saved_programs s) (current_program s) (temp_step s) (temp_program_name s)
    (temp_program_loops s) x (c_start_ts s) (c_run_current_step s)
    (c_run_current_loop s) (temp_add_another s) (last_blink_ms s)
    (blink_state_on s) (lid_was_open s) (neopixel s) (uv s) (heap s)
    (programs_file s).

Definition set_c_start_ts (x : option Z) (s : State) : State :=
  mkState (main_state s) (main_menu_idx s) (simple_state s)
    (custom_menu_idx s) (create_state s) (run_state s) (load_state s)
    (load_program_idx s) (_last_enc s) (s_current_time_unit_idx s)
    (s_set_value s) (s_set_int s) (s_run_duration_sec s) (s_start_ts s)
    (saved_programs s) (current_program s) (temp_step s) (temp_program_name s)
    (temp_program_loops s) (c_run_duration_sec s) x (c_run_current_step s)
    (c_run_current_loop s) (temp_add_another s) (last_blink_ms s)
    (blink_state_on s) (lid_was_open s) (neopixel s) (uv s) (heap s)
    (programs_file s).

Definition set_c_run_current_step (x : Z) (s : State) : State :=
  mkState (main_state s) (main_menu_idx s) (simple_state s)
    (custom_menu_idx s) (create_state s) (run_state s) (load_state s)
    (load_program_idx s) (_last_enc s) (s_current_time_unit_idx s)
    (s_set_value s) (s_set_int s) (s_run_duration_sec s) (s_start_ts s)
    (saved_programs s) (current_program s) (temp_step s) (temp_program_name s)
    (temp_program_loops s) (c_run_duration_sec s) (c_start_ts s) x
    (c_run_current_loop s) (temp_add_another s) (last_blink_ms s)
    (blink_state_on s) (lid_was_open s) (neopixel s) (uv s) (heap s)
    (programs_file s).

Definition set_c_run_current_loop (x : Z) (s : State) : State :=
  mkState (main_state s) (main_menu_idx s) (simple_state s)
    (custom_menu_idx s) (create_state s) (run_state s) (load_state s)
    (load_program_idx s) (_last_enc s) (s_current_time_unit_idx s)
    (s_set_value s) (s_set_int s) (s_run_duration_sec s) (s_start_ts s)
    (saved_programs s) (current_program s) (temp_step s) (temp_program_name s)
    (temp_program_loops s) (c_run_duration_sec s) (c_start_ts s)
    (c_run_current_step s) x (temp_add_another s) (last_blink_ms s)
    (blink_state_on s) (lid_was_open s) (neopixel s) (uv s) (heap s)
    (programs_file s).

Definition set_temp_add_another (x : bool) (s : State) : State :=
  mkState (main_state s) (main_menu_idx s) (simple_state s)
    (custom_menu_idx s) (create_state s) (run_state s) (load_state s)
    (load_program_idx s) (_last_enc s) (s_current_time_unit_idx s)
    (s_set_value s) (s_set_int s) (s_run_duration_sec s) (s_start_ts s)
    (saved_programs s) (current_program s) (temp_step s) (temp_program_name s)
    (temp_program_loops s) (c_run_duration_sec s) (c_start_ts s)
    (c_run_current_step s) (c_run_current_loop s) x (last_blink_ms s)
    (blink_state_on s) (lid_was_open s) (neopixel s) (uv s) (heap s)
    (programs_file s).

Definition set_last_blink_ms (x : Z) (s : State) : State :=
  mkState (main_state s) (main_menu_idx s) (simple_state s)
    (custom_menu_idx s) (create_state s) (run_state s) (load_state s)
    (load_program_idx s) (_last_enc s) (s_current_time_unit_idx s)
    (s_set_value s) (s_set_int s) (s_run_duration_sec s) (s_start_ts s)
    (saved_programs s) (current_program s) (temp_step s) (temp_program_name s)
    (temp_program_loops s) (c_run_duration_sec s) (c_start_ts s)
    (c_run_current_step s) (c_run_current_loop s) (temp_add_another s) x
    (blink_state_on s) (lid_was_open s) (neopixel s) (uv s) (heap s)
    (programs_file s).

Definition set_blink_state_on (x : bool) (s : State) : State :=
  mkState (main_state s) (main_menu_idx s) (simple_state s)
    (custom_menu_idx s) (create_state s) (run_state s) (load_state s)
    (load_program_idx s) (_last_enc s) (s_current_time_unit_idx s)
    (s_set_value s) (s_set_int s) (s_run_duration_sec s) (s_start_ts s)
    (saved_programs s) (current_program s) (temp_step s) (temp_program_name s)
    (temp_program_loops s) (c_run_duration_sec s) (c_start_ts s)
    (c_run_current_step s) (c_run_current_loop s) (temp_add_another s)
    (last_blink_ms s) x (lid_was_open s) (neopixel s) (uv s) (heap s)
    (programs_file s).

Definition set_lid_was_open (x : bool) (s : State) : State :=
  mkState (main_state s) (main_menu_idx s) (simple_state s)
    (custom_menu_idx s) (create_state s) (run_state s) (load_state s)
    (load_program_idx s) (_last_enc s) (s_current_time_unit_idx s)
    (s_set_value s) (s_set_int s) (s_run_duration_sec s) (s_start_ts s)
    (saved_programs s) (current_program s) (temp_step s) (temp_program_name s)
    (temp_program_loops s) (c_run_duration_sec s) (c_start_ts s)
    (c_run_current_step s) (c_run_current_loop s) (temp_add_another s)
    (last_blink_ms s) (blink_state_on s) x (neopixel s) (uv s) (heap s)
    (programs_file s).

Definition set_uv (x : Q) (s : State) : State :=
  mkState (main_state s) (main_menu_idx s) (simple_state s)
    (custom_menu_idx s) (create_state s) (run_state s) (load_state s)
    (load_program_idx s) (_last_enc s) (s_current_time_unit_idx s)
    (s_set_value s) (s_set_int s) (s_run_duration_sec s) (s_start_ts s)
    (saved_programs s) (current_program s) (temp_step s) (temp_program_name s)
    (temp_program_loops s) (c_run_duration_sec s) (c_start_ts s)
    (c_run_current_step s) (c_run_current_loop s) (temp_add_another s)
    (last_blink_ms s) (blink_state_on s) (lid_was_open s) (neopixel s) x
    (heap s) (programs_file s).

Definition set_heap (x : list Program) (s : State) : State :=
  mkState (main_state s) (main_menu_idx s) (simple_state s)
    (custom_menu_idx s) (create_state s) (run_state s) (load_state s)
    (load_program_idx s) (_last_enc s) (s_current_time_unit_idx s)
    (s_set_value s) (s_set_int s) (s_run_duration_sec s) (s_start_ts s)
    (saved_programs s) (current_program s) (temp_step s) (temp_program_name s)
    (temp_program_loops s) (c_run_duration_sec s) (c_start_ts s)
    (c_run_current_step s) (c_run_current_loop s) (temp_add_another s)
    (last_blink_ms s) (blink_state_on s) (lid_was_open s) (neopixel s) (uv s)
    x (programs_file s).

Definition set_programs_file (x : FileState) (s : State) : State :=
  mkState (main_state s) (main_menu_idx s) (simple_state s)
    (custom_menu_idx s) (create_state s) (run_state s) (load_state s)
    (load_program_idx s) (_last_enc s) (s_current_time_unit_idx s)
    (s_set_value s) (s_set_int s) (s_run_duration_sec s) (s_start_ts s)
    (saved_programs s) (current_program s) (temp_step s) (temp_program_name s)
    (temp_program_loops s) (c_run_duration_sec s) (c_start_ts s)
    (c_run_current_step s) (c_run_current_loop s) (temp_add_another s)
    (last_blink_ms s) (blink_state_on s) (lid_was_open s) (neopixel s) (uv s)
    (heap s) x.

(** ** The monad of the loop body: state, [continue] and exceptions *)

Inductive Res (A : Type) :=
  | Normal (a : A) (s : State)
  | Continue (s : State)
  | Raise.
Arguments Normal {A} a s.
Arguments Continue {A} s.
Arguments Raise {A}.

Definition M (A : Type) : Type := State -> Res A.

Definition ret {A : Type} (a : A) : M A := fun s => Normal a s.

Definition bind {A B : Type} (m : M A) (k : A -> M B) : M B :=
  fun s => match m s with
           | Normal a s' => k a s'
           | Continue s' => Continue s'
           | Raise => Raise
           end.

Declare Scope M_scope.
Delimit Scope M_scope with M.
Bind Scope M_scope with M.
Notation "x <- m ;; k" := (bind m (fun x => k))
  (at level 100, m at next level, k at level 200, right associativity) : M_scope.
Notation "m ;; k" := (bind m (fun _ => k))
  (at level 100, k at level 200, right associativity) : M_scope.
Local Open Scope M_scope.

(** Read a global. *)
Definition get {A : Type} (f : State -> A) : M A := fun s => Normal (f s) s.
(** Assign a global. *)
Definition assign {A : Type} (f : A -> State -> State) (x : A) : M unit :=
  fun s => Normal tt (f x s).
Definition continue_ {A : Type} : M A := fun s => Continue s.
Definition raise {A : Type} : M A := fun _ => Raise.
Definition skip : M unit := ret tt.

(** A subscript that can raise. *)
Definition subscript {A : Type} (o : option A) : M A :=
  match o with
  | Some a => ret a
  | None => raise
  end.

Definition when (b : bool) (m : M unit) : M unit := if b then m else skip.

Definition read_delta (v : Z) : M Z :=
  last <- get _last_enc ;;
  let d := v - last in
  when (negb (d =? 0)) (assign set_last_enc v) ;;
  ret d.

(** ** Heap and output primitives *)

Definition deref (l : loc) : M Program :=
  h <- get heap ;; subscript (h !! l).

Definition store (l : loc) (p : Program) : M unit :=
  h <- get heap ;; assign set_heap (<[l := p]> h).

(** A dictionary display [{...}] creates a new object. *)
Definition alloc (p : Program) : M loc :=
  h <- get heap ;; assign set_heap (h ++ [p]) ;; ret (length h).

(** [uv.off()] *)
Definition uv_off : M unit := assign set_uv 0%Q.

(** [uv.value = i / 100.0] *)
Definition uv_value (i : Z) : M unit := assign set_uv (inject_Z i / 100)%Q.

(** Evaluation of a subscript that is only displayed. *)
Definition shown {A : Type} (o : option A) : M unit :=
  _ <- subscript o ;; skip.

Definition is_not_None {A : Type} (o : option A) : bool :=
  match o with Some _ => true | None => false end.

(** [max(0, duration - elapsed)] *)
Definition remaining (duration elapsed : Q) : Q :=
  let r := (duration - elapsed)%Q in
  if Qle_bool r 0 then 0%Q else r.

(** [remain_sec <= 0] *)
Definition expired (remain_sec : Q) : bool := Qle_bool remain_sec 0.

(** [ticks_diff(now, start) / 1000.0] *)
Definition elapsed_sec (now_ start : Z) : Q :=
  (inject_Z (ticks_diff now_ start) / 1000)%Q.

(** ** 1. Safety and indicator management (lines 268-308) *)

Definition run_in_progress (ms ss : Z) (cts : option Z) : bool :=
  ((ms =? MODE_SIMPLE) && (ss =? S_RUNNING))
  || ((ms =? MODE_CUSTOM_MENU) && is_not_None cts).

Definition lid_emergency_stop : M unit :=
  uv_off ;;
  assign set_main_state MODE_MAIN_MENU ;;
  assign set_simple_state S_IDLE ;;
  assign set_c_start_ts None ;;
  continue_.

Definition safety_check (is_lid_open : bool) : M unit :=
  when is_lid_open (
    ms <- get main_state ;;
    ss <- get simple_state ;;
    cts <- get c_start_ts ;;
    when (run_in_progress ms ss cts) lid_emergency_stop).

Definition blink_toggle (now_ : Z) : M unit :=
  np <- get neopixel ;;
  last <- get last_blink_ms ;;
  when (np && (blink_interval_ms <? ticks_diff now_ last)) (
    assign set_last_blink_ms now_ ;;
    b <- get blink_state_on ;;
    assign set_blink_state_on (negb b)).

Definition indicator (now_ : Z) (is_lid_open : bool) : M unit :=
  ss <- get simple_state ;;
  rs <- get run_state ;;
  if (ss =? S_DONE) || (rs =? C_RUN_DONE) then blink_toggle now_
  else if is_lid_open then
    (blink_toggle now_ ;; assign set_lid_was_open true)
  else
    (lwo <- get lid_was_open ;;
     when (negb is_lid_open && lwo) (assign set_lid_was_open false)).

(** ** 2. Main menu (lines 313-336) *)

Definition main_menu (d : Z) (is_lid_open : bool) (b : Button) : M unit :=
  when (negb (d =? 0)) (
    i <- get main_menu_idx ;;
    assign set_main_menu_idx ((i + 1) mod 2) ;;
    i' <- get main_menu_idx ;;
    shown (py_index main_menu_items i')) ;;
  when (is_pressed b) (
    if is_lid_open then skip
    else
      (i <- get main_menu_idx ;;
       if i =? 0 then
         (assign set_main_state MODE_SIMPLE ;;
          assign set_simple_state S_IDLE)
       else if i =? 1 then
         (assign set_main_state MODE_CUSTOM_MENU ;;
          assign set_custom_menu_idx 0 ;;
          i' <- get custom_menu_idx ;;
          shown (py_index custom_menu_items i'))
       else skip)).

(** ** 3. Simple mode (lines 339-426) *)

(** Rotation of the time-unit selector, shared by lines 356-359 and
    684-687 (the latter also displays the number of steps). *)
Definition rotate_time_unit (d : Z) : M unit :=
  i <- get s_current_time_unit_idx ;;
  assign set_s_current_time_unit_idx ((i + dir d) mod Z.of_nat (length TIME_UNITS)) ;;
  i' <- get s_current_time_unit_idx ;;
  e <- subscript (py_index TIME_UNITS i') ;;
  assign set_s_set_value (unit_default e).

(** Rotation of the time value for unit [unit_idx] (lines 367-371 and
    690-692). *)
Definition rotate_time (unit_idx d : Z) : M unit :=
  step <- subscript (py_index TIME_STEPS unit_idx) ;;
  e <- subscript (py_index TIME_UNITS unit_idx) ;;
  let min_val := unit_min e in
  let max_val := unit_max e in
  v <- get s_set_value ;;
  assign set_s_set_value (clamp min_val max_val (v + step * dir d)).

(** Rotation of the intensity (lines 380 and 696). *)
Definition rotate_intensity (d : Z) : M unit :=
  i <- get s_set_int ;;
  assign set_s_set_int (clamp INT_MIN INT_MAX (i + INT_STEP * dir d)).

Definition simple_idle (is_lid_open : bool) (b : Button) : M unit :=
  when (is_pressed b) (
    if is_lid_open then skip
    else
      (assign set_simple_state S_SET_TIME_UNIT ;;
       i <- get s_current_time_unit_idx ;;
       shown (py_index TIME_UNITS i))).

Definition simple_set_time_unit (d : Z) (b : Button) : M unit :=
  when (negb (d =? 0)) (rotate_time_unit d) ;;
  when (is_pressed b) (assign set_simple_state S_SET_TIME).

Definition simple_set_time (d : Z) (b : Button) : M unit :=
  when (negb (d =? 0)) (
    unit_idx <- get s_current_time_unit_idx ;;
    rotate_time unit_idx d) ;;
  when (is_pressed b) (assign set_simple_state S_SET_INTENS).

Definition simple_set_intens (d : Z) (is_lid_open : bool) (b : Button)
    (stamp_ : Z) : M unit :=
  when (negb (d =? 0)) (rotate_intensity d) ;;
  when (is_pressed b) (
    if is_lid_open then skip
    else
      (idx <- get s_current_time_unit_idx ;;
       v <- get s_set_value ;;
       (if idx =? 0 then assign set_s_run_duration_sec (inject_Z v)
        else if idx =? 1 then assign set_s_run_duration_sec (inject_Z (v * 60))
        else if idx =? 2 then assign set_s_run_duration_sec (inject_Z v / 1000)%Q
        else skip) ;;
       i <- get s_set_int ;;
       uv_value i ;;
       assign set_s_start_ts (Some stamp_) ;;
       assign set_simple_state S_RUNNING)).

Definition simple_running (now_ : Z) (b : Button) : M unit :=
  ts <- get s_start_ts ;;
  start <- subscript ts ;;
  dur <- get s_run_duration_sec ;;
  let remain_sec := remaining dur (elapsed_sec now_ start) in
  when (is_long b) (
    uv_off ;; assign set_s_start_ts None ;;
    assign set_simple_state S_IDLE ;;
    assign set_main_state MODE_MAIN_MENU) ;;
  when (expired remain_sec) (
    uv_off ;; assign set_s_start_ts None ;;
    assign set_simple_state S_DONE ;;
    assign set_last_blink_ms now_ ;;
    assign set_blink_state_on true).

Definition simple_done (b : Button) : M unit :=
  when (is_pressed b) (
    assign set_simple_state S_IDLE ;;
    assign set_main_state MODE_MAIN_MENU ;;
    i <- get main_menu_idx ;;
    shown (py_index main_menu_items i) ;;
    assign set_lid_was_open true).

Definition simple_mode (d now_ : Z) (is_lid_open : bool) (b : Button)
    (stamp_ : Z) : M unit :=
  ss <- get simple_state ;;
  if ss =? S_IDLE then simple_idle is_lid_open b
  else if ss =? S_SET_TIME_UNIT then simple_set_time_unit d b
  else if ss =? S_SET_TIME then simple_set_time d b
  else if ss =? S_SET_INTENS then simple_set_intens d is_lid_open b stamp_
  else if ss =? S_RUNNING then simple_running now_ b
  else if ss =? S_DONE then simple_done b
  else skip.

(** ** 4. Custom menu (lines 429-588) *)

(** Start of a step (lines 470-473, 476-479, 551-554): duty, duration and
    start timestamp from the step dictionary. *)
Definition start_step (new_step : Step) (stamp_ : Z) : M unit :=
  i <- subscript (step_i new_step) ;;
  uv_value i ;;
  dur <- subscript (get_duration_sec new_step) ;;
  assign set_c_run_duration_sec dur ;;
  assign set_c_start_ts (Some stamp_).

(** The branch [if remain_sec <= 0:] of the run (lines 454-479). *)
Definition custom_step_expired (now_ stamp_ : Z) : M unit :=
  k <- get c_run_current_step ;;
  assign set_c_run_current_step (k + 1) ;;
  k' <- get c_run_current_step ;;
  cp <- get current_program ;;
  p <- deref cp ;;
  steps <- subscript (prog_steps p) ;;
  if Z.of_nat (length steps) <=? k' then
    (assign set_c_run_current_step 0 ;;
     l <- get c_run_current_loop ;;
     assign set_c_run_current_loop (l + 1) ;;
     l' <- get c_run_current_loop ;;
     loops <- subscript (prog_loops p) ;;
     if loops <? l' then
       (uv_off ;; assign set_c_start_ts None ;;
        assign set_run_state C_RUN_DONE ;;
        assign set_last_blink_ms now_ ;;
        assign set_blink_state_on true)
     else
       (k0 <- get c_run_current_step ;;
        new_step <- subscript (py_index steps k0) ;;
        start_step new_step stamp_))
  else
    (new_step <- subscript (py_index steps k') ;;
     start_step new_step stamp_).

(** The run of a custom program (lines 432-479); [start] is the value of
    [c_start_ts]. *)
Definition custom_run (now_ : Z) (start : Z) (b : Button) (stamp_ : Z) : M unit :=
  dur <- get c_run_duration_sec ;;
  let remain_sec := remaining dur (elapsed_sec now_ start) in
  cp <- get current_program ;;
  p <- deref cp ;;
  steps <- subscript (prog_steps p) ;;
  k <- get c_run_current_step ;;
  step <- subscript (py_index steps k) ;;
  shown (step_i step) ;;
  shown (prog_loops p) ;;
  when (is_long b) (
    uv_off ;; assign set_c_start_ts None ;;
    assign set_main_state MODE_MAIN_MENU) ;;
  when (expired remain_sec) (custom_step_expired now_ stamp_).

Definition custom_run_done (b : Button) : M unit :=
  when (is_pressed b) (
    assign set_run_state C_RUN_START ;;
    assign set_main_state MODE_MAIN_MENU ;;
    i <- get main_menu_idx ;;
    shown (py_index main_menu_items i) ;;
    assign set_lid_was_open true).

(** [saved_programs[i]["name"]] *)
Definition saved_name (i : Z) : M string :=
  sp <- get saved_programs ;;
  r <- subscript (py_index sp i) ;;
  p <- deref r ;;
  subscript (prog_name p).

Definition menu_select_load : M unit :=
  assign set_load_state C_LOAD_SELECT ;;
  assign set_load_program_idx 0 ;;
  sp <- get saved_programs ;;
  match sp with
  | [] =>
      assign set_load_state (-1) ;;
      i <- get custom_menu_idx ;;
      shown (py_index custom_menu_items i)
  | _ :: _ =>
      i <- get load_program_idx ;;
      _ <- saved_name i ;; skip
  end.

Definition menu_select_create : M unit :=
  assign set_main_state MODE_CUSTOM_CREATE ;;
  assign set_create_state C_CREATE_START ;;
  r <- alloc (mkProgram (Some "New"%string) (Some 1) (Some [])) ;;
  assign set_current_program r ;;
  assign set_temp_step empty_step.

Definition menu_select_run (stamp_ : Z) : M unit :=
  cp <- get current_program ;;
  p <- deref cp ;;
  if dict_is_empty p || no_steps p then
    (i <- get custom_menu_idx ;;
     shown (py_index custom_menu_items i))
  else
    (assign set_run_state C_RUN_START ;;
     assign set_c_run_current_step 0 ;;
     assign set_c_run_current_loop 1 ;;
     steps <- subscript (prog_steps p) ;;
     step <- subscript (py_index steps 0) ;;
     start_step step stamp_).

(** Plain navigation (lines 492-554). *)
Definition custom_navigate (d : Z) (is_lid_open : bool) (b : Button)
    (stamp_ : Z) : M unit :=
  when (negb (d =? 0)) (
    i <- get custom_menu_idx ;;
    assign set_custom_menu_idx
      ((i + dir d) mod Z.of_nat (length custom_menu_items)) ;;
    i' <- get custom_menu_idx ;;
    shown (py_index custom_menu_items i')) ;;
  when (is_pressed b) (
    if is_long b then
      (assign set_main_state MODE_MAIN_MENU ;;
       i <- get main_menu_idx ;;
       shown (py_index main_menu_items i))
    else
      (when is_lid_open continue_ ;;
       i <- get custom_menu_idx ;;
       if i =? C_MENU_LOAD then menu_select_load
       else if i =? C_MENU_CREATE then menu_select_create
       else if i =? C_MENU_RUN then menu_select_run stamp_
       else skip)).

(** The Load sub-state (lines 558-588). *)
Definition custom_load (d : Z) (b : Button) : M unit :=
  ls <- get load_state ;;
  when (ls =? C_LOAD_SELECT) (
    sp <- get saved_programs ;;
    when (negb (d =? 0) && negb (bool_decide (sp = []))) (
      i <- get load_program_idx ;;
      assign set_load_program_idx ((i + dir d) mod Z.of_nat (length sp)) ;;
      i' <- get load_program_idx ;;
      _ <- saved_name i' ;; skip) ;;
    when (is_pressed b) (
      if is_long b then
        (assign set_load_state (-1) ;;
         i <- get custom_menu_idx ;;
         shown (py_index custom_menu_items i))
      else
        when (negb (bool_decide (sp = []))) (
          i <- get load_program_idx ;;
          r <- subscript (py_index sp i) ;;
          assign set_current_program r ;;
          assign set_load_state (-1) ;;
          p <- deref r ;;
          shown (prog_name p) ;;
          j <- get custom_menu_idx ;;
          shown (py_index custom_menu_items j)))).

(** The whole branch [elif main_state == MODE_CUSTOM_MENU:].  The Load
    block comes after the if/elif chain and samples the button anew when a
    branch of the chain has sampled it already. *)
Definition custom_menu (d now_ : Z) (is_lid_open : bool) (b b2 : Button)
    (stamp_ : Z) : M unit :=
  cts <- get c_start_ts ;;
  rs <- get run_state ;;
  ls <- get load_state ;;
  sampled <-
    match cts with
    | Some start => custom_run now_ start b stamp_ ;; ret true
    | None =>
        if rs =? C_RUN_DONE then (custom_run_done b ;; ret true)
        else if ls =? -1 then
          (custom_navigate d is_lid_open b stamp_ ;; ret true)
        else ret false
    end ;;
  ls' <- get load_state ;;
  when (negb (ls' =? -1)) (custom_load d (if sampled then b2 else b)).

(** ** 5. Custom create (lines 592-714) *)

(** [len(current_program['steps'])], evaluated for the display. *)
Definition show_step_count : M unit :=
  cp <- get current_program ;;
  p <- deref cp ;;
  shown (prog_steps p).

(** [[p["name"] for p in saved_programs]] *)
Fixpoint names_of (h : list Program) (refs : list loc) : option (list string) :=
  match refs with
  | [] => Some []
  | r :: rest =>
      p ← h !! r;
      n ← prog_name p;
      ns ← names_of h rest;
      Some (n :: ns)
  end.

(** [f"P-{p_num:02d}"] *)
Definition program_name (p_num : Z) : string := ("P-" ++ fmt_02d p_num)%string.

(** [while f"P-{p_num:02d}" in p_names: p_num += 1]; the loop leaves
    within [length p_names] increments, which is the fuel given to it
    (lemma [first_unused_is_unused]). *)
Fixpoint first_unused (fuel : nat) (p_num : Z) (p_names : list string) : Z :=
  match fuel with
  | O => p_num
  | S fuel' =>
      if existsb (String.eqb (program_name p_num)) p_names
      then first_unused fuel' (p_num + 1) p_names
      else p_num
  end.

(** The contents of the dictionaries a list of references points to. *)
Fixpoint deref_all (h : list Program) (refs : list loc) : option (list Program) :=
  match refs with
  | [] => Some []
  | r :: rest =>
      p ← h !! r;
      ps ← deref_all h rest;
      Some (p :: ps)
  end.

(** The search loop of lines 667-670: index of the first stored program
    whose name equals that of [cur], else -1. *)
Fixpoint find_by_name (ps : list Program) (cur : Program) (i : Z) : option Z :=
  match ps with
  | [] => Some (-1)
  | p :: rest =>
      n ← prog_name p;
      c ← prog_name cur;
      if String.eqb n c then Some i else find_by_name rest cur (i + 1)
  end.

(** The Save confirmation (lines 665-679). *)
Definition create_save_prog (w : WriteOutcome) : M unit :=
  sp <- get saved_programs ;;
  h <- get heap ;;
  cp <- get current_program ;;
  ps <- subscript (deref_all h sp) ;;
  cur <- deref cp ;;
  found_idx <- subscript (find_by_name ps cur 0) ;;
  (if negb (found_idx =? -1)
   then assign set_saved_programs (<[Z.to_nat found_idx := cp]> sp)
   else assign set_saved_programs (sp ++ [cp])) ;;
  sp' <- get saved_programs ;;
  programs_list <- subscript (deref_all h sp') ;;
  f <- get programs_file ;;
  let r := save_programs_to_file w programs_list f in
  assign set_programs_file r.2 ;;
  match r.1 with
  | Returns _ =>
      assign set_main_state MODE_CUSTOM_MENU ;;
      assign set_custom_menu_idx 0 ;;
      i <- get custom_menu_idx ;;
      shown (py_index custom_menu_items i)
  | Raises _ => raise
  end.

(** [current_program["steps"].append(t)] (line 635): the dictionary that
    [current_program] refers to is changed in place. *)
Definition current_program_append_step (t : Step) : M unit :=
  cp <- get current_program ;;
  p <- deref cp ;;
  steps <- subscript (prog_steps p) ;;
  store cp (mkProgram (prog_name p) (prog_loops p) (Some (steps ++ [t]))).

(** [current_program["loops"] = n] (line 653) *)
Definition current_program_set_loops (n : Z) : M unit :=
  cp <- get current_program ;;
  p <- deref cp ;;
  store cp (mkProgram (prog_name p) (Some n) (prog_steps p)).

(** [current_program["name"] = n] (line 661) *)
Definition current_program_set_name (n : string) : M unit :=
  cp <- get current_program ;;
  p <- deref cp ;;
  store cp (mkProgram (Some n) (prog_loops p) (prog_steps p)).

(** A short press in the wizard (lines 613-679). *)
Definition create_short_press (w : WriteOutcome) : M unit :=
  cs <- get create_state ;;
  if cs =? C_CREATE_START then
    (assign set_create_state C_CREATE_SET_TIME_UNIT ;;
     assign set_s_current_time_unit_idx 0 ;;
     e <- subscript (py_index TIME_UNITS 0) ;;
     assign set_s_set_value (unit_default e) ;;
     show_step_count)
  else if cs =? C_CREATE_SET_TIME_UNIT then
    (assign set_create_state C_CREATE_SET_TIME ;;
     i <- get s_current_time_unit_idx ;;
     v <- get s_set_value ;;
     assign set_temp_step (mkStep (Some i) (Some v) None) ;;
     show_step_count)
  else if cs =? C_CREATE_SET_TIME then
    (v <- get s_set_value ;;
     t <- get temp_step ;;
     assign set_temp_step (mkStep (step_u t) (Some v) (step_i t)) ;;
     assign set_create_state C_CREATE_SET_INTENS ;;
     assign set_s_set_int 50 ;;
     show_step_count)
  else if cs =? C_CREATE_SET_INTENS then
    (i <- get s_set_int ;;
     t <- get temp_step ;;
     assign set_temp_step (mkStep (step_u t) (step_v t) (Some i)) ;;
     t' <- get temp_step ;;
     current_program_append_step t' ;;
     assign set_create_state C_CREATE_ADD_STEP ;;
     assign set_temp_add_another true)
  else if cs =? C_CREATE_ADD_STEP then
    (another <- get temp_add_another ;;
     if another then
       (assign set_create_state C_CREATE_SET_TIME_UNIT ;;
        assign set_s_current_time_unit_idx 0 ;;
        i <- get s_current_time_unit_idx ;;
        e <- subscript (py_index TIME_UNITS i) ;;
        assign set_s_set_value (unit_default e) ;;
        show_step_count)
     else
       (assign set_create_state C_CREATE_SET_LOOPS ;;
        assign set_temp_program_loops 1))
  else if cs =? C_CREATE_SET_LOOPS then
    (n <- get temp_program_loops ;;
     current_program_set_loops n ;;
     assign set_create_state C_CREATE_SET_NAME ;;
     sp <- get saved_programs ;;
     h <- get heap ;;
     p_names <- subscript (names_of h sp) ;;
     let p_num := first_unused (length p_names) 1 p_names in
     assign set_temp_program_name (program_name p_num))
  else if cs =? C_CREATE_SET_NAME then
    (n <- get temp_program_name ;;
     current_program_set_name n ;;
     assign set_create_state C_CREATE_SAVE_PROG)
  else if cs =? C_CREATE_SAVE_PROG then create_save_prog w
  else skip.

(** The suffix parsed back from the name (lines 708-711): any exception
    falls back to 1. *)
Definition name_suffix (name : string) : Z :=
  match py_index (split_on "-"%char name) 1 ≫= py_int with
  | Some n => n
  | None => 1
  end.

(** A rotation in the wizard (lines 682-714). *)
Definition create_rotate (d : Z) : M unit :=
  cs <- get create_state ;;
  if cs =? C_CREATE_SET_TIME_UNIT then
    (i <- get s_current_time_unit_idx ;;
     assign set_s_current_time_unit_idx
       ((i + dir d) mod Z.of_nat (length TIME_UNITS)) ;;
     i' <- get s_current_time_unit_idx ;;
     e <- subscript (py_index TIME_UNITS i') ;;
     show_step_count ;;
     assign set_s_set_value (unit_default e))
  else if cs =? C_CREATE_SET_TIME then
    (t <- get temp_step ;;
     unit_idx <- subscript (step_u t) ;;
     rotate_time unit_idx d ;;
     show_step_count)
  else if cs =? C_CREATE_SET_INTENS then
    (rotate_intensity d ;; show_step_count)
  else if cs =? C_CREATE_ADD_STEP then
    (another <- get temp_add_another ;;
     assign set_temp_add_another (negb another) ;;
     show_step_count)
  else if cs =? C_CREATE_SET_LOOPS then
    (n <- get temp_program_loops ;;
     assign set_temp_program_loops (clamp 1 99 (n + dir d)))
  else if cs =? C_CREATE_SET_NAME then
    (name <- get temp_program_name ;;
     let p_num := clamp 1 99 (name_suffix name + dir d) in
     assign set_temp_program_name (program_name p_num))
  else skip.

Definition custom_create (d : Z) (b : Button) (w : WriteOutcome) : M unit :=
  if is_pressed b then
    if is_long b then
      (assign set_main_state MODE_CUSTOM_MENU ;;
       assign set_create_state C_CREATE_START ;;
       i <- get custom_menu_idx ;;
       shown (py_index custom_menu_items i) ;;
       continue_)
    else create_short_press w
  else when (negb (d =? 0)) (create_rotate d).

(** ** The super loop *)

(** "2. State Machine Logic": the dispatch on [main_state] (lines 313-714). *)
Definition state_machine (d : Z) (inp : Input) : M unit :=
  let now_ := now inp in
  let is_lid_open := lid_open inp in
  ms <- get main_state ;;
  if ms =? MODE_MAIN_MENU then main_menu d is_lid_open (btn inp)
  else if ms =? MODE_SIMPLE then
    simple_mode d now_ is_lid_open (btn inp) (stamp inp)
  else if ms =? MODE_CUSTOM_MENU then
    custom_menu d now_ is_lid_open (btn inp) (btn_again inp) (stamp inp)
  else if ms =? MODE_CUSTOM_CREATE then custom_create d (btn inp) (write inp)
  else skip.

(** One iteration of [while True:] (lines 262-717). *)
Definition loop_body (inp : Input) : M unit :=
  d <- read_delta (enc_value inp) ;;
  let now_ := now inp in
  let is_lid_open := lid_open inp in
  safety_check is_lid_open ;;
  indicator now_ is_lid_open ;;
  state_machine d inp.

(** The globals at the end of the iteration; [None] when the iteration
    dies of an uncaught exception. *)
Definition tick (inp : Input) (s : State) : option State :=
  match loop_body inp s with
  | Normal _ s' => Some s'
  | Continue s' => Some s'
  | Raise => None
  end.

(** The iterations for a list of readings, oldest first. *)
Fixpoint ticks (inps : list Input) (s : State) : option State :=
  match inps with
  | [] => Some s
  | inp :: rest =>
      match tick inp s with
      | Some s' => ticks rest s'
      | None => None
      end
  end.

(** ** Start-up (lines 141-258) *)

(** The globals when the super loop is entered: [f] is the programs file,
    [enc0] the first encoder value, [t0] the tick count at line 218,
    [lid_open_at_boot] the lid switch at line 245 and [np] whether the
    NeoPixel object could be created. *)
Definition boot (f : FileState) (enc0 t0 : Z) (lid_open_at_boot np : bool) : State :=
  let loaded :=
    match load_programs_from_file f with
    | Returns programs => programs
    | Raises _ => []
    end in
  {| main_state := MODE_MAIN_MENU;
     main_menu_idx := 0;
     simple_state := S_IDLE;
     custom_menu_idx := 0;
     create_state := C_CREATE_START;
     run_state := C_RUN_START;
     load_state := C_LOAD_SELECT;
     load_program_idx := 0;
     _last_enc := enc0;
     s_current_time_unit_idx := 0;
     s_set_value := 60;
     s_set_int := 50;
     s_run_duration_sec := 0;
     s_start_ts := None;
     saved_programs := seq 1 (length loaded);
     current_program := 0%nat;
     temp_step := empty_step;
     temp_program_name := "P-01";
     temp_program_loops := 1;
     c_run_duration_sec := 0;
     c_start_ts := None;
     c_run_current_step := 0;
     c_run_current_loop := 1;
     temp_add_another := true;
     last_blink_ms := t0;
     blink_state_on := true;
     lid_was_open := lid_open_at_boot;
     neopixel := np;
     uv := 0;
     heap := empty_program :: loaded;
     programs_file := f |}.

(** The states the controller can be in at the end of an iteration. *)
Inductive reachable : State -> Prop :=
  | reachable_boot f enc0 t0 lid np : reachable (boot f enc0 t0 lid np)
  | reachable_tick inp s s' :
      reachable s -> tick inp s = Some s' -> reachable s'.

(** ** Display formatting (lines 76-109) *)

(** [k] zeros. *)
Fixpoint zeros (k : nat) : string :=
  match k with
  | O => EmptyString
  | S k' => String "0" (zeros k')
  end.

(** [f"{n:0wd}"]: the decimal digits of [n], padded with zeros to the
    width [w], the sign counting for the width. *)
Definition fmt_0d (w : nat) (n : Z) : string :=
  let digits := NilZero.string_of_int (Z.to_int (Z.abs n)) in
  if n <? 0
  then String "-" (zeros (w - 1 - String.length digits) ++ digits)
  else (zeros (w - String.length digits) ++ digits)%string.

(** [f"{n:03d}"] *)
Definition fmt_03d (n : Z) : string := fmt_0d 3 n.

(** [fmt_time(value, unit_idx)] for an integer [value], for which no
    statement of the [try] block raises; [None] is Python's [None], which
    the function returns for a unit other than 0, 1, 2. *)
Definition fmt_time (value unit_idx : Z) : option string :=
  if unit_idx =? 0 then
    let m := value / 60 in
    let s := value mod 60 in
    Some (fmt_02d m ++ ":" ++ fmt_02d s)%string
  else if unit_idx =? 1 then
    let h := value / 60 in
    let m := value mod 60 in
    Some (fmt_02d h ++ ":" ++ fmt_02d m)%string
  else if unit_idx =? 2 then
    let s := value / 1000 in
    let ms := value mod 1000 in
    Some (fmt_02d s ++ ":" ++ fmt_03d ms ++ "ms")%string
  else None.

(** [int(x)] for a float: truncation towards zero. *)
Definition py_trunc (x : Q) : Z :=
  if Qle_bool 0 x then Qfloor x else Qceiling x.

(** [fmt_time_simple(secs)] *)
Definition fmt_time_simple (secs : Q) : string :=
  let m := py_trunc secs / 60 in
  let s := py_trunc secs mod 60 in
  (fmt_02d m ++ ":" ++ fmt_02d s)%string.

(** What is on the display after [lcd.fill(0)] and two [lcd.text] calls:
    the text drawn at y = 0 and the text drawn at y = 16. *)
Record Screen := mkScreen {
  line_0 : string;
  line_16 : string
}.

(** [s[:n]] *)
Definition py_prefix (n : nat) (s : string) : string := String.substring 0 n s.

(** [lcd_print(l1, l2)] for two strings. *)
Definition lcd_print (l1 l2 : string) : Screen :=
  mkScreen (py_prefix 21 l1) (py_prefix 21 l2).

(** [lcd_print_menu(title, item, selected)] for two strings. *)
Definition lcd_print_menu (title item : string) (selected : bool) : Screen :=
  let prefix := if selected then "> "%string else "  "%string in
  mkScreen (py_prefix 21 title) (prefix ++ py_prefix 19 item)%string.

(** ** The encoder example ([Example/knob.py]) *)

(** One iteration of the loop, for the encoder value read and the
    variable [last]: the lines printed and [last] afterwards. *)
Definition knob_iteration (value last : Z) : list Z * Z :=
  if negb (value =? last) then ([value], value) else ([], last).

(** The iterations for a list of readings, oldest first. *)
Fixpoint knob_loop (readings : list Z) (last : Z) : list Z * Z :=
  match readings with
  | [] => ([], last)
  | value :: rest =>
      let r1 := knob_iteration value last in
      let r2 := knob_loop rest r1.2 in
      (r1.1 ++ r2.1, r2.2)
  end.

(** The script starts with [last = 0]. *)
Definition knob (readings : list Z) : list Z * Z := knob_loop readings 0.

(** ** The tick counter *)

(** [time.ticks_diff(a, b)] of MicroPython, whose tick counter has the
    period 2^30: the difference wrapped into the interval from -2^29 to
    2^29 - 1. *)
Definition ticks_diff_wrapped (a b : Z) : Z :=
  (a - b + 2 ^ 29) mod 2 ^ 30 - 2 ^ 29.

(** ** The programs file, for any JSON text (lines 112-121) *)

Module Json.

(** The Python value [json.load] returns for a JSON text. *)
#[warnings="-register-all"] Inductive Value :=
  | Null
  | Bool (b : bool)
  | Int (n : Z)
  | Float (q : Q)
  | Str (s : string)
  | List (l : list Value)
  | Dict (d : list (string * Value)).

(** What [uv_programs.json] is: no file, a file that cannot be opened, or a
    text, which is the JSON text of a value or is not JSON at all. *)
Inductive File :=
  | Missing
  | NoAccess
  | Text (parsed : option Value).

(** [open(PROGRAMS_FILE, 'r')] *)
Definition open_read (f : File) : Exc (option Value) :=
  match f with
  | Missing | NoAccess => Raises OSError
  | Text parsed => Returns parsed
  end.

(** [json.load(f)] *)
Definition json_load (parsed : option Value) : Exc Value :=
  match parsed with
  | Some v => Returns v
  | None => Raises ValueError
  end.

(** [len(x)]: strings, lists and dictionaries have a length (a dictionary
    is given by its items, one for each key). *)
Definition len (x : Value) : Exc Z :=
  match x with
  | Str s => Returns (Z.of_nat (String.length s))
  | List l => Returns (Z.of_nat (length l))
  | Dict d => Returns (Z.of_nat (length d))
  | Null | Bool _ | Int _ | Float _ => Raises TypeError
  end.

(** [load_programs_from_file()]: the value parsed is returned as it is when
    [len] accepts it (line 117), whatever its shape. *)
Definition load_programs_from_file (f : File) : Exc Value :=
  try_except
    (exc_bind (open_read f) (fun h =>
     exc_bind (json_load h) (fun programs =>
     exc_bind (len programs) (fun _ =>
     Returns programs))))
    (fun _ => Returns (List [])).

(** The values of the dictionaries that the wizard builds (lines 535, 624,
    628, 634, 653, 661) and [json.dump] writes. *)
Definition of_key {A : Type} (k : string) (f : A -> Value) (o : option A)
    : list (string * Value) :=
  match o with
  | Some a => [(k, f a)]
  | None => []
  end.

Definition of_step (st : Step) : Value :=
  Dict (of_key "u" Int (step_u st) ++ of_key "v" Int (step_v st)
        ++ of_key "i" Int (step_i st)).

Definition of_program (p : Program) : Value :=
  Dict (of_key "name" Str (prog_name p) ++ of_key "loops" Int (prog_loops p)
        ++ of_key "steps" (fun sts => List (of_step <$> sts)) (prog_steps p)).

Definition of_programs (ps : list Program) : Value := List (of_program <$> ps).

(** The file that a [FileState] stands for. *)
Definition of_file (f : FileState) : File :=
  match f with
  | Absent => Missing
  | Unreadable => NoAccess
  | Corrupt => Text None
  | Stored programs => Text (Some (of_programs programs))
  end.

End Json.

(** * Statements *)

(** ** A weakest-precondition reading of the loop-body monad

    [wp m Q Qc s]: started in [s], [m] ends normally in a state and value
    satisfying [Q], or leaves the iteration by [continue] in a state
    satisfying [Qc], or raises. *)
Definition wp {A : Type} (m : M A) (Q : A -> State -> Prop)
    (Qc : State -> Prop) (s : State) : Prop :=
  match m s with
  | Normal a s' => Q a s'
  | Continue s' => Qc s'
  | Raise => True
  end.

(** The total reading: as [wp], and [m] does not raise. *)
Definition twp {A : Type} (m : M A) (Q : A -> State -> Prop)
    (Qc : State -> Prop) (s : State) : Prop :=
  match m s with
  | Normal a s' => Q a s'
  | Continue s' => Qc s'
  | Raise => False
  end.

(** Two outcomes that agree on everything but the programs file. *)
Definition same_globals (s1 s2 : State) : Prop :=
  s2 = set_programs_file (programs_file s2) s1.

Definition res_same_globals {A : Type} (r1 r2 : Res A) : Prop :=
  match r1, r2 with
  | Normal a s1, Normal b s2 => a = b /\ same_globals s1 s2
  | Continue s1, Continue s2 => same_globals s1 s2
  | Raise, Raise => True
  | _, _ => False
  end.

(** The same readings with the write to the programs file meeting [w]. *)
Definition with_write (w : WriteOutcome) (inp : Input) : Input :=
  mkInput (enc_value inp) (now inp) (lid_open inp) (btn inp) (btn_again inp)
    (stamp inp) w.

(** The globals after [read_delta]. *)
Definition after_read_delta (inp : Input) (s : State) : State :=
  if negb (enc_value inp - _last_enc s =? 0)
  then set_last_enc (enc_value inp) s else s.

(** ** Readings used in the scenarios *)

(** Encoder at [e], tick counter at [t], lid closed, button untouched. *)
Definition idle_at (e t : Z) : Input :=
  mkInput e t false Released Released t WriteOk.
(** The same with a short press. *)
Definition short_at (e t : Z) : Input :=
  mkInput e t false ShortPress Released t WriteOk.
(** The same with a long press. *)
Definition long_at (e t : Z) : Input :=
  mkInput e t false LongPress Released t WriteOk.
(** Button untouched, lid open. *)
Definition lid_open_at (e t : Z) : Input :=
  mkInput e t true Released Released t WriteOk.

(** A stored program P-01: 2 loops over a step of 10 s at 30 % and a step
    of 500 ms at 90 %. *)
Definition demo_program : Program :=
  mkProgram (Some "P-01"%string) (Some 2)
    (Some [mkStep (Some 0) (Some 10) (Some 30);
           mkStep (Some 2) (Some 500) (Some 90)]).

(** Start-up with [demo_program] in the programs file, the encoder at 0,
    the tick counter at 0, the lid closed and the NeoPixels present. *)
Definition demo_boot : State :=
  boot (Stored [demo_program]) 0 0 false true.

(** From the main menu to a started run of [demo_program]: turn to "Custom
    Mode", enter it, confirm the Load selection that is active after
    start-up, turn back to "Run Program", press. The run starts at tick 40. *)
Definition demo_to_run : list Input :=
  [idle_at 1 0; short_at 1 10; short_at 1 20; idle_at 0 30; short_at 0 40].

(** From the main menu to a started simple run with the defaults (60 s at
    50 %), started at tick 40. *)
Definition simple_to_run : list Input :=
  [short_at 0 0; short_at 0 10; short_at 0 20; short_at 0 30; short_at 0 40].

(** What a run shows of itself: start timestamp, loop, step, duration in
    seconds and duty, the last two in lowest terms. *)
Definition run_view (s : State) : option Z * Z * Z * Q * Q :=
  (c_start_ts s, c_run_current_loop s, c_run_current_step s,
   Qred (c_run_duration_sec s), Qred (uv s)).

(** What is left when a run is over: start timestamp, duty, run state. *)
Definition end_view (s : State) : option Z * Q * Z :=
  (c_start_ts s, uv s, run_state s).

(** The four iterations at which a step of [demo_program] expires: 10 s
    after tick 40, then 0.5 s, 10 s and 0.5 s after the previous one. *)
Definition demo_expiries : list Input :=
  [idle_at 0 10040; idle_at 0 10540; idle_at 0 20540; idle_at 0 21040].

(** Mode, Simple sub-state and duty. *)
Definition mode_view (s : State) : Z * Z * Q :=
  (main_state s, simple_state s, Qred (uv s)).

(** ** Invariants *)

(** The Simple sub-state is Running only in Simple mode, and outside a run
    (Simple not Running, no custom start timestamp) the UV output is off. *)
Definition uv_inv (s : State) : Prop :=
  (simple_state s = S_RUNNING -> main_state s = MODE_SIMPLE) /\
  (simple_state s <> S_RUNNING -> c_start_ts s = None -> uv s = 0%Q).

(** The state in which the run of [demo_program] has finished. *)
Definition demo_finished : State :=
  default demo_boot (ticks (demo_to_run ++ demo_expiries) demo_boot).

(** ** The program store *)

(** Index of the first program of [ps] whose name is [c]. *)
Fixpoint name_index (c : string) (ps : list Program) : option nat :=
  match ps with
  | [] => None
  | p :: rest =>
      if bool_decide (prog_name p = Some c) then Some 0%nat
      else S <$> name_index c rest
  end.

(** The store after saving the program at reference [cp], named [c], into
    the store [sp] whose contents are [ps]: replaced in place at the first
    entry of that name, else appended. *)
Definition store_after_save (c : string) (cp : loc) (sp : list loc)
    (ps : list Program) : list loc :=
  match name_index c ps with
  | Some i => <[i := cp]> sp
  | None => sp ++ [cp]
  end.

(** From the main menu into the wizard: turn to "Custom Mode", enter, leave
    the Load selection by a long press, turn to "Create New", press. *)
Definition to_wizard : list Input :=
  [idle_at 1 0; short_at 1 10; long_at 1 20; idle_at 2 30; short_at 2 40].

(** Author one step with the defaults (unit 0, 60 s, 50 %). *)
Definition one_step : list Input :=
  [short_at 2 50; short_at 2 60; short_at 2 70; short_at 2 80].

(** Decline another step, keep 1 loop, turn the proposed name "P-02" back
    to "P-01" and confirm it: the wizard is at the Save prompt. *)
Definition to_save_prompt : list Input :=
  [idle_at 3 90; short_at 3 100; short_at 3 110; idle_at 2 120; short_at 2 130].

(** At the Save prompt with a program named like the stored one. *)
Definition at_save_prompt : State :=
  default demo_boot (ticks (to_wizard ++ one_step ++ to_save_prompt) demo_boot).

(** In the wizard after the first step was added. *)
Definition after_one_step : State :=
  default demo_boot (ticks (to_wizard ++ one_step) demo_boot).

(** The program authored by [to_wizard], [one_step] and [to_save_prompt]. *)
Definition authored_program : Program :=
  mkProgram (Some "P-01"%string) (Some 1)
    (Some [mkStep (Some 0) (Some 60) (Some 50)]).

(** ** Custom runs *)

(** The custom-menu selection after the rotation of this iteration. *)
Definition menu_idx_after (inp : Input) (s : State) : Z :=
  let d := enc_value inp - _last_enc s in
  if d =? 0 then custom_menu_idx s
  else (custom_menu_idx s + dir d) mod Z.of_nat (length custom_menu_items).

(** The globals are those of plain navigation in the custom menu: no
    cursor, no run to acknowledge, not in the Load selection. *)
Definition navigating (s : State) : Prop :=
  main_state s = MODE_CUSTOM_MENU
  /\ c_start_ts s = None
  /\ run_state s <> C_RUN_DONE
  /\ load_state s = -1.

(** The step dictionary has its three keys. *)
Definition complete_step (st : Step) : Prop :=
  is_Some (step_u st) /\ is_Some (step_v st) /\ is_Some (step_i st).

(** [uv.value] for a step. *)
Definition duty_of (st : Step) : Q :=
  match step_i st with
  | Some i => (inject_Z i / 100)%Q
  | None => 0%Q
  end.

(** Duration in seconds of a step. *)
Definition duration_of (st : Step) : Q :=
  default 0%Q (get_duration_sec st).

(** The program in the working slot of [after_one_step]: not yet named, one
    step authored. *)
Definition partial_program : Program :=
  mkProgram (Some "New"%string) (Some 1)
    (Some [mkStep (Some 0) (Some 60) (Some 50)]).

(** The Load selection after the rotation of this iteration. *)
Definition load_idx_after (inp : Input) (s : State) : Z :=
  let d := enc_value inp - _last_enc s in
  if d =? 0 then load_program_idx s
  else (load_program_idx s + dir d) mod Z.of_nat (length (saved_programs s)).

(** The globals are those of the Load selection. *)
Definition selecting_load (s : State) : Prop :=
  main_state s = MODE_CUSTOM_MENU
  /\ c_start_ts s = None
  /\ run_state s <> C_RUN_DONE
  /\ load_state s = C_LOAD_SELECT.

(** The program object at [r] holds [q] and is not the one being authored. *)
Definition kept (r : loc) (q : Program) (s : State) : Prop :=
  heap s !! r = Some q
  /\ (main_state s = MODE_CUSTOM_CREATE -> current_program s <> r).

(** Up to the Load selection that is active after start-up, and its
    confirmation. *)
Definition demo_to_load : list Input :=
  [idle_at 1 0; short_at 1 10; short_at 1 20].

(** In the Load selection, before the confirmation. *)
Definition at_load_select : State :=
  default demo_boot (ticks [idle_at 1 0; short_at 1 10] demo_boot).

(** ** Value editors and selectors *)

(** The states in which a rotation edits a clamped value. *)
Inductive Editor :=
  | SimpleSetTime | SimpleSetIntensity
  | CreateSetTime | CreateSetIntensity | CreateSetLoops | CreateSetName.

(** [len(current_program['steps'])] can be displayed. *)
Definition shows_steps (s : State) : Prop :=
  exists p steps,
    heap s !! current_program s = Some p /\ prog_steps p = Some steps.

Definition in_editor (ed : Editor) (s : State) : Prop :=
  match ed with
  | SimpleSetTime =>
      main_state s = MODE_SIMPLE /\ simple_state s = S_SET_TIME
  | SimpleSetIntensity =>
      main_state s = MODE_SIMPLE /\ simple_state s = S_SET_INTENS
  | CreateSetTime =>
      main_state s = MODE_CUSTOM_CREATE /\ create_state s = C_CREATE_SET_TIME
      /\ shows_steps s
  | CreateSetIntensity =>
      main_state s = MODE_CUSTOM_CREATE /\ create_state s = C_CREATE_SET_INTENS
      /\ shows_steps s
  | CreateSetLoops =>
      main_state s = MODE_CUSTOM_CREATE /\ create_state s = C_CREATE_SET_LOOPS
  | CreateSetName =>
      main_state s = MODE_CUSTOM_CREATE /\ create_state s = C_CREATE_SET_NAME
  end.

(** The value under the editor; for the name, its numeric suffix. *)
Definition edited_value (ed : Editor) (s : State) : Z :=
  match ed with
  | SimpleSetTime | CreateSetTime => s_set_value s
  | SimpleSetIntensity | CreateSetIntensity => s_set_int s
  | CreateSetLoops => temp_program_loops s
  | CreateSetName => name_suffix (temp_program_name s)
  end.

(** The unit whose limits apply to the time editor: the selected unit in
    Simple mode, the unit of the step being authored in the wizard. *)
Definition edited_unit (ed : Editor) (s : State) : option Z :=
  match ed with
  | CreateSetTime => step_u (temp_step s)
  | _ => Some (s_current_time_unit_idx s)
  end.

(** The limits of the editor: those of the unit for the time editors,
    [0, 100] for the intensity, [1, 99] for loops and name suffix. *)
Definition editor_limits (ed : Editor) (s : State) : option (Z * Z) :=
  match ed with
  | SimpleSetTime | CreateSetTime =>
      idx ← edited_unit ed s;
      e ← py_index TIME_UNITS idx;
      Some (unit_min e, unit_max e)
  | SimpleSetIntensity | CreateSetIntensity => Some (INT_MIN, INT_MAX)
  | CreateSetLoops | CreateSetName => Some (1, 99)
  end.

Definition value_in_range (ed : Editor) (s : State) : Prop :=
  exists lo hi,
    editor_limits ed s = Some (lo, hi)
    /\ lo <= edited_value ed s <= hi.

(** The index-style selectors. *)
Inductive Selector :=
  | MainMenuItem | SimpleTimeUnit | CreateTimeUnit | CustomMenuItem
  | LoadEntry.

(** Every stored program can be displayed by its name. *)
Definition names_shown (s : State) : Prop :=
  forall r, r ∈ saved_programs s ->
    exists p n, heap s !! r = Some p /\ prog_name p = Some n.

Definition in_selector (sel : Selector) (s : State) : Prop :=
  match sel with
  | MainMenuItem => main_state s = MODE_MAIN_MENU
  | SimpleTimeUnit =>
      main_state s = MODE_SIMPLE /\ simple_state s = S_SET_TIME_UNIT
  | CreateTimeUnit =>
      main_state s = MODE_CUSTOM_CREATE
      /\ create_state s = C_CREATE_SET_TIME_UNIT /\ shows_steps s
  | CustomMenuItem => navigating s
  | LoadEntry =>
      selecting_load s /\ saved_programs s <> [] /\ names_shown s
  end.

Definition selector_index (sel : Selector) (s : State) : Z :=
  match sel with
  | MainMenuItem => main_menu_idx s
  | SimpleTimeUnit | CreateTimeUnit => s_current_time_unit_idx s
  | CustomMenuItem => custom_menu_idx s
  | LoadEntry => load_program_idx s
  end.

Definition selector_size (sel : Selector) (s : State) : Z :=
  match sel with
  | MainMenuItem => 2
  | SimpleTimeUnit | CreateTimeUnit => Z.of_nat (length TIME_UNITS)
  | CustomMenuItem => Z.of_nat (length custom_menu_items)
  | LoadEntry => Z.of_nat (length (saved_programs s))
  end.

(** The main menu advances on any rotation; the others follow its sign. *)
Definition selector_turn (sel : Selector) (d : Z) : Z :=
  match sel with
  | MainMenuItem => 1
  | _ => dir d
  end.

(** Only the encoder is operated. *)
Definition rotation_only (inp : Input) : Prop := btn inp = Released.

(** In the Set Time state of Simple mode, value 3600 (the maximum of unit
    0). *)
Definition at_simple_set_time_max : State :=
  set_s_set_value 3600
    (default demo_boot
       (ticks [short_at 0 0; short_at 0 10; short_at 0 20] demo_boot)).

(** A program that can be run: [loops] loops, at least one step, every
    step with its three keys. *)
Definition runnable (p : Program) (loops : Z) (sts : list Step) : Prop :=
  prog_loops p = Some loops
  /\ prog_steps p = Some sts
  /\ sts <> []
  /\ Forall complete_step sts
  /\ 1 <= loops.

(** The cursor is at the step-execution number [k] (from 0) of the walk
    (loop 1, steps 0..S-1), (loop 2, steps 0..S-1), ...: loop [k / S + 1],
    step [k mod S], with the duty and the duration of that step. *)
Definition cursor_at (p : Program) (sts : list Step) (k : Z) (s : State) : Prop :=
  main_state s = MODE_CUSTOM_MENU
  /\ load_state s = -1
  /\ heap s !! current_program s = Some p
  /\ is_Some (c_start_ts s)
  /\ c_run_current_loop s = k / Z.of_nat (length sts) + 1
  /\ c_run_current_step s = k mod Z.of_nat (length sts)
  /\ exists st,
       sts !! Z.to_nat (k mod Z.of_nat (length sts)) = Some st
       /\ uv s = duty_of st
       /\ c_run_duration_sec s = duration_of st.


(** The current step of the custom run expires in this iteration. *)
Definition step_expires (inp : Input) (s : State) : bool :=
  match c_start_ts s with
  | Some start =>
      expired (remaining (c_run_duration_sec s) (elapsed_sec (now inp) start))
  | None => false
  end.





(** ** Definitions for the properties of the whole loop *)

(** The globals that make up the control state: all of them but the
    encoder bookkeeping ([_last_enc]) and the indicator bookkeeping
    ([last_blink_ms], [blink_state_on], [lid_was_open]). *)
Definition control (s : State) :=
  (main_state s, main_menu_idx s, simple_state s, custom_menu_idx s,
   create_state s, run_state s, load_state s, load_program_idx s,
   s_current_time_unit_idx s, s_set_value s, s_set_int s,
   s_run_duration_sec s, s_start_ts s, saved_programs s, current_program s,
   temp_step s, temp_program_name s, temp_program_loops s,
   c_run_duration_sec s, c_start_ts s, c_run_current_step s,
   c_run_current_loop s, temp_add_another s, neopixel s, uv s, heap s,
   programs_file s).

(** Nothing is touched: the encoder is where the previous iteration read
    it and the button is not pressed. *)
Definition untouched (inp : Input) (s : State) : Prop :=
  enc_value inp = _last_enc s /\ btn inp = Released /\ btn_again inp = Released.

(** [_last_enc] holds the encoder value [v]. *)
Definition last_enc_is (v : Z) (s : State) : Prop := _last_enc s = v.

(** The UV output is what it was ([u]) or off. *)
Definition uv_kept_or_off (u : Q) (s : State) : Prop :=
  uv s = u \/ uv s = 0%Q.

(** The condition of the lid interlock (lines 270-271) does not hold. *)
Definition no_run (s : State) : Prop :=
  run_in_progress (main_state s) (simple_state s) (c_start_ts s) = false.

(** ** Settings *)

(** Limits of the time value for the unit [u] (columns 3 and 4 of
    [TIME_UNITS]). *)
Definition time_limits (u : Z) : Z * Z :=
  match py_index TIME_UNITS u with
  | Some e => (unit_min e, unit_max e)
  | None => (1, 0)
  end.

(** The selectors point into their tables and the edited values are
    within their limits. *)
Definition settings_in_limits (s : State) : Prop :=
  0 <= main_menu_idx s < Z.of_nat (length main_menu_items)
  /\ 0 <= custom_menu_idx s < Z.of_nat (length custom_menu_items)
  /\ 0 <= s_current_time_unit_idx s < Z.of_nat (length TIME_UNITS)
  /\ (time_limits (s_current_time_unit_idx s)).1 <= s_set_value s
     <= (time_limits (s_current_time_unit_idx s)).2
  /\ INT_MIN <= s_set_int s <= INT_MAX
  /\ 1 <= temp_program_loops s <= 99.

(** In the time editor of the wizard, the unit of the step under
    construction is the selected unit. *)
Definition wizard_unit (s : State) : Prop :=
  main_state s = MODE_CUSTOM_CREATE ->
  create_state s = C_CREATE_SET_TIME ->
  step_u (temp_step s) = Some (s_current_time_unit_idx s).

Definition settings_inv (s : State) : Prop :=
  settings_in_limits s /\ wizard_unit s.

(** A simple run set up and started from the main menu, with the time
    value turned up by one. *)
Definition to_simple_run : list Input :=
  [short_at 0 0; short_at 0 10; short_at 0 20; idle_at 1 25; short_at 1 30;
   short_at 1 40].

Definition at_simple_run : State :=
  default demo_boot (ticks to_simple_run demo_boot).

(** ** Well-formed program objects *)

(** A program dictionary with its three keys, every step of which has its
    three keys. *)
Definition complete_program (p : Program) : Prop :=
  is_Some (prog_name p) /\ is_Some (prog_loops p)
  /\ exists sts, prog_steps p = Some sts /\ Forall complete_step sts.

(** The programs file, when it parses, holds complete programs. *)
Definition complete_file (f : FileState) : Prop :=
  match f with
  | Stored ps => Forall complete_program ps
  | _ => True
  end.

(** Every program object is the empty dictionary or complete. *)
Definition heap_ok (h : list Program) : Prop :=
  Forall (fun p => p = empty_program \/ complete_program p) h.

(** Every reference of the store points to a complete program. *)
Definition store_ok (h : list Program) (sp : list loc) : Prop :=
  Forall (fun r => exists p, h !! r = Some p /\ complete_program p) sp.

(** The Load selection is the first entry or points into the store. *)
Definition load_idx_ok (s : State) : Prop :=
  0 <= load_program_idx s
  /\ (load_program_idx s = 0
      \/ load_program_idx s < Z.of_nat (length (saved_programs s))).

(** A running Simple timer has its start timestamp. *)
Definition simple_ok (s : State) : Prop :=
  simple_state s = S_RUNNING -> is_Some (s_start_ts s).

(** While there is a run cursor, the Load selection is not active and the
    cursor points to a step of the current program. *)
Definition cursor_ok (s : State) : Prop :=
  is_Some (c_start_ts s) ->
  load_state s = -1
  /\ exists p sts,
       heap s !! current_program s = Some p
       /\ prog_steps p = Some sts
       /\ 0 <= c_run_current_step s < Z.of_nat (length sts).

(** In the wizard there is no run cursor, the current program is a
    complete one, and the step under construction has the keys written so
    far. *)
Definition wizard_ok (s : State) : Prop :=
  main_state s = MODE_CUSTOM_CREATE ->
  c_start_ts s = None
  /\ (exists p, heap s !! current_program s = Some p /\ complete_program p)
  /\ (create_state s = C_CREATE_SET_TIME -> is_Some (step_u (temp_step s)))
  /\ (create_state s = C_CREATE_SET_INTENS ->
      is_Some (step_u (temp_step s)) /\ is_Some (step_v (temp_step s))).

Definition objects_inv (s : State) : Prop :=
  heap_ok (heap s)
  /\ (current_program s < length (heap s))%nat
  /\ store_ok (heap s) (saved_programs s)
  /\ load_idx_ok s
  /\ simple_ok s
  /\ cursor_ok s
  /\ wizard_ok s.

(** The invariant of the super loop. *)
Definition wf (s : State) : Prop := settings_inv s /\ objects_inv s.

(** ** The duty of the UV output *)

(** The intensity of a step, when it has one, is a percentage. *)
Definition step_duty_ok (st : Step) : Prop :=
  forall i, step_i st = Some i -> INT_MIN <= i <= INT_MAX.

Definition program_duty_ok (p : Program) : Prop :=
  forall sts, prog_steps p = Some sts -> Forall step_duty_ok sts.

(** The intensities in the programs file, when it parses, are
    percentages. *)
Definition duty_file (f : FileState) : Prop :=
  match f with
  | Stored ps => Forall program_duty_ok ps
  | _ => True
  end.

Definition duty_inv (s : State) : Prop :=
  Forall program_duty_ok (heap s)
  /\ step_duty_ok (temp_step s)
  /\ (0 <= uv s <= 1)%Q.

(** ** The store and the programs file *)

(** The stored programs, as dictionaries. *)
Definition store_contents (s : State) : option (list Program) :=
  deref_all (heap s) (saved_programs s).

(** What a start-up loads from the programs file [f]. *)
Definition loaded_from (f : FileState) : list Program :=
  match load_programs_from_file f with
  | Returns programs => programs
  | Raises _ => []
  end.

(** The store holds what a start-up would load from the programs file as
    it is now, and the program being authored in the wizard is not one of
    the stored objects. *)
Definition sync_inv (s : State) : Prop :=
  store_contents s = Some (loaded_from (programs_file s))
  /\ (main_state s = MODE_CUSTOM_CREATE ->
      current_program s ∉ saved_programs s).

(** Author and save a program of one step, from the main menu. *)
Definition author_and_save : list Input :=
  to_wizard ++ one_step
  ++ [idle_at 3 90; short_at 3 100; short_at 3 110; short_at 3 120;
      short_at 3 130].

(** ** The names in the store *)

(** The names of the stored programs ([None] when one has no name). *)
Definition store_names (s : State) : option (list string) :=
  names_of (heap s) (saved_programs s).

(** The programs of the file, when it parses, are named, no two alike. *)
Definition unique_names (f : FileState) : Prop :=
  match f with
  | Stored ps =>
      exists ns, Forall2 (fun p n => prog_name p = Some n) ps ns /\ NoDup ns
  | _ => True
  end.

(** The stored programs are named, no two alike, and the program being
    authored in the wizard is named and is not one of the stored
    objects. *)
Definition names_inv (s : State) : Prop :=
  (exists ns, store_names s = Some ns /\ NoDup ns)
  /\ (main_state s = MODE_CUSTOM_CREATE ->
      (current_program s ∉ saved_programs s)
      /\ exists p, heap s !! current_program s = Some p
                   /\ is_Some (prog_name p)).

(** Author a second program and save it under the name of the stored
    one. *)
Definition author_same_name : list Input :=
  to_wizard ++ one_step ++ to_save_prompt ++ [short_at 2 140].

(** ** The Load selection *)

(** Start-up without a programs file, then into "Custom Mode": the Load
    selection is active. *)
Definition first_custom_menu : State :=
  default demo_boot
    (ticks [idle_at 1 0; short_at 1 10] (boot Absent 0 0 false true)).

(** ** The encoder example *)

(** No value of [l] equals the one before it, [prev] being before the
    first. *)
Fixpoint no_repeat (prev : Z) (l : list Z) : Prop :=
  match l with
  | [] => True
  | x :: rest => x <> prev /\ no_repeat x rest
  end.

(** ** States of the scenarios *)

(** The run of [demo_program] just started (at tick 40). *)
Definition demo_running : State :=
  default demo_boot (ticks demo_to_run demo_boot).

(** A finished run waits to be acknowledged: Simple mode in Done, or the
    custom menu with the runner in Done, no cursor and no Load
    selection. *)
Definition awaiting_acknowledgement (s : State) : Prop :=
  (main_state s = MODE_SIMPLE /\ simple_state s = S_DONE)
  \/ (main_state s = MODE_CUSTOM_MENU /\ c_start_ts s = None
      /\ run_state s = C_RUN_DONE /\ load_state s = -1).

(** ** Programs within the editors' limits *)

(** A step dictionary with an integer unit of [TIME_UNITS], an integer
    time value within the limits of that unit and an integer intensity
    within [INT_MIN] and [INT_MAX]. *)
Definition editor_step (st : Step) : Prop :=
  exists u v i,
    st = mkStep (Some u) (Some v) (Some i)
    /\ 0 <= u < Z.of_nat (length TIME_UNITS)
    /\ (time_limits u).1 <= v <= (time_limits u).2
    /\ INT_MIN <= i <= INT_MAX.

(** A program dictionary with a string as its name, an integer from 1 to 99
    as its loop count and a list of such steps. *)
Definition editor_program (p : Program) : Prop :=
  exists name loops sts,
    p = mkProgram (Some name) (Some loops) (Some sts)
    /\ 1 <= loops <= 99
    /\ Forall editor_step sts.

(** The programs file is missing, cannot be read, is not JSON, or holds a
    list of such programs. *)
Definition editor_file (f : FileState) : Prop :=
  match f with
  | Stored ps => Forall editor_program ps
  | Absent | Unreadable | Corrupt => True
  end.

(** ** Failed saves *)

(** The contents of the store after the Save confirmation of the program
    [cur], named [c], into a store of contents [ps]. *)
Definition contents_after_save (c : string) (cur : Program)
    (ps : list Program) : list Program :=
  match name_index c ps with
  | Some i => <[i := cur]> ps
  | None => ps ++ [cur]
  end.

(** The programs file after a write that failed. *)
Definition file_after_failed_write (w : WriteOutcome) (f : FileState)
    : FileState :=
  match w with
  | WriteFails => Corrupt
  | OpenFails | WriteOk => f
  end.

(** A programs file whose only entry is the empty dictionary: the JSON
    text [[{}]]. *)
Definition keyless_file : FileState := Stored [empty_program].

(** * Proofs *)

(** ** Rules of the program logic *)

Lemma wp_bind {A B : Type} (m : M A) (k : A -> M B) Q Qc s :
  wp m (fun a s' => wp (k a) Q Qc s') Qc s -> wp (bind m k) Q Qc s.
Proof. unfold wp, bind. destruct (m s); auto. Qed.

Lemma wp_mono {A : Type} (m : M A) (Q Q' : A -> State -> Prop)
    (Qc Qc' : State -> Prop) s :
  wp m Q Qc s ->
  (forall a s', Q a s' -> Q' a s') ->
  (forall s', Qc s' -> Qc' s') ->
  wp m Q' Qc' s.
Proof. unfold wp. destruct (m s); auto. Qed.

(** Sequencing through an intermediate assertion. *)
Lemma wp_seq {A B : Type} (P : State -> Prop) (m : M A) (k : A -> M B) Q Qc s :
  wp m (fun _ s' => P s') Qc s ->
  (forall a s', P s' -> wp (k a) Q Qc s') ->
  wp (bind m k) Q Qc s.
Proof. intros H1 H2. apply wp_bind. eapply wp_mono; [exact H1 | auto | auto]. Qed.

Lemma wp_get {A : Type} (f : State -> A) Q Qc s :
  Q (f s) s -> wp (get f) Q Qc s.
Proof. auto. Qed.

Lemma wp_assign {A : Type} (f : A -> State -> State) x Q Qc s :
  Q tt (f x s) -> wp (assign f x) Q Qc s.
Proof. auto. Qed.

Lemma wp_ret {A : Type} (a : A) Q Qc s : Q a s -> wp (ret a) Q Qc s.
Proof. auto. Qed.

Lemma wp_continue {A : Type} (Q : A -> State -> Prop) Qc s :
  Qc s -> wp continue_ Q Qc s.
Proof. auto. Qed.

Lemma wp_raise {A : Type} (Q : A -> State -> Prop) Qc s : wp raise Q Qc s.
Proof. exact I. Qed.

Lemma wp_subscript {A : Type} (o : option A) Q Qc s :
  (forall a, o = Some a -> Q a s) -> wp (subscript o) Q Qc s.
Proof. destruct o; simpl; intros; [apply wp_ret; auto | exact I]. Qed.

(** From the loop body to [tick]. *)
Lemma wp_tick (P : State -> Prop) inp s s' :
  wp (loop_body inp) (fun _ => P) P s -> tick inp s = Some s' -> P s'.
Proof.
  unfold wp, tick. destruct (loop_body inp s); intros H E; congruence.
Qed.

(** Projections of assignments, by computation. *)
Ltac st_simpl :=
  cbn [main_state main_menu_idx simple_state custom_menu_idx create_state
       run_state load_state load_program_idx _last_enc s_current_time_unit_idx
       s_set_value s_set_int s_run_duration_sec s_start_ts saved_programs
       current_program temp_step temp_program_name temp_program_loops
       c_run_duration_sec c_start_ts c_run_current_step c_run_current_loop
       temp_add_another last_blink_ms blink_state_on lid_was_open neopixel uv
       heap programs_file
       set_main_state set_main_menu_idx set_simple_state set_custom_menu_idx
       set_create_state set_run_state set_load_state set_load_program_idx
       set_last_enc set_s_current_time_unit_idx set_s_set_value set_s_set_int
       set_s_run_duration_sec set_s_start_ts set_saved_programs
       set_current_program set_temp_step set_temp_program_name
       set_temp_program_loops set_c_run_duration_sec set_c_start_ts
       set_c_run_current_step set_c_run_current_loop set_temp_add_another
       set_last_blink_ms set_blink_state_on set_lid_was_open set_uv set_heap
       set_programs_file] in *.

Ltac unfold_consts :=
  unfold MODE_MAIN_MENU, MODE_SIMPLE, MODE_CUSTOM_MENU, MODE_CUSTOM_CREATE,
    S_IDLE, S_SET_TIME_UNIT, S_SET_TIME, S_SET_INTENS, S_RUNNING, S_DONE,
    C_MENU_LOAD, C_MENU_CREATE, C_MENU_RUN,
    C_CREATE_START, C_CREATE_SET_TIME_UNIT, C_CREATE_SET_TIME,
    C_CREATE_SET_INTENS, C_CREATE_ADD_STEP, C_CREATE_SET_LOOPS,
    C_CREATE_SET_NAME, C_CREATE_SAVE_PROG,
    C_RUN_START, C_RUN_STEP, C_RUN_DONE, C_LOAD_SELECT, C_LOAD_CONFIRM in *.

(** A branch whose guard contradicts the hypotheses. *)
Ltac absurd_branch :=
  try solve [exfalso; unfold_consts; first [lia | congruence]].

Ltac case_bool b :=
  lazymatch b with
  | negb ?c => case_bool c
  | (?x =? ?y) => destruct (Z.eqb_spec x y); absurd_branch
  | (?x <=? ?y) => destruct (Z.leb_spec x y); absurd_branch
  | (?x <? ?y) => destruct (Z.ltb_spec x y); absurd_branch
  | _ => destruct b eqn:?
  end.

Ltac unfold_handler :=
  first
  [ progress unfold shown, uv_off, uv_value, deref, store, alloc
  | progress unfold read_delta, safety_check, lid_emergency_stop, indicator,
      blink_toggle
  | progress unfold state_machine, main_menu, simple_mode
  | progress unfold simple_idle, simple_set_time_unit, simple_set_time,
      simple_set_intens, simple_running, simple_done
  | progress unfold rotate_time_unit, rotate_time, rotate_intensity
  | progress unfold custom_menu, custom_run, custom_step_expired, start_step,
      custom_run_done, custom_navigate, custom_load
  | progress unfold menu_select_load, menu_select_create, menu_select_run,
      saved_name
  | progress unfold custom_create, create_short_press, create_rotate,
      create_save_prog, show_step_count
  | progress unfold current_program_append_step, current_program_set_loops,
      current_program_set_name ].

(** One step of symbolic execution. *)
Ltac wp_step :=
  lazymatch goal with
  | |- wp (bind _ _) _ _ _ => apply wp_bind
  | |- wp (get _) _ _ _ => apply wp_get
  | |- wp (assign _ _) _ _ _ => apply wp_assign
  | |- wp (ret _) _ _ _ => apply wp_ret
  | |- wp skip _ _ _ => apply wp_ret
  | |- wp continue_ _ _ _ => apply wp_continue
  | |- wp raise _ _ _ => apply wp_raise
  | |- wp (subscript _) _ _ _ => apply wp_subscript; intros ? ?
  | |- wp (when ?b _) _ _ _ => unfold when at 1; case_bool b
  | |- wp (if ?b then _ else _) _ _ _ => case_bool b
  | |- wp (match ?x with _ => _ end) _ _ _ => destruct x eqn:?
  | |- wp _ _ _ _ => unfold_handler
  end; cbv beta; cbn [negb]; st_simpl.

Ltac wp_run := repeat wp_step.

(** The same rules for the total reading. *)

Lemma twp_bind {A B : Type} (m : M A) (k : A -> M B) Q Qc s :
  twp m (fun a s' => twp (k a) Q Qc s') Qc s -> twp (bind m k) Q Qc s.
Proof. unfold twp, bind. destruct (m s); auto. Qed.

Lemma twp_mono {A : Type} (m : M A) (Q Q' : A -> State -> Prop)
    (Qc Qc' : State -> Prop) s :
  twp m Q Qc s ->
  (forall a s', Q a s' -> Q' a s') ->
  (forall s', Qc s' -> Qc' s') ->
  twp m Q' Qc' s.
Proof. unfold twp. destruct (m s); auto. Qed.

Lemma twp_seq {A B : Type} (P : State -> Prop) (m : M A) (k : A -> M B) Q Qc s :
  twp m (fun _ s' => P s') Qc s ->
  (forall a s', P s' -> twp (k a) Q Qc s') ->
  twp (bind m k) Q Qc s.
Proof. intros H1 H2. apply twp_bind. eapply twp_mono; [exact H1 | auto | auto]. Qed.

Lemma twp_get {A : Type} (f : State -> A) Q Qc s :
  Q (f s) s -> twp (get f) Q Qc s.
Proof. auto. Qed.

Lemma twp_assign {A : Type} (f : A -> State -> State) x Q Qc s :
  Q tt (f x s) -> twp (assign f x) Q Qc s.
Proof. auto. Qed.

Lemma twp_ret {A : Type} (a : A) Q Qc s : Q a s -> twp (ret a) Q Qc s.
Proof. auto. Qed.

Lemma twp_continue {A : Type} (Q : A -> State -> Prop) Qc s :
  Qc s -> twp continue_ Q Qc s.
Proof. auto. Qed.

Lemma twp_subscript {A : Type} (o : option A) a Q Qc s :
  o = Some a -> Q a s -> twp (subscript o) Q Qc s.
Proof. intros ->. auto. Qed.

Lemma twp_tick (P : State -> Prop) inp s :
  twp (loop_body inp) (fun _ => P) P s -> exists s', tick inp s = Some s' /\ P s'.
Proof.
  unfold twp, tick. destruct (loop_body inp s); intros H; eauto; contradiction.
Qed.

Lemma twp_wp {A : Type} (m : M A) Q Qc s : twp m Q Qc s -> wp m Q Qc s.
Proof. unfold twp, wp. destruct (m s); auto. Qed.

Ltac tcase_bool b :=
  lazymatch b with
  | negb ?c => tcase_bool c
  | ?c && _ => tcase_bool c
  | ?c || _ => tcase_bool c
  | (?x =? ?y) => destruct (Z.eqb_spec x y); absurd_branch
  | (?x <=? ?y) => destruct (Z.leb_spec x y); absurd_branch
  | (?x <? ?y) => destruct (Z.ltb_spec x y); absurd_branch
  | _ =>
      first [ match goal with H : b = _ |- _ => rewrite H end
            | destruct b eqn:?; absurd_branch ]
  end.

Ltac twp_step :=
  lazymatch goal with
  | |- twp (bind _ _) _ _ _ => apply twp_bind
  | |- twp (get _) _ _ _ => apply twp_get
  | |- twp (assign _ _) _ _ _ => apply twp_assign
  | |- twp (ret _) _ _ _ => apply twp_ret
  | |- twp skip _ _ _ => apply twp_ret
  | |- twp continue_ _ _ _ => apply twp_continue
  | |- twp (subscript _) _ _ _ =>
      eapply twp_subscript; [solve [eassumption | reflexivity] |]
  | |- twp (when ?b _) _ _ _ => unfold when at 1; tcase_bool b
  | |- twp (if ?b then _ else _) _ _ _ => tcase_bool b
  | |- twp (match ?x with _ => _ end) _ _ _ =>
      first [ match goal with H : x = _ |- _ => rewrite H end
            | destruct x eqn:?; absurd_branch ]
  | |- twp _ _ _ _ => unfold_handler
  end; cbv beta; cbn [negb andb orb is_pressed is_long]; st_simpl.

Ltac twp_run := repeat twp_step.

(** ** Generalities on [tick] *)

Lemma read_delta_eq inp s :
  read_delta (enc_value inp) s
  = Normal (enc_value inp - _last_enc s) (after_read_delta inp s).
Proof.
  unfold read_delta, after_read_delta, bind, get, when, assign, skip, ret.
  destruct (enc_value inp - _last_enc s =? 0); reflexivity.
Qed.

Lemma ticks_app inps1 inps2 s :
  ticks (inps1 ++ inps2) s
  = match ticks inps1 s with Some s' => ticks inps2 s' | None => None end.
Proof.
  revert s. induction inps1 as [|inp inps1 IH]; intros s; simpl; [reflexivity|].
  destruct (tick inp s); [apply IH | reflexivity].
Qed.

Lemma ticks_reachable inps : forall s s',
  reachable s -> ticks inps s = Some s' -> reachable s'.
Proof.
  induction inps as [|inp inps IH]; simpl; intros s s' Hr E.
  - congruence.
  - destruct (tick inp s) as [s1|] eqn:E1; [|discriminate].
    eapply IH; [|exact E]. eapply reachable_tick; eauto.
Qed.

(** Python subscripts. *)

Lemma py_index_Some {A : Type} (l : list A) i x :
  py_index l i = Some x ->
  -Z.of_nat (length l) <= i < Z.of_nat (length l).
Proof.
  unfold py_index.
  destruct (Z.leb_spec 0 i), (Z.ltb_spec i (Z.of_nat (length l))); simpl;
    try lia;
    destruct (Z.leb_spec (- Z.of_nat (length l)) i), (Z.ltb_spec i 0); simpl;
    try lia; discriminate.
Qed.

Lemma py_index_nonneg {A : Type} (l : list A) i :
  0 <= i < Z.of_nat (length l) -> py_index l i = l !! Z.to_nat i.
Proof.
  intros H. unfold py_index.
  destruct (Z.leb_spec 0 i), (Z.ltb_spec i (Z.of_nat (length l))); simpl;
    try lia. reflexivity.
Qed.

Lemma py_index_mod {A : Type} (l : list A) x :
  l <> [] ->
  exists a, py_index l (x mod Z.of_nat (length l)) = Some a.
Proof.
  intros Hl.
  assert (Hlen : 0 < Z.of_nat (length l)) by (destruct l; simpl; [congruence | lia]).
  pose proof (Z.mod_pos_bound x _ Hlen) as Hr.
  rewrite py_index_nonneg by exact Hr.
  apply lookup_lt_is_Some. lia.
Qed.

Lemma py_index_elem {A : Type} (l : list A) i x :
  py_index l i = Some x -> x ∈ l.
Proof.
  unfold py_index. intros E.
  repeat match type of E with
         | context [if ?b then _ else _] => destruct b
         end; try discriminate; eapply list_elem_of_lookup_2; exact E.
Qed.

(** The lid interlock does not fire outside a run. *)

Lemma main_menu_safe b s :
  main_state s = MODE_MAIN_MENU ->
  b && run_in_progress (main_state s) (simple_state s) (c_start_ts s) = false.
Proof. intros ->. unfold run_in_progress. simpl. apply andb_false_r. Qed.

Lemma editing_simple_safe b s :
  main_state s = MODE_SIMPLE ->
  simple_state s <> S_RUNNING ->
  b && run_in_progress (main_state s) (simple_state s) (c_start_ts s) = false.
Proof.
  intros -> Hs. unfold run_in_progress.
  destruct (Z.eqb_spec (simple_state s) S_RUNNING); [contradiction|].
  simpl. apply andb_false_r.
Qed.

Lemma no_cursor_safe b s :
  main_state s = MODE_CUSTOM_MENU ->
  c_start_ts s = None ->
  b && run_in_progress (main_state s) (simple_state s) (c_start_ts s) = false.
Proof.
  intros -> ->. unfold run_in_progress. simpl. apply andb_false_r.
Qed.

Lemma create_mode_safe b s :
  main_state s = MODE_CUSTOM_CREATE ->
  b && run_in_progress (main_state s) (simple_state s) (c_start_ts s) = false.
Proof.
  intros ->. unfold run_in_progress. simpl. apply andb_false_r.
Qed.

(** Unless the lid interlock fires, an iteration is the state machine run
    on globals that differ from the initial ones at most in the encoder
    reading and the indicator bookkeeping. *)
Lemma loop_body_state_machine inp s :
  lid_open inp && run_in_progress (main_state s) (simple_state s) (c_start_ts s)
  = false ->
  exists e c b a,
    loop_body inp s
    = state_machine (enc_value inp - _last_enc s) inp
        (set_lid_was_open a (set_blink_state_on b (set_last_blink_ms c
           (set_last_enc e s)))).
Proof.
  intros Hsafe. unfold loop_body.
  unfold bind at 1. rewrite read_delta_eq. cbv zeta.
  assert (Hs1 : exists e, after_read_delta inp s = set_last_enc e s).
  { unfold after_read_delta. destruct (negb _); [eauto|].
    exists (_last_enc s). destruct s; reflexivity. }
  destruct Hs1 as (e & ->).
  unfold bind at 1.
  assert (Hsc : safety_check (lid_open inp) (set_last_enc e s)
                = Normal tt (set_last_enc e s)).
  { unfold safety_check, when, bind, get. st_simpl.
    destruct (lid_open inp); [|reflexivity].
    cbn [andb] in Hsafe. st_simpl. rewrite Hsafe. reflexivity. }
  rewrite Hsc. unfold bind at 1.
  assert (Hind : exists c b a,
            indicator (now inp) (lid_open inp) (set_last_enc e s)
            = Normal tt (set_lid_was_open a (set_blink_state_on b
                (set_last_blink_ms c (set_last_enc e s))))).
  { unfold indicator, blink_toggle, when, bind, get, assign, skip, ret.
    clear. destruct s; st_simpl.
    repeat match goal with
           | |- context [if ?b then _ else _] => destruct b
           end; st_simpl;
      lazymatch goal with
      | |- exists c b a, Normal tt ?s' = _ =>
          exists (last_blink_ms s'), (blink_state_on s'), (lid_was_open s')
      end; reflexivity. }
  destruct Hind as (c & b & a & ->). eauto.
Qed.

(** The interlock does not fire with the lid closed. *)
Lemma lid_closed_safe inp s :
  lid_open inp = false ->
  lid_open inp && run_in_progress (main_state s) (simple_state s) (c_start_ts s)
  = false.
Proof. intros ->. reflexivity. Qed.

(** Total correctness of an iteration from that of the state machine. *)
Lemma twp_tick_state_machine (P : State -> Prop) inp s :
  lid_open inp && run_in_progress (main_state s) (simple_state s) (c_start_ts s)
  = false ->
  (forall e c b a,
     twp (state_machine (enc_value inp - _last_enc s) inp) (fun _ => P) P
       (set_lid_was_open a (set_blink_state_on b (set_last_blink_ms c
          (set_last_enc e s))))) ->
  exists s', tick inp s = Some s' /\ P s'.
Proof.
  intros Hsafe H.
  destruct (loop_body_state_machine inp s Hsafe) as (e & c & b & a & E).
  specialize (H e c b a). unfold twp in H. unfold tick. rewrite E.
  destruct (state_machine _ _ _); eauto; contradiction.
Qed.

(** Clamped adjustments and the unit table. *)

Lemma clamp_range lo hi x : lo <= hi -> lo <= clamp lo hi x <= hi.
Proof. unfold clamp. lia. Qed.

Lemma dir_cases d : (0 < d /\ dir d = 1) \/ (d <= 0 /\ dir d = -1).
Proof. unfold dir. destruct (Z.ltb_spec 0 d); [left | right]; lia. Qed.

(** The rows of the unit table: step and limits. *)
Lemma time_unit_row idx e :
  py_index TIME_UNITS idx = Some e ->
  exists step,
    py_index TIME_STEPS idx = Some step
    /\ 0 < step /\ unit_min e <= unit_max e.
Proof.
  intros E. pose proof (py_index_Some _ _ _ E) as Hr. simpl in Hr.
  assert (Hc : idx = -3 \/ idx = -2 \/ idx = -1
               \/ idx = 0 \/ idx = 1 \/ idx = 2) by lia.
  destruct Hc as [-> | [-> | [-> | [-> | [-> | ->]]]]];
    vm_compute in E; injection E as <-;
    eexists; (split; [reflexivity|]); vm_compute; split; congruence.
Qed.

(** Solves the arithmetic left by a clamped adjustment. *)
Ltac clamp_arith :=
  intros;
  repeat match goal with
         | |- context [dir ?d] =>
             let H := fresh in
             destruct (dir_cases d) as [[? H] | [? H]]; rewrite H in *
         end;
  unfold clamp, INT_MIN, INT_MAX, INT_STEP in *; lia.


(** ** The lid interlock and the long-press cancel *)

(** X17: With the lid open during a simple run, or during a custom run while the
    mode is the custom menu, the iteration stops the UV output, returns to
    the main menu in the Idle sub-state without a cursor, and does nothing
    else: the encoder reading apart, no other global changes. *)
Lemma lid_open_stops_run inp s :
  lid_open inp = true ->
  run_in_progress (main_state s) (simple_state s) (c_start_ts s) = true ->
  tick inp s
  = Some (set_c_start_ts None (set_simple_state S_IDLE
            (set_main_state MODE_MAIN_MENU
               (set_uv 0%Q (after_read_delta inp s))))).
Proof.
  intros Hlid Hrun. unfold tick, loop_body.
  unfold bind at 1. rewrite read_delta_eq.
  assert (Hrun' : run_in_progress (main_state (after_read_delta inp s))
            (simple_state (after_read_delta inp s))
            (c_start_ts (after_read_delta inp s)) = true).
  { unfold after_read_delta. destruct (negb _); exact Hrun. }
  generalize dependent (after_read_delta inp s). intros s1 Hrun'.
  unfold bind at 1. unfold safety_check. rewrite Hlid. unfold when at 1.
  unfold bind, get. rewrite Hrun'. reflexivity.
Qed.

(** X18: A long press during a simple run whose time is not yet over cancels
    it. *)
Lemma simple_long_press_cancels inp s start :
  main_state s = MODE_SIMPLE ->
  simple_state s = S_RUNNING ->
  s_start_ts s = Some start ->
  lid_open inp = false ->
  btn inp = LongPress ->
  expired (remaining (s_run_duration_sec s) (elapsed_sec (now inp) start)) = false ->
  exists s',
    tick inp s = Some s'
    /\ (uv s' = 0%Q /\ main_state s' = MODE_MAIN_MENU
        /\ simple_state s' = S_IDLE /\ s_start_ts s' = None).
Proof.
  intros Hm Hs Hts Hlid Hb Hexp.
  apply twp_tick_state_machine; [apply lid_closed_safe, Hlid|].
  intros e c b a. unfold state_machine. rewrite Hlid, Hb.
  twp_run. repeat split; reflexivity.
Qed.

(** The same long press in the iteration in which the time is over: the
    expiry branch runs after the cancel and leaves the Simple sub-state
    Done. *)
Lemma simple_long_press_at_expiry inp s start :
  main_state s = MODE_SIMPLE ->
  simple_state s = S_RUNNING ->
  s_start_ts s = Some start ->
  lid_open inp = false ->
  btn inp = LongPress ->
  expired (remaining (s_run_duration_sec s) (elapsed_sec (now inp) start)) = true ->
  exists s',
    tick inp s = Some s'
    /\ (uv s' = 0%Q /\ main_state s' = MODE_MAIN_MENU
        /\ simple_state s' = S_DONE).
Proof.
  intros Hm Hs Hts Hlid Hb Hexp.
  apply twp_tick_state_machine; [apply lid_closed_safe, Hlid|].
  intros e c b a. unfold state_machine. rewrite Hlid, Hb.
  twp_run. repeat split; reflexivity.
Qed.

(** The state left by a long press that falls on the iteration at which the
    first step of [demo_program] expires. *)
Lemma cancel_at_expiry_reachable :
  exists s,
    ticks (demo_to_run ++ [long_at 0 10040]) demo_boot = Some s
    /\ reachable s.
Proof.
  destruct (ticks (demo_to_run ++ [long_at 0 10040]) demo_boot) as [s|] eqn:E.
  - exists s. split; [reflexivity|].
    eapply ticks_reachable; [|exact E]. apply reachable_boot.
  - vm_compute in E. discriminate.
Qed.

(** C3, at its failing inputs.  A long press registered in the iteration in
    which the time of the run is over does not end with the run cancelled.
    Simple run (60 s from tick 40, long press at tick 60040): the iteration
    ends in the main menu with the Simple sub-state Done, not Idle.  Custom
    run of [demo_program] (first step of 10 s from tick 40, long press at
    tick 10040): the iteration ends in the main menu with the second step
    started, the cursor present and the UV output at 9/10.  One tick
    earlier the same long press cancels either run. *)
Theorem C3_long_press_at_expiry_does_not_cancel :
  mode_view <$> ticks (simple_to_run ++ [long_at 0 60040]) demo_boot
  = Some (MODE_MAIN_MENU, S_DONE, 0%Q)
  /\ mode_view <$> ticks (simple_to_run ++ [long_at 0 60039]) demo_boot
     = Some (MODE_MAIN_MENU, S_IDLE, 0%Q)
  /\ (fun s => (main_state s, run_view s))
       <$> ticks (demo_to_run ++ [long_at 0 10040]) demo_boot
     = Some (MODE_MAIN_MENU, (Some 10040, 1, 1, (1 # 2)%Q, (9 # 10)%Q))
  /\ (fun s => (main_state s, c_start_ts s, uv s))
       <$> ticks (demo_to_run ++ [long_at 0 10039]) demo_boot
     = Some (MODE_MAIN_MENU, None, 0%Q).
Proof. repeat split; vm_compute; reflexivity. Qed.

(** C1, at its failing input.  In the state reached by the long press at
    the expiry of a step (mode main menu, cursor present, UV output at
    9/10), an iteration with the lid open leaves the cursor and the UV
    output as they are: the interlock looks for a cursor only while the
    mode is the custom menu. *)
Theorem C1_lid_open_misses_cursor_outside_custom_menu :
  exists s s',
    reachable s
    /\ main_state s = MODE_MAIN_MENU
    /\ c_start_ts s = Some 10040
    /\ tick (lid_open_at 0 10070) s = Some s'
    /\ lid_open (lid_open_at 0 10070) = true
    /\ c_start_ts s' = Some 10040
    /\ Qred (uv s') = (9 # 10)%Q
    /\ main_state s' = MODE_MAIN_MENU.
Proof.
  destruct cancel_at_expiry_reachable as (s & E & Hr).
  vm_compute in E. injection E as <-.
  eexists. eexists. split; [exact Hr|].
  split; [reflexivity|]. split; [reflexivity|].
  split; [vm_compute; reflexivity|].
  repeat split.
Qed.

(** ** Start of a custom run *)

Lemma complete_step_duration st :
  complete_step st -> get_duration_sec st = Some (duration_of st).
Proof.
  intros ([u Hu] & [v Hv] & _). unfold duration_of, get_duration_sec.
  rewrite Hu, Hv. reflexivity.
Qed.

Lemma complete_step_duty st :
  complete_step st -> exists i, step_i st = Some i /\ duty_of st = (inject_Z i / 100)%Q.
Proof.
  intros (_ & _ & [i Hi]). exists i. unfold duty_of. rewrite Hi. auto.
Qed.

(** Selecting "Run Program" with a current program of at least one step
    starts the cursor at loop 1, step 0, with the duty and duration of the
    first step. *)
Lemma run_selection_starts inp s p st rest :
  navigating s ->
  lid_open inp = false ->
  btn inp = ShortPress ->
  menu_idx_after inp s = C_MENU_RUN ->
  heap s !! current_program s = Some p ->
  prog_steps p = Some (st :: rest) ->
  complete_step st ->
  exists s',
    tick inp s = Some s'
    /\ (main_state s' = MODE_CUSTOM_MENU
        /\ load_state s' = -1
        /\ run_state s' = C_RUN_START
        /\ heap s' = heap s
        /\ current_program s' = current_program s
        /\ c_start_ts s' = Some (stamp inp)
        /\ c_run_current_loop s' = 1
        /\ c_run_current_step s' = 0
        /\ uv s' = duty_of st
        /\ c_run_duration_sec s' = duration_of st).
Proof.
  intros (Hm & Hts & Hrs & Hls) Hlid Hb Hidx Hp Hsteps Hst.
  destruct (complete_step_duty st Hst) as (i & Hi & Hduty).
  pose proof (complete_step_duration st Hst) as Hdur.
  apply twp_tick_state_machine; [apply lid_closed_safe, Hlid|].
  intros e c b a. unfold state_machine. rewrite Hlid, Hb.
  unfold menu_idx_after in Hidx. cbv zeta in Hidx.
  assert (Hne : dict_is_empty p || no_steps p = false).
  { unfold dict_is_empty, no_steps. rewrite Hsteps.
    destruct (prog_name p), (prog_loops p); reflexivity. }
  twp_run.
  - repeat split; auto.
  - rewrite Hidx. twp_run. repeat split; auto.
Qed.

(** ** The walk of a custom run *)

Lemma next_position S k :
  0 < S -> 0 <= k ->
  (k mod S + 1 < S -> (k + 1) / S = k / S /\ (k + 1) mod S = k mod S + 1)
  /\ (S <= k mod S + 1 -> (k + 1) / S = k / S + 1 /\ (k + 1) mod S = 0).
Proof.
  intros HS Hk.
  pose proof (Z.div_mod k S ltac:(lia)) as Hdm.
  pose proof (Z.mod_pos_bound k S HS) as Hb.
  split; intros H.
  - assert (Hq : (k + 1) / S = k / S).
    { symmetry. apply (Z.div_unique (k + 1) S (k / S) (k mod S + 1)); lia. }
    split; [exact Hq|].
    symmetry. apply (Z.mod_unique (k + 1) S (k / S) (k mod S + 1)); lia.
  - assert (Hq : (k + 1) / S = k / S + 1).
    { symmetry. apply (Z.div_unique (k + 1) S (k / S + 1) 0); lia. }
    split; [exact Hq|].
    symmetry. apply (Z.mod_unique (k + 1) S (k / S + 1) 0); lia.
Qed.

Lemma step_at sts k :
  sts <> [] ->
  Forall complete_step sts ->
  exists st,
    sts !! Z.to_nat (k mod Z.of_nat (length sts)) = Some st
    /\ py_index sts (k mod Z.of_nat (length sts)) = Some st
    /\ complete_step st.
Proof.
  intros Hne Hall.
  assert (Hlen : 0 < Z.of_nat (length sts))
    by (destruct sts; simpl; [congruence | lia]).
  pose proof (Z.mod_pos_bound k _ Hlen) as Hb.
  destruct (lookup_lt_is_Some_2 sts (Z.to_nat (k mod Z.of_nat (length sts))))
    as [st Hst]; [lia|].
  exists st. split; [exact Hst|]. split.
  - rewrite py_index_nonneg by exact Hb. exact Hst.
  - rewrite Forall_forall in Hall. apply Hall.
    eapply list_elem_of_lookup_2. exact Hst.
Qed.


(** X19: A long press during a custom run whose step is not yet over cancels
    the run. *)
Lemma custom_long_press_cancels p loops sts k inp s :
  runnable p loops sts ->
  cursor_at p sts k s ->
  lid_open inp = false ->
  btn inp = LongPress ->
  step_expires inp s = false ->
  exists s',
    tick inp s = Some s'
    /\ (uv s' = 0%Q
        /\ main_state s' = MODE_MAIN_MENU
        /\ c_start_ts s' = None
        /\ simple_state s' = simple_state s).
Proof.
  intros (Hloops & Hsteps & Hne & Hall & HL)
         (Hm & Hls & Hp & [start Hts] & Hloop & Hstep & st & Hst & Huv & Hdur)
         Hlid Hb Hexp.
  destruct (step_at sts k Hne Hall) as (st' & Hst' & Hpy & Hc).
  rewrite Hst in Hst'. injection Hst' as <-.
  rewrite <- Hstep in Hpy.
  destruct (complete_step_duty st Hc) as (i & Hi & Hduty).
  unfold step_expires in Hexp. rewrite Hts in Hexp.
  apply twp_tick_state_machine; [apply lid_closed_safe, Hlid|].
  intros e c b a. unfold state_machine. rewrite Hlid, Hb.
  twp_run. repeat split.
Qed.

(** The same long press in the iteration in which a step other than the
    last expires: the cancel is undone by the expiry branch, which starts
    the next step; the mode is the main menu, the cursor is present and
    the UV output is at the duty of the next step. *)
Lemma custom_long_press_at_expiry p loops sts k inp s :
  runnable p loops sts ->
  cursor_at p sts k s ->
  0 <= k ->
  k + 1 < loops * Z.of_nat (length sts) ->
  lid_open inp = false ->
  btn inp = LongPress ->
  step_expires inp s = true ->
  exists s' st1,
    tick inp s = Some s'
    /\ sts !! Z.to_nat ((k + 1) mod Z.of_nat (length sts)) = Some st1
    /\ main_state s' = MODE_MAIN_MENU
    /\ c_start_ts s' = Some (stamp inp)
    /\ uv s' = duty_of st1.
Proof.
  intros (Hloops & Hsteps & Hne & Hall & HL)
         (Hm & Hls & Hp & [start Hts] & Hloop & Hstep & st & Hst & Huv & Hdur)
         Hk Hk1 Hlid Hb Hexp.
  assert (HS : 0 < Z.of_nat (length sts))
    by (destruct sts; simpl; [congruence | lia]).
  destruct (step_at sts k Hne Hall) as (st' & Hst' & Hpy & Hc).
  rewrite Hst in Hst'. injection Hst' as <-.
  rewrite <- Hstep in Hpy.
  destruct (complete_step_duty st Hc) as (i & Hi & Hduty).
  destruct (step_at sts (k + 1) Hne Hall) as (st1 & Hst1 & Hpy1 & Hc1).
  destruct (complete_step_duty st1 Hc1) as (i1 & Hi1 & Hduty1).
  pose proof (complete_step_duration st1 Hc1) as Hdur1.
  destruct (next_position _ k HS Hk) as [Hnowrap Hwrap].
  pose proof (Z.div_mod k (Z.of_nat (length sts)) ltac:(lia)) as Hdm.
  pose proof (Z.mod_pos_bound k _ HS) as Hmb.
  unfold step_expires in Hexp. rewrite Hts in Hexp.
  assert (Hgoal : exists s',
            tick inp s = Some s'
            /\ (main_state s' = MODE_MAIN_MENU
                /\ c_start_ts s' = Some (stamp inp)
                /\ uv s' = duty_of st1)).
  { apply twp_tick_state_machine; [apply lid_closed_safe, Hlid|].
    intros e c b a. unfold state_machine. rewrite Hlid, Hb.
    twp_run.
    - (* the walk would be over: excluded by [k + 1 < loops * S] *)
      assert (loops * Z.of_nat (length sts)
              <= (k / Z.of_nat (length sts) + 1) * Z.of_nat (length sts))
        by (apply Z.mul_le_mono_nonneg_r; lia).
      lia.
    - destruct (Hwrap ltac:(lia)) as [Hq Hr]. rewrite Hr in Hpy1.
      eapply twp_subscript; [exact Hpy1|]. cbv beta.
      twp_run. rewrite Hduty1. repeat split.
    - destruct (Hnowrap ltac:(lia)) as [Hq Hr].
      rewrite Hr, <- Hstep in Hpy1.
      eapply twp_subscript; [exact Hpy1|]. cbv beta.
      twp_run. rewrite Hduty1. repeat split. }
  destruct Hgoal as (s' & E & H).
  exists s', st1. split; [exact E|]. split; [exact Hst1 | exact H].
Qed.








(** ** The UV output is on only during a run *)

Ltac uv_inv_leaf :=
  unfold uv_inv; st_simpl; unfold_consts;
  solve [ split; intros;
          first [ lia | congruence | reflexivity | assumption
                | match goal with
                  | H : _ -> _ -> uv _ = 0%Q |- uv _ = 0%Q =>
                      apply H; first [lia | assumption | congruence]
                  end ] ].

Lemma uv_inv_loop_body inp s :
  uv_inv s -> wp (loop_body inp) (fun _ => uv_inv) uv_inv s.
Proof.
  intros H. unfold loop_body.
  apply (wp_seq uv_inv). { wp_run; exact H. }
  clear s H. intros d s H. cbv zeta.
  apply (wp_seq uv_inv).
  { wp_run; try exact H. split; st_simpl; unfold_consts; [lia | reflexivity]. }
  clear s H. intros _ s H.
  apply (wp_seq uv_inv). { wp_run; exact H. }
  clear s H. intros _ s H.
  destruct H as [Hinv1 Hinv2].
  wp_run; uv_inv_leaf.
Qed.

Lemma uv_inv_boot f enc0 t0 lid np : uv_inv (boot f enc0 t0 lid np).
Proof. split; [intros H; discriminate H | intros; reflexivity]. Qed.

Lemma uv_inv_reachable s : reachable s -> uv_inv s.
Proof.
  induction 1 as [f enc0 t0 lid np | inp s s' _ IH E].
  - apply uv_inv_boot.
  - eapply wp_tick; [|exact E]. apply uv_inv_loop_body, IH.
Qed.

(** C4: at the end of every iteration the controller can reach, if the
    Simple sub-state is not Running and there is no custom run cursor
    ([c_start_ts] is None), the UV output is off. *)
Theorem C4_uv_on_only_during_run s :
  reachable s ->
  simple_state s <> S_RUNNING ->
  c_start_ts s = None ->
  uv s = 0%Q.
Proof. intros Hr. apply (uv_inv_reachable s Hr). Qed.

Lemma demo_finished_reachable : reachable demo_finished.
Proof.
  eapply (ticks_reachable (demo_to_run ++ demo_expiries) demo_boot).
  - apply reachable_boot.
  - vm_compute. reflexivity.
Defined.

Lemma C4_witness :
  reachable demo_finished
  /\ simple_state demo_finished <> S_RUNNING
  /\ c_start_ts demo_finished = None
  /\ uv demo_finished = 0%Q.
Proof.
  split; [exact demo_finished_reachable|].
  split; [vm_compute; discriminate|].
  split; [vm_compute; reflexivity|].
  apply (C4_uv_on_only_during_run demo_finished).
  - exact demo_finished_reachable.
  - vm_compute; discriminate.
  - vm_compute; reflexivity.
Defined.

(** ** Saving a program *)

(** [save_programs_to_file] catches what the write raises. *)
Lemma save_never_raises w programs_list f :
  (save_programs_to_file w programs_list f).1 = Returns tt.
Proof. destruct w; reflexivity. Qed.

Lemma deref_all_length h : forall refs ps,
  deref_all h refs = Some ps -> length ps = length refs.
Proof.
  induction refs as [|r refs IH]; simpl; intros ps E.
  - injection E as <-. reflexivity.
  - destruct (h !! r) as [p|]; [|discriminate]. simpl in E.
    destruct (deref_all h refs) as [ps'|]; [|discriminate]. simpl in E.
    injection E as <-. simpl. f_equal. apply IH. reflexivity.
Qed.

Lemma deref_all_insert h (cp : loc) cur : forall refs ps i,
  deref_all h refs = Some ps ->
  h !! cp = Some cur ->
  deref_all h (<[i := cp]> refs) = Some (<[i := cur]> ps).
Proof.
  induction refs as [|r refs IH]; simpl; intros ps i E Hcp.
  - injection E as <-. destruct i; reflexivity.
  - destruct (h !! r) as [p|] eqn:Hr; [|discriminate]. simpl in E.
    destruct (deref_all h refs) as [ps'|] eqn:Hps; [|discriminate]. simpl in E.
    injection E as <-.
    destruct i as [|i]; simpl.
    + rewrite Hcp, Hps. reflexivity.
    + rewrite Hr. simpl. rewrite (IH ps' i eq_refl Hcp). reflexivity.
Qed.

Lemma deref_all_app h (cp : loc) cur : forall refs ps,
  deref_all h refs = Some ps ->
  h !! cp = Some cur ->
  deref_all h (refs ++ [cp]) = Some (ps ++ [cur]).
Proof.
  induction refs as [|r refs IH]; simpl; intros ps E Hcp.
  - injection E as <-. rewrite Hcp. reflexivity.
  - destruct (h !! r) as [p|] eqn:Hr; [|discriminate]. simpl in E.
    destruct (deref_all h refs) as [ps'|] eqn:Hps; [|discriminate]. simpl in E.
    injection E as <-. simpl.
    rewrite (IH ps' eq_refl Hcp). reflexivity.
Qed.

Lemma name_index_lt c : forall ps i,
  name_index c ps = Some i -> (i < length ps)%nat.
Proof.
  induction ps as [|p ps IH]; simpl; intros i E; [discriminate|].
  destruct (bool_decide _).
  - injection E as <-. lia.
  - destruct (name_index c ps) as [j|]; [|discriminate].
    injection E as <-. specialize (IH j eq_refl). lia.
Qed.

(** [name_index] finds the first entry of that name. *)
Lemma name_index_Some c : forall ps i,
  name_index c ps = Some i ->
  (exists p, ps !! i = Some p /\ prog_name p = Some c)
  /\ (forall j q, (j < i)%nat -> ps !! j = Some q -> prog_name q <> Some c).
Proof.
  induction ps as [|p ps IH]; simpl; intros i E; [discriminate|].
  destruct (bool_decide (prog_name p = Some c)) eqn:Hd.
  - injection E as <-. apply bool_decide_eq_true in Hd. split.
    + exists p. split; [reflexivity | exact Hd].
    + intros j q Hj. lia.
  - apply bool_decide_eq_false in Hd.
    destruct (name_index c ps) as [k|]; [|discriminate].
    injection E as <-. destruct (IH k eq_refl) as [Hk Hbefore]. split.
    + exact Hk.
    + intros [|j] q Hj Hq; simpl in Hq.
      * injection Hq as <-. exact Hd.
      * apply (Hbefore j q); [lia | exact Hq].
Qed.

Lemma name_index_None c : forall ps,
  name_index c ps = None ->
  forall p, p ∈ ps -> prog_name p <> Some c.
Proof.
  induction ps as [|q ps IH]; simpl; intros E p Hp.
  - inversion Hp.
  - destruct (bool_decide (prog_name q = Some c)) eqn:Hd; [discriminate|].
    apply bool_decide_eq_false in Hd.
    destruct (name_index c ps) as [k|] eqn:Hk; [discriminate|].
    inversion Hp; subst; [exact Hd | apply IH; auto].
Qed.

(** The search loop of the source computes [name_index]. *)
Lemma find_by_name_index cur c : forall ps k,
  prog_name cur = Some c ->
  Forall (fun p => is_Some (prog_name p)) ps ->
  find_by_name ps cur k
  = Some (match name_index c ps with
          | Some i => k + Z.of_nat i
          | None => -1
          end).
Proof.
  intros ps k Hc. revert k.
  induction ps as [|p ps IH]; simpl; intros k Hall; [reflexivity|].
  inversion Hall as [|? ? [n Hn] Hrest]; subst.
  rewrite Hn, Hc. simpl.
  destruct (String.eqb_spec n c) as [->|Hne].
  - rewrite bool_decide_eq_true_2 by reflexivity. f_equal. lia.
  - rewrite bool_decide_eq_false_2 by congruence.
    rewrite (IH (k + 1) Hrest).
    destruct (name_index c ps); simpl; f_equal; lia.
Qed.

(** C5: the Save confirmation replaces, in place, the first stored entry
    whose name equals that of the current program (the store keeps its
    length and its other entries), or appends the current program when no
    stored entry has that name (the store grows by one); then the whole
    store is written to the programs file. *)
Theorem C5_save_replaces_by_name_or_appends inp s cur c ps :
  main_state s = MODE_CUSTOM_CREATE ->
  create_state s = C_CREATE_SAVE_PROG ->
  btn inp = ShortPress ->
  heap s !! current_program s = Some cur ->
  prog_name cur = Some c ->
  deref_all (heap s) (saved_programs s) = Some ps ->
  Forall (fun p => is_Some (prog_name p)) ps ->
  exists s',
    tick inp s = Some s'
    /\ (saved_programs s'
        = store_after_save c (current_program s) (saved_programs s) ps
        /\ heap s' = heap s
        /\ main_state s' = MODE_CUSTOM_MENU
        /\ match name_index c ps with
           | Some i =>
               length (saved_programs s') = length (saved_programs s)
               /\ saved_programs s' !! i = Some (current_program s)
               /\ (forall j, j <> i ->
                     saved_programs s' !! j = saved_programs s !! j)
           | None =>
               length (saved_programs s') = S (length (saved_programs s))
               /\ saved_programs s' = saved_programs s ++ [current_program s]
           end
        /\ exists contents,
             deref_all (heap s') (saved_programs s') = Some contents
             /\ programs_file s'
                = (save_programs_to_file (write inp) contents (programs_file s)).2
             /\ (write inp = WriteOk -> programs_file s' = Stored contents)).
Proof.
  intros Hm Hc Hb Hcur Hname Hps Hnamed.
  apply twp_tick_state_machine; [apply create_mode_safe, Hm|].
  intros e cb b a. unfold state_machine. rewrite Hb.
  twp_run.
  eapply twp_subscript; [apply (find_by_name_index cur c ps 0 Hname Hnamed)|].
  cbv beta. unfold store_after_save.
  pose proof (deref_all_length _ _ _ Hps) as Hlen.
  destruct (name_index c ps) as [i|] eqn:Hidx.
  - pose proof (name_index_lt _ _ _ Hidx) as Hi.
    replace (Z.to_nat (0 + Z.of_nat i)) with i by lia.
    twp_run.
    eapply twp_subscript;
      [apply (deref_all_insert _ _ _ _ _ i Hps Hcur)|]. cbv beta.
    do 4 twp_step.
    rewrite save_never_raises.
    twp_run.
    repeat split; try reflexivity.
    + apply length_insert.
    + apply list_lookup_insert_eq. lia.
    + intros j Hj. apply list_lookup_insert_ne. congruence.
    + eexists. split; [apply (deref_all_insert _ _ _ _ _ i Hps Hcur)|].
      split; [reflexivity|]. intros ->. reflexivity.
  - twp_run.
    eapply twp_subscript; [apply (deref_all_app _ _ _ _ _ Hps Hcur)|]. cbv beta.
    do 4 twp_step.
    rewrite save_never_raises.
    twp_run.
    repeat split; try reflexivity.
    + rewrite length_app. simpl. lia.
    + eexists. split; [apply (deref_all_app _ _ _ _ _ Hps Hcur)|].
      split; [reflexivity|]. intros ->. reflexivity.
Qed.

Lemma C5_witness :
  main_state at_save_prompt = MODE_CUSTOM_CREATE
  /\ create_state at_save_prompt = C_CREATE_SAVE_PROG
  /\ btn (short_at 2 140) = ShortPress
  /\ heap at_save_prompt !! current_program at_save_prompt = Some authored_program
  /\ prog_name authored_program = Some "P-01"%string
  /\ deref_all (heap at_save_prompt) (saved_programs at_save_prompt)
     = Some [demo_program]
  /\ Forall (fun p => is_Some (prog_name p)) [demo_program]
  /\ exists s',
       tick (short_at 2 140) at_save_prompt = Some s'
       /\ saved_programs s' = [current_program at_save_prompt]
       /\ length (saved_programs s') = length (saved_programs at_save_prompt)
       /\ programs_file s' = Stored [authored_program].
Proof.
  assert (Hnamed : Forall (fun p => is_Some (prog_name p)) [demo_program]).
  { constructor; [eexists; reflexivity | constructor]. }
  split; [reflexivity|]. split; [reflexivity|]. split; [reflexivity|].
  split; [reflexivity|]. split; [reflexivity|]. split; [reflexivity|].
  split; [exact Hnamed|].
  destruct (C5_save_replaces_by_name_or_appends (short_at 2 140) at_save_prompt
              authored_program "P-01"%string [demo_program]
              eq_refl eq_refl eq_refl eq_refl eq_refl eq_refl Hnamed)
    as (s' & E & Hsp & Hheap & _ & Hcase & contents & Hcont & _ & Hfile).
  exists s'. split; [exact E|].
  split; [exact Hsp|].
  split; [exact (proj1 Hcase)|].
  rewrite (Hfile eq_refl). f_equal.
  rewrite Hheap, Hsp in Hcont. vm_compute in Hcont.
  injection Hcont as <-. reflexivity.
Defined.

(** ** The default name is an unused one *)

(** A name in [p_names]: the test of the source's [while] loop. *)
Lemma name_used_iff x (p_names : list string) :
  existsb (String.eqb x) p_names = true <-> In x p_names.
Proof.
  rewrite existsb_exists. split.
  - intros (y & Hy & E). apply String.eqb_eq in E. subst. exact Hy.
  - intros H. exists x. split; [exact H | apply String.eqb_refl].
Qed.

(** [int] reads back what ["{:02d}"] wrote. *)
Lemma py_int_fmt_02d n : 0 <= n -> py_int (fmt_02d n) = Some n.
Proof.
  intros Hn. unfold py_int, fmt_02d.
  destruct n as [|p|p]; [reflexivity | | lia].
  cbn zeta.
  change (Z.to_int (Z.pos p)) with (Decimal.Pos (Pos.to_uint p)).
  assert (Hisi : NilZero.int_of_string
                   (NilZero.string_of_int (Decimal.Pos (Pos.to_uint p)))
                 = Some (Decimal.Pos (Pos.to_uint p))).
  { apply NilZero.isi; [|discriminate].
    intros E. injection E as E.
    exact (DecimalPos.Unsigned.to_uint_nonnil p E). }
  destruct (String.length _ <? 2)%nat.
  - cbn [NilZero.string_of_int] in *.
    pose proof (DecimalPos.Unsigned.to_uint_nonnil p) as Hnn.
    assert (Hs : NilZero.string_of_uint (Pos.to_uint p)
                 = NilEmpty.string_of_uint (Pos.to_uint p))
      by (destruct (Pos.to_uint p); [congruence | reflexivity ..]).
    rewrite Hs.
    change ("0" ++ NilEmpty.string_of_uint (Pos.to_uint p))%string
      with (String "0" (NilEmpty.string_of_uint (Pos.to_uint p))).
    unfold NilZero.int_of_string, NilZero.uint_of_string.
    change (Ascii.eqb "0" "-") with false. cbv iota.
    cbn [NilEmpty.uint_of_string]. rewrite NilEmpty.usu.
    cbn. f_equal.
    change (Z.of_uint (Decimal.D0 (Pos.to_uint p)))
      with (Z.of_uint (Pos.to_uint p)).
    exact (DecimalZ.of_to (Z.pos p)).
  - rewrite Hisi. cbn. f_equal. exact (DecimalZ.of_to (Z.pos p)).
Qed.

Lemma program_name_inj m n :
  0 <= m -> 0 <= n -> program_name m = program_name n -> m = n.
Proof.
  intros Hm Hn E. unfold program_name in E.
  assert (E' : fmt_02d m = fmt_02d n).
  { cbn [String.append] in E. injection E as E. exact E. }
  pose proof (py_int_fmt_02d m Hm) as H1.
  pose proof (py_int_fmt_02d n Hn) as H2.
  rewrite E' in H1. congruence.
Qed.

(** The loop either leaves by its test or has found every name it tried. *)
Lemma first_unused_cases p_names : forall fuel p_num,
  existsb (String.eqb (program_name (first_unused fuel p_num p_names))) p_names
  = false
  \/ (first_unused fuel p_num p_names = p_num + Z.of_nat fuel
      /\ forall j, (j < fuel)%nat ->
           In (program_name (p_num + Z.of_nat j)) p_names).
Proof.
  induction fuel as [|fuel IH]; intros p_num; cbn [first_unused].
  - right. split; [lia|]. intros j Hj. lia.
  - destruct (existsb (String.eqb (program_name p_num)) p_names) eqn:Hused.
    + destruct (IH (p_num + 1)) as [Hfree | (Heq & Hall)]; [left; exact Hfree|].
      right. split; [lia|].
      intros [|j] Hj.
      * rewrite Z.add_0_r. apply name_used_iff, Hused.
      * replace (p_num + Z.of_nat (S j)) with (p_num + 1 + Z.of_nat j) by lia.
        apply Hall. lia.
    + left. exact Hused.
Qed.

(** With the fuel the model gives it, the loop leaves by its test: the name
    it proposes is not in the store. *)
Lemma first_unused_is_unused p_names :
  existsb
    (String.eqb (program_name (first_unused (length p_names) 1 p_names)))
    p_names = false.
Proof.
  destruct (first_unused_cases p_names (length p_names) 1)
    as [Hfree | (Heq & Hall)]; [exact Hfree|].
  rewrite Heq.
  destruct (existsb _ p_names) eqn:Hused; [|reflexivity].
  apply name_used_iff in Hused. exfalso.
  set (tried := map (fun j => program_name (1 + Z.of_nat j))
                  (seq 0 (S (length p_names)))).
  assert (Hnd : List.NoDup tried).
  { apply Finite.Injective_map_NoDup; [|apply seq_NoDup].
    intros i j E. apply program_name_inj in E; lia. }
  assert (Hincl : incl tried p_names).
  { intros x Hx. apply in_map_iff in Hx. destruct Hx as (j & <- & Hj).
    apply in_seq in Hj.
    destruct (Nat.eq_dec j (length p_names)) as [-> | Hne].
    - exact Hused.
    - apply Hall. lia. }
  pose proof (List.NoDup_incl_length Hnd Hincl) as Hlen.
  unfold tried in Hlen. rewrite length_map, length_seq in Hlen. lia.
Qed.

(** ** Value editors clamp, selectors wrap *)

(** The name built from a suffix in [1, 99] parses back to it. *)
Lemma name_suffix_program_name n :
  1 <= n <= 99 -> name_suffix (program_name n) = n.
Proof.
  intros Hn.
  assert (Hall : forallb (fun k => name_suffix (program_name k) =? k)
                   (map Z.of_nat (seq 1 99)) = true)
    by (vm_compute; reflexivity).
  rewrite forallb_forall in Hall.
  apply Z.eqb_eq, Hall.
  apply in_map_iff. exists (Z.to_nat n). split; [lia|].
  apply in_seq. lia.
Qed.

Lemma editor_tick ed inp s :
  rotation_only inp ->
  in_editor ed s ->
  value_in_range ed s ->
  exists s',
    tick inp s = Some s'
    /\ (in_editor ed s'
        /\ value_in_range ed s'
        /\ (0 < enc_value inp - _last_enc s ->
            edited_value ed s <= edited_value ed s')
        /\ (enc_value inp - _last_enc s < 0 ->
            edited_value ed s' <= edited_value ed s)
        /\ (enc_value inp - _last_enc s = 0 ->
            edited_value ed s' = edited_value ed s)).
Proof.
  unfold rotation_only. intros Hb Hin (lo & hi & Hlim & Hv).
  destruct ed; simpl in Hin, Hlim, Hv.
  - (* Simple, Set Time *)
    destruct Hin as (Hm & Hs).
    destruct (py_index TIME_UNITS (s_current_time_unit_idx s)) as [e|] eqn:He;
      [|discriminate].
    simpl in Hlim. injection Hlim as <- <-.
    destruct (time_unit_row _ _ He) as (step & Hstep & Hpos & Hle).
    apply twp_tick_state_machine;
      [apply editing_simple_safe; [exact Hm | rewrite Hs; discriminate]|].
    intros e0 c b a. unfold state_machine. rewrite Hb.
    twp_run.
    all: unfold value_in_range; simpl; st_simpl.
    all: (split; [auto|]);
      (split; [exists (unit_min e), (unit_max e); rewrite He;
               split; [reflexivity | clamp_arith] |]);
      repeat split; clamp_arith.
  - (* Simple, Set Intensity *)
    destruct Hin as (Hm & Hs). injection Hlim as <- <-.
    apply twp_tick_state_machine;
      [apply editing_simple_safe; [exact Hm | rewrite Hs; discriminate]|].
    intros e0 c b a. unfold state_machine. rewrite Hb.
    twp_run.
    all: unfold value_in_range; simpl; st_simpl.
    all: (split; [auto|]);
      (split; [exists INT_MIN, INT_MAX; split; [reflexivity | clamp_arith] |]);
      repeat split; clamp_arith.
  - (* Wizard, Set Time *)
    destruct Hin as (Hm & Hs & p & steps & Hp & Hsteps).
    destruct (step_u (temp_step s)) as [idx|] eqn:Hu; [|discriminate].
    simpl in Hlim.
    destruct (py_index TIME_UNITS idx) as [e|] eqn:He; [|discriminate].
    simpl in Hlim. injection Hlim as <- <-.
    destruct (time_unit_row _ _ He) as (step & Hstep & Hpos & Hle).
    apply twp_tick_state_machine; [apply create_mode_safe, Hm|].
    intros e0 c b a. unfold state_machine. rewrite Hb.
    twp_run.
    all: unfold value_in_range; simpl; unfold shows_steps; st_simpl.
    all: (split; [repeat split; auto; exists p, steps; auto|]);
      (split; [exists (unit_min e), (unit_max e); rewrite Hu; simpl;
               rewrite He; split; [reflexivity | clamp_arith] |]);
      repeat split; clamp_arith.
  - (* Wizard, Set Intensity *)
    destruct Hin as (Hm & Hs & p & steps & Hp & Hsteps).
    injection Hlim as <- <-.
    apply twp_tick_state_machine; [apply create_mode_safe, Hm|].
    intros e0 c b a. unfold state_machine. rewrite Hb.
    twp_run.
    all: unfold value_in_range; simpl; unfold shows_steps; st_simpl.
    all: (split; [repeat split; auto; exists p, steps; auto|]);
      (split; [exists INT_MIN, INT_MAX; split; [reflexivity | clamp_arith] |]);
      repeat split; clamp_arith.
  - (* Wizard, Set Loops *)
    destruct Hin as (Hm & Hs). injection Hlim as <- <-.
    apply twp_tick_state_machine; [apply create_mode_safe, Hm|].
    intros e0 c b a. unfold state_machine. rewrite Hb.
    twp_run.
    all: unfold value_in_range; simpl; st_simpl.
    all: (split; [auto|]);
      (split; [exists 1, 99; split; [reflexivity | clamp_arith] |]);
      repeat split; clamp_arith.
  - (* Wizard, Set Name *)
    destruct Hin as (Hm & Hs). injection Hlim as <- <-.
    apply twp_tick_state_machine; [apply create_mode_safe, Hm|].
    intros e0 c b a. unfold state_machine. rewrite Hb.
    twp_run.
    all: unfold value_in_range; simpl; st_simpl.
    all: try rewrite name_suffix_program_name by (apply clamp_range; lia).
    all: (split; [auto|]);
      (split; [exists 1, 99; split; [reflexivity | clamp_arith] |]);
      repeat split; clamp_arith.
Qed.

Lemma selector_tick sel inp s :
  rotation_only inp ->
  in_selector sel s ->
  enc_value inp - _last_enc s <> 0 ->
  exists s',
    tick inp s = Some s'
    /\ (in_selector sel s'
        /\ selector_size sel s' = selector_size sel s
        /\ selector_index sel s'
           = (selector_index sel s
              + selector_turn sel (enc_value inp - _last_enc s))
             mod selector_size sel s).
Proof.
  unfold rotation_only. intros Hb Hin Hd.
  destruct sel; simpl in Hin.
  - (* main menu *)
    destruct (py_index_mod main_menu_items (main_menu_idx s + 1)) as [it Hit];
      [discriminate|].
    change (Z.of_nat (length main_menu_items)) with 2 in Hit.
    apply twp_tick_state_machine; [apply main_menu_safe, Hin|].
    intros e c b a. unfold state_machine. rewrite Hb.
    twp_run. simpl. auto.
  - (* Simple, time unit *)
    destruct Hin as (Hm & Hs).
    destruct (py_index_mod TIME_UNITS
                (s_current_time_unit_idx s + dir (enc_value inp - _last_enc s)))
      as [it Hit]; [discriminate|].
    apply twp_tick_state_machine;
      [apply editing_simple_safe; [exact Hm | rewrite Hs; discriminate]|].
    intros e c b a. unfold state_machine. rewrite Hb.
    twp_run. simpl. auto.
  - (* wizard, time unit *)
    destruct Hin as (Hm & Hs & p & steps & Hp & Hsteps).
    destruct (py_index_mod TIME_UNITS
                (s_current_time_unit_idx s + dir (enc_value inp - _last_enc s)))
      as [it Hit]; [discriminate|].
    apply twp_tick_state_machine; [apply create_mode_safe, Hm|].
    intros e c b a. unfold state_machine. rewrite Hb.
    twp_run. simpl. unfold shows_steps. st_simpl.
    repeat split; auto. exists p, steps. auto.
  - (* custom menu *)
    destruct Hin as (Hm & Hts & Hrs & Hls).
    destruct (py_index_mod custom_menu_items
                (custom_menu_idx s + dir (enc_value inp - _last_enc s)))
      as [it Hit]; [discriminate|].
    apply twp_tick_state_machine; [apply no_cursor_safe; assumption|].
    intros e c b a. unfold state_machine. rewrite Hb.
    twp_run. simpl. unfold navigating. st_simpl. auto 10.
  - (* Load selection *)
    destruct Hin as ((Hm & Hts & Hrs & Hls) & Hne & Hnames).
    destruct (py_index_mod (saved_programs s)
                (load_program_idx s + dir (enc_value inp - _last_enc s)))
      as [r Hr]; [exact Hne|].
    destruct (Hnames r (py_index_elem _ _ _ Hr)) as (p & n & Hp & Hn).
    assert (Hne' : bool_decide (saved_programs s = []) = false)
      by (apply bool_decide_eq_false; exact Hne).
    apply twp_tick_state_machine; [apply no_cursor_safe; assumption|].
    intros e c b a. unfold state_machine. rewrite Hb.
    twp_run. simpl. unfold selecting_load, names_shown. st_simpl. auto 10.
Qed.

(** Whatever the value was, a rotation leaves it within the limits. *)
Lemma editor_adjust ed inp s :
  rotation_only inp ->
  in_editor ed s ->
  is_Some (editor_limits ed s) ->
  enc_value inp - _last_enc s <> 0 ->
  exists s',
    tick inp s = Some s' /\ (in_editor ed s' /\ value_in_range ed s').
Proof.
  unfold rotation_only. intros Hb Hin [[lo hi] Hlim] Hd.
  destruct ed; simpl in Hin, Hlim.
  - destruct Hin as (Hm & Hs).
    destruct (py_index TIME_UNITS (s_current_time_unit_idx s)) as [e|] eqn:He;
      [|discriminate].
    simpl in Hlim. injection Hlim as <- <-.
    destruct (time_unit_row _ _ He) as (step & Hstep & Hpos & Hle).
    apply twp_tick_state_machine;
      [apply editing_simple_safe; [exact Hm | rewrite Hs; discriminate]|].
    intros e0 c b a. unfold state_machine. rewrite Hb.
    twp_run.
    unfold value_in_range; simpl; st_simpl.
    split; [auto|]. exists (unit_min e), (unit_max e). rewrite He.
    split; [reflexivity | apply clamp_range; exact Hle].
  - destruct Hin as (Hm & Hs). injection Hlim as <- <-.
    apply twp_tick_state_machine;
      [apply editing_simple_safe; [exact Hm | rewrite Hs; discriminate]|].
    intros e0 c b a. unfold state_machine. rewrite Hb.
    twp_run.
    unfold value_in_range; simpl; st_simpl.
    split; [auto|]. exists INT_MIN, INT_MAX.
    split; [reflexivity | apply clamp_range; unfold INT_MIN, INT_MAX; lia].
  - destruct Hin as (Hm & Hs & p & steps & Hp & Hsteps).
    destruct (step_u (temp_step s)) as [idx|] eqn:Hu; [|discriminate].
    simpl in Hlim.
    destruct (py_index TIME_UNITS idx) as [e|] eqn:He; [|discriminate].
    simpl in Hlim. injection Hlim as <- <-.
    destruct (time_unit_row _ _ He) as (step & Hstep & Hpos & Hle).
    apply twp_tick_state_machine; [apply create_mode_safe, Hm|].
    intros e0 c b a. unfold state_machine. rewrite Hb.
    twp_run.
    unfold value_in_range; simpl; unfold shows_steps; st_simpl.
    split; [repeat split; auto; exists p, steps; auto|].
    exists (unit_min e), (unit_max e). rewrite Hu. simpl. rewrite He.
    split; [reflexivity | apply clamp_range; exact Hle].
  - destruct Hin as (Hm & Hs & p & steps & Hp & Hsteps).
    injection Hlim as <- <-.
    apply twp_tick_state_machine; [apply create_mode_safe, Hm|].
    intros e0 c b a. unfold state_machine. rewrite Hb.
    twp_run.
    unfold value_in_range; simpl; unfold shows_steps; st_simpl.
    split; [repeat split; auto; exists p, steps; auto|].
    exists INT_MIN, INT_MAX.
    split; [reflexivity | apply clamp_range; unfold INT_MIN, INT_MAX; lia].
  - destruct Hin as (Hm & Hs). injection Hlim as <- <-.
    apply twp_tick_state_machine; [apply create_mode_safe, Hm|].
    intros e0 c b a. unfold state_machine. rewrite Hb.
    twp_run.
    unfold value_in_range; simpl; st_simpl.
    split; [auto|]. exists 1, 99.
    split; [reflexivity | apply clamp_range; lia].
  - destruct Hin as (Hm & Hs). injection Hlim as <- <-.
    apply twp_tick_state_machine; [apply create_mode_safe, Hm|].
    intros e0 c b a. unfold state_machine. rewrite Hb.
    twp_run.
    unfold value_in_range; simpl; st_simpl.
    rewrite name_suffix_program_name by (apply clamp_range; lia).
    split; [auto|]. exists 1, 99.
    split; [reflexivity | apply clamp_range; lia].
Qed.

Lemma editor_ticks ed inps : forall s,
  Forall rotation_only inps ->
  in_editor ed s ->
  value_in_range ed s ->
  exists s',
    ticks inps s = Some s' /\ in_editor ed s' /\ value_in_range ed s'.
Proof.
  induction inps as [|inp inps IH]; intros s Hall Hin Hv.
  - exists s. auto.
  - inversion Hall as [|? ? Hinp Hrest]; subst.
    destruct (editor_tick ed inp s Hinp Hin Hv) as (s1 & E1 & Hin1 & Hv1 & _).
    destruct (IH s1 Hrest Hin1 Hv1) as (s' & E & H').
    exists s'. simpl. rewrite E1. auto.
Qed.

Lemma selector_size_pos sel s : in_selector sel s -> 0 < selector_size sel s.
Proof.
  destruct sel; simpl; try lia.
  intros (_ & Hne & _). destruct (saved_programs s); simpl; [congruence | lia].
Qed.

(** C6: whatever the encoder does, the values under the Set Time, Set
    Intensity, Set Loops and Set Name editors stay within their limits (the
    limits of the unit, [0, 100], [1, 99], [1, 99]); a rotation moves the
    value in its own direction or not at all, so the limits are met by
    clamping and never by wrapping; a rotation brings even a value from
    outside the limits within them; and the selectors (main menu, time
    unit, custom menu, Load entry) move modulo their size, wrapping from
    the last entry to the first and from the first to the last. *)
Theorem C6_editors_clamp_selectors_wrap :
  (forall ed inps s,
     Forall rotation_only inps ->
     in_editor ed s ->
     value_in_range ed s ->
     exists s',
       ticks inps s = Some s' /\ in_editor ed s' /\ value_in_range ed s')
  /\ (forall ed inp s,
        rotation_only inp ->
        in_editor ed s ->
        value_in_range ed s ->
        exists s',
          tick inp s = Some s'
          /\ value_in_range ed s'
          /\ (0 < enc_value inp - _last_enc s ->
              edited_value ed s <= edited_value ed s')
          /\ (enc_value inp - _last_enc s < 0 ->
              edited_value ed s' <= edited_value ed s)
          /\ (enc_value inp - _last_enc s = 0 ->
              edited_value ed s' = edited_value ed s))
  /\ (forall ed inp s,
        rotation_only inp ->
        in_editor ed s ->
        is_Some (editor_limits ed s) ->
        enc_value inp - _last_enc s <> 0 ->
        exists s',
          tick inp s = Some s' /\ in_editor ed s' /\ value_in_range ed s')
  /\ (forall sel inp s,
        rotation_only inp ->
        in_selector sel s ->
        enc_value inp - _last_enc s <> 0 ->
        exists s',
          tick inp s = Some s'
          /\ in_selector sel s'
          /\ selector_index sel s'
             = (selector_index sel s
                + selector_turn sel (enc_value inp - _last_enc s))
               mod selector_size sel s
          /\ 0 <= selector_index sel s' < selector_size sel s
          /\ (selector_index sel s = selector_size sel s - 1 ->
              0 < enc_value inp - _last_enc s ->
              selector_index sel s' = 0)
          /\ (selector_index sel s = 0 ->
              enc_value inp - _last_enc s < 0 ->
              sel <> MainMenuItem ->
              selector_index sel s' = selector_size sel s - 1)).
Proof.
  split; [exact editor_ticks|]. split; [|split].
  - intros ed inp s Hb Hin Hv.
    destruct (editor_tick ed inp s Hb Hin Hv) as (s' & E & _ & H).
    exists s'. auto.
  - intros ed inp s Hb Hin Hlim Hd.
    destruct (editor_adjust ed inp s Hb Hin Hlim Hd) as (s' & E & H).
    exists s'. split; [exact E | exact H].
  - intros sel inp s Hb Hin Hd.
    destruct (selector_tick sel inp s Hb Hin Hd) as (s' & E & Hin' & _ & Hidx).
    pose proof (selector_size_pos sel s Hin) as Hpos.
    exists s'. split; [exact E|]. split; [exact Hin'|]. split; [exact Hidx|].
    split; [rewrite Hidx; apply Z.mod_pos_bound; exact Hpos|].
    split.
    + intros Hlast Hd'. rewrite Hidx, Hlast.
      assert (Ht : selector_turn sel (enc_value inp - _last_enc s) = 1).
      { destruct sel; simpl; try reflexivity;
          unfold dir; destruct (Z.ltb_spec 0 (enc_value inp - _last_enc s));
          lia. }
      rewrite Ht.
      replace (selector_size sel s - 1 + 1) with (selector_size sel s) by lia.
      apply Z_mod_same_full.
    + intros Hfirst Hd' Hsel. rewrite Hidx, Hfirst.
      assert (Ht : selector_turn sel (enc_value inp - _last_enc s) = -1).
      { destruct sel; simpl; try congruence;
          unfold dir; destruct (Z.ltb_spec 0 (enc_value inp - _last_enc s));
          lia. }
      rewrite Ht.
      replace (0 + -1) with (-1) by lia.
      rewrite <- (Z_mod_plus_full (-1) 1 (selector_size sel s)).
      rewrite Z.mod_small by lia. lia.
Qed.

Lemma C6_witness :
  Forall rotation_only [idle_at 5 30; idle_at 3 40]
  /\ in_editor SimpleSetTime at_simple_set_time_max
  /\ value_in_range SimpleSetTime at_simple_set_time_max
  /\ exists s',
       ticks [idle_at 5 30; idle_at 3 40] at_simple_set_time_max = Some s'
       /\ in_editor SimpleSetTime s'
       /\ value_in_range SimpleSetTime s'.
Proof.
  assert (Hall : Forall rotation_only [idle_at 5 30; idle_at 3 40]).
  { repeat constructor. }
  assert (Hin : in_editor SimpleSetTime at_simple_set_time_max).
  { split; reflexivity. }
  assert (Hv : value_in_range SimpleSetTime at_simple_set_time_max).
  { exists 1, 3600. split; [reflexivity|]. vm_compute. split; discriminate. }
  split; [exact Hall|]. split; [exact Hin|]. split; [exact Hv|].
  exact (proj1 C6_editors_clamp_selectors_wrap SimpleSetTime
           [idle_at 5 30; idle_at 3 40] at_simple_set_time_max Hall Hin Hv).
Defined.

(** ** Unit conversion and the scenario run *)

Lemma simple_set_intens_duration s d stamp_ idx v :
  exists s',
    simple_set_intens d false ShortPress stamp_
      (set_s_set_value v (set_s_current_time_unit_idx idx s)) = Normal tt s'
    /\ s_run_duration_sec s'
       = (if idx =? 0 then inject_Z v
          else if idx =? 1 then inject_Z (v * 60)
          else if idx =? 2 then (inject_Z v / 1000)%Q
          else s_run_duration_sec s)
    /\ simple_state s' = S_RUNNING
    /\ s_start_ts s' = Some stamp_.
Proof.
  unfold simple_set_intens, rotate_intensity, uv_value, when, bind, get, assign,
    skip, ret.
  cbn [is_pressed]. st_simpl.
  destruct (negb (d =? 0)); st_simpl;
    destruct (idx =? 0); [| destruct (idx =? 1); [| destruct (idx =? 2)] | |
                          destruct (idx =? 1); [| destruct (idx =? 2)]];
    st_simpl; eexists; repeat split; reflexivity.
Qed.

(** C7: seconds from (unit, value): unit 0 gives the value, unit 1 the value
    times 60, unit 2 the value over 1000, in [get_duration_sec] and in the
    start of a simple run alike; and the program with steps (unit 0, 10,
    30 %) and (unit 2, 500, 90 %) and 2 loops runs durations 10, 1/2, 10,
    1/2 seconds at duties 3/10, 9/10, 3/10, 9/10 and is finished by the
    fourth expiry. *)
Theorem C7_unit_conversion_and_scenario :
  (forall val i, get_duration_sec (mkStep (Some 0) (Some val) i)
                 = Some (inject_Z val))
  /\ (forall val i, get_duration_sec (mkStep (Some 1) (Some val) i)
                    = Some (inject_Z (val * 60)))
  /\ (forall val i, get_duration_sec (mkStep (Some 2) (Some val) i)
                    = Some (inject_Z val / 1000)%Q)
  /\ (forall s d stamp_ val, exists s',
        simple_set_intens d false ShortPress stamp_
          (set_s_set_value val (set_s_current_time_unit_idx 0 s)) = Normal tt s'
        /\ s_run_duration_sec s' = inject_Z val)
  /\ (forall s d stamp_ val, exists s',
        simple_set_intens d false ShortPress stamp_
          (set_s_set_value val (set_s_current_time_unit_idx 1 s)) = Normal tt s'
        /\ s_run_duration_sec s' = inject_Z (val * 60))
  /\ (forall s d stamp_ val, exists s',
        simple_set_intens d false ShortPress stamp_
          (set_s_set_value val (set_s_current_time_unit_idx 2 s)) = Normal tt s'
        /\ s_run_duration_sec s' = (inject_Z val / 1000)%Q)
  /\ run_view <$> ticks demo_to_run demo_boot
     = Some (Some 40, 1, 0, (10 # 1)%Q, (3 # 10)%Q)
  /\ run_view <$> ticks (demo_to_run ++ [idle_at 0 10039]) demo_boot
     = Some (Some 40, 1, 0, (10 # 1)%Q, (3 # 10)%Q)
  /\ run_view <$> ticks (demo_to_run ++ take 1 demo_expiries) demo_boot
     = Some (Some 10040, 1, 1, (1 # 2)%Q, (9 # 10)%Q)
  /\ run_view <$> ticks (demo_to_run ++ take 2 demo_expiries) demo_boot
     = Some (Some 10540, 2, 0, (10 # 1)%Q, (3 # 10)%Q)
  /\ run_view <$> ticks (demo_to_run ++ take 3 demo_expiries) demo_boot
     = Some (Some 20540, 2, 1, (1 # 2)%Q, (9 # 10)%Q)
  /\ end_view <$> ticks (demo_to_run ++ take 4 demo_expiries) demo_boot
     = Some (None, 0%Q, C_RUN_DONE).
Proof.
  split; [reflexivity|]. split; [reflexivity|]. split; [reflexivity|].
  split.
  { intros s d st val.
    destruct (simple_set_intens_duration s d st 0 val) as (s' & E & D & _).
    exists s'. split; [exact E | exact D]. }
  split.
  { intros s d st val.
    destruct (simple_set_intens_duration s d st 1 val) as (s' & E & D & _).
    exists s'. split; [exact E | exact D]. }
  split.
  { intros s d st val.
    destruct (simple_set_intens_duration s d st 2 val) as (s' & E & D & _).
    exists s'. split; [exact E | exact D]. }
  repeat split; vm_compute; reflexivity.
Qed.

(** ** Cancelling the wizard *)

(** C8 as stated fails: after one authored step, a long press in the wizard
    returns to the custom menu with that step still in the current
    program, and selecting "Run Program" next (one turn of the encoder and
    a press) runs it: 60 s at duty 1/2. *)
Lemma C8_counterexample :
  (fun s => (main_state s, prog_steps <$> heap s !! current_program s))
    <$> ticks (to_wizard ++ one_step ++ [long_at 2 90]) demo_boot
  = Some (MODE_CUSTOM_MENU, Some (Some [mkStep (Some 0) (Some 60) (Some 50)]))
  /\ run_view
       <$> ticks (to_wizard ++ one_step ++ [long_at 2 90; short_at 3 100])
             demo_boot
     = Some (Some 100, 1, 0, (60 # 1)%Q, (1 # 2)%Q).
Proof. split; vm_compute; reflexivity. Qed.

(** C8, amended: a long press in any wizard state returns to the custom
    menu and resets the wizard to its Start state, and leaves the current
    program as it is, with the steps authored so far; a Run selection that
    follows executes it from its first step. *)
Theorem C8_long_press_keeps_current_program inp s p :
  main_state s = MODE_CUSTOM_CREATE ->
  btn inp = LongPress ->
  is_Some (py_index custom_menu_items (custom_menu_idx s)) ->
  heap s !! current_program s = Some p ->
  exists s',
    tick inp s = Some s'
    /\ (main_state s' = MODE_CUSTOM_MENU
        /\ create_state s' = C_CREATE_START
        /\ current_program s' = current_program s
        /\ heap s' = heap s
        /\ saved_programs s' = saved_programs s
        /\ custom_menu_idx s' = custom_menu_idx s
        /\ c_start_ts s' = c_start_ts s
        /\ run_state s' = run_state s
        /\ load_state s' = load_state s
        /\ uv s' = uv s)
    /\ forall inp2 st rest,
         navigating s' ->
         lid_open inp2 = false ->
         btn inp2 = ShortPress ->
         menu_idx_after inp2 s' = C_MENU_RUN ->
         prog_steps p = Some (st :: rest) ->
         complete_step st ->
         exists s'',
           tick inp2 s' = Some s''
           /\ current_program s'' = current_program s
           /\ c_start_ts s'' = Some (stamp inp2)
           /\ uv s'' = duty_of st
           /\ c_run_duration_sec s'' = duration_of st.
Proof.
  intros Hm Hb [item Hitem] Hp.
  assert (Hcancel : exists s',
            tick inp s = Some s'
            /\ (main_state s' = MODE_CUSTOM_MENU
                /\ create_state s' = C_CREATE_START
                /\ current_program s' = current_program s
                /\ heap s' = heap s
                /\ saved_programs s' = saved_programs s
                /\ custom_menu_idx s' = custom_menu_idx s
                /\ c_start_ts s' = c_start_ts s
                /\ run_state s' = run_state s
                /\ load_state s' = load_state s
                /\ uv s' = uv s)).
  { apply twp_tick_state_machine; [apply create_mode_safe, Hm|].
    intros e c b a. unfold state_machine. rewrite Hb.
    twp_run. repeat split; reflexivity. }
  destruct Hcancel as (s' & E & Hs').
  exists s'. split; [exact E|]. split; [exact Hs'|].
  destruct Hs' as (_ & _ & Hcp & Hheap & _).
  intros inp2 st rest Hnav Hlid Hb2 Hidx Hsteps Hst.
  assert (Hp' : heap s' !! current_program s' = Some p)
    by (rewrite Hheap, Hcp; exact Hp).
  destruct (run_selection_starts inp2 s' p st rest Hnav Hlid Hb2 Hidx Hp'
              Hsteps Hst)
    as (s'' & E2 & _ & _ & _ & _ & Hcp2 & Hts & _ & _ & Huv & Hdur).
  exists s''. split; [exact E2|]. rewrite Hcp2, Hcp. auto.
Qed.

Lemma C8_witness :
  main_state after_one_step = MODE_CUSTOM_CREATE
  /\ btn (long_at 2 90) = LongPress
  /\ is_Some (py_index custom_menu_items (custom_menu_idx after_one_step))
  /\ heap after_one_step !! current_program after_one_step
     = Some partial_program
  /\ exists s',
       tick (long_at 2 90) after_one_step = Some s'
       /\ main_state s' = MODE_CUSTOM_MENU
       /\ heap s' !! current_program s' = Some partial_program.
Proof.
  assert (Hitem : is_Some (py_index custom_menu_items
                             (custom_menu_idx after_one_step))).
  { eexists. reflexivity. }
  split; [reflexivity|]. split; [reflexivity|]. split; [exact Hitem|].
  split; [reflexivity|].
  destruct (C8_long_press_keeps_current_program (long_at 2 90) after_one_step
              partial_program eq_refl eq_refl Hitem eq_refl)
    as (s' & E & (Hm & _ & Hcp & Hheap & _) & _).
  exists s'. split; [exact E|]. split; [exact Hm|].
  rewrite Hheap, Hcp. reflexivity.
Defined.

(** ** Loading a program *)

Lemma kept_loop_body r q inp s :
  kept r q s -> wp (loop_body inp) (fun _ => kept r q) (kept r q) s.
Proof.
  intros H. unfold loop_body.
  apply (wp_seq (kept r q)). { wp_run; exact H. }
  clear s H. intros d s H. cbv zeta.
  apply (wp_seq (kept r q)).
  { wp_run; try exact H. destruct H as [Hh Hc]. split; st_simpl; [exact Hh|].
    unfold_consts. intros; lia. }
  clear s H. intros _ s H.
  apply (wp_seq (kept r q)). { wp_run; exact H. }
  clear s H. intros _ s H.
  destruct H as [Hheap Hcur].
  wp_run.
  all: unfold kept; st_simpl.
  all: try solve [split; [exact Hheap | first [exact Hcur | unfold_consts; intros; lia]]].
  all: pose proof (lookup_lt_Some _ _ _ Hheap) as Hlt.
  all: try solve
    [ split;
      [ first [ rewrite lookup_app_l by exact Hlt; exact Hheap
              | rewrite list_lookup_insert_ne by (apply Hcur; assumption);
                exact Hheap ]
      | first [ exact Hcur | intros _; lia | unfold_consts; intros; lia ] ] ].
Qed.

Lemma kept_ticks r q inps : forall s s',
  kept r q s -> ticks inps s = Some s' -> kept r q s'.
Proof.
  induction inps as [|inp inps IH]; simpl; intros s s' H E.
  - injection E as <-. exact H.
  - destruct (tick inp s) as [s1|] eqn:E1; [|discriminate].
    apply (IH s1 s'); [|exact E].
    apply (wp_tick (kept r q) inp s s1); [|exact E1].
    apply kept_loop_body, H.
Qed.

Lemma load_confirm inp s r q :
  selecting_load s ->
  btn inp = ShortPress ->
  py_index (saved_programs s) (load_idx_after inp s) = Some r ->
  heap s !! r = Some q ->
  is_Some (prog_name q) ->
  is_Some (py_index custom_menu_items (custom_menu_idx s)) ->
  exists s',
    tick inp s = Some s'
    /\ (current_program s' = r
        /\ heap s' = heap s
        /\ saved_programs s' = saved_programs s
        /\ main_state s' = MODE_CUSTOM_MENU
        /\ load_state s' = -1).
Proof.
  intros (Hm & Hts & Hrs & Hls) Hb Hsel Hq [n Hn] [item Hitem].
  assert (Hne : bool_decide (saved_programs s = []) = false).
  { apply bool_decide_eq_false. intros E. rewrite E in Hsel.
    unfold py_index in Hsel. simpl in Hsel.
    repeat match type of Hsel with
           | context [if ?b then _ else _] => destruct b
           end; discriminate. }
  apply twp_tick_state_machine; [apply no_cursor_safe; assumption|].
  intros e c b a. unfold state_machine. rewrite Hb.
  unfold load_idx_after in Hsel. cbv zeta in Hsel.
  twp_run; repeat split; auto.
Qed.

(** C9 as stated fails: the Load confirmation puts into [current_program]
    the reference held by the store, so the assignment
    [current_program["loops"] = 5] (the statement of line 653) made after
    loading changes the stored entry. *)
Lemma C9_counterexample :
  (fun s => (current_program s, saved_programs s,
             deref_all (heap s) (saved_programs s)))
    <$> ticks demo_to_load demo_boot
  = Some (1%nat, [1%nat], Some [demo_program])
  /\ match ticks demo_to_load demo_boot with
     | Some s1 =>
         match current_program_set_loops 5 s1 with
         | Normal _ s2 => deref_all (heap s2) (saved_programs s2)
         | _ => None
         end
     | None => None
     end
     = Some [mkProgram (prog_name demo_program) (Some 5)
               (prog_steps demo_program)]
  /\ [mkProgram (prog_name demo_program) (Some 5) (prog_steps demo_program)]
     <> [demo_program].
Proof.
  split; [vm_compute; reflexivity|].
  split; [vm_compute; reflexivity|].
  discriminate.
Qed.

(** C9, amended: the Load confirmation makes [current_program] refer to the
    selected store entry itself, not to a copy of it; the store and the
    heap are unchanged by it; and over all later iterations the contents
    of the loaded object stay what they were, since the only in-place
    changes are made in the wizard, to the object created on entering
    it. *)
Theorem C9_load_shares_entry_and_nothing_mutates_it inp s r q :
  selecting_load s ->
  btn inp = ShortPress ->
  py_index (saved_programs s) (load_idx_after inp s) = Some r ->
  heap s !! r = Some q ->
  is_Some (prog_name q) ->
  is_Some (py_index custom_menu_items (custom_menu_idx s)) ->
  exists s',
    tick inp s = Some s'
    /\ current_program s' = r
    /\ py_index (saved_programs s') (load_idx_after inp s) = Some r
    /\ heap s' = heap s
    /\ saved_programs s' = saved_programs s
    /\ forall inps s'',
         ticks inps s' = Some s'' -> heap s'' !! r = Some q.
Proof.
  intros Hsel Hb Hr Hq Hn Hitem.
  destruct (load_confirm inp s r q Hsel Hb Hr Hq Hn Hitem)
    as (s' & E & Hcp & Hheap & Hsp & Hm & Hls).
  exists s'. split; [exact E|]. split; [exact Hcp|].
  split; [rewrite Hsp; exact Hr|]. split; [exact Hheap|].
  split; [exact Hsp|].
  intros inps s'' E'.
  apply (kept_ticks r q inps s' s''); [|exact E'].
  split; [rewrite Hheap; exact Hq|].
  rewrite Hm. discriminate.
Qed.

Lemma C9_witness :
  selecting_load at_load_select
  /\ btn (short_at 1 20) = ShortPress
  /\ py_index (saved_programs at_load_select)
       (load_idx_after (short_at 1 20) at_load_select) = Some 1%nat
  /\ heap at_load_select !! 1%nat = Some demo_program
  /\ is_Some (prog_name demo_program)
  /\ is_Some (py_index custom_menu_items (custom_menu_idx at_load_select))
  /\ exists s',
       tick (short_at 1 20) at_load_select = Some s'
       /\ current_program s' = 1%nat
       /\ heap s' !! 1%nat = Some demo_program.
Proof.
  assert (Hsel : selecting_load at_load_select).
  { repeat split. vm_compute. discriminate. }
  assert (Hn : is_Some (prog_name demo_program)) by (eexists; reflexivity).
  assert (Hitem : is_Some (py_index custom_menu_items
                             (custom_menu_idx at_load_select)))
    by (eexists; reflexivity).
  split; [exact Hsel|]. split; [reflexivity|]. split; [reflexivity|].
  split; [reflexivity|]. split; [exact Hn|]. split; [exact Hitem|].
  destruct (C9_load_shares_entry_and_nothing_mutates_it (short_at 1 20)
              at_load_select 1%nat demo_program Hsel eq_refl eq_refl eq_refl
              Hn Hitem)
    as (s' & E & Hcp & _ & _ & _ & Hkeep).
  exists s'. split; [exact E|]. split; [exact Hcp|].
  apply (Hkeep [] s'). reflexivity.
Defined.

(** ** Persistence *)

Lemma same_globals_refl s : same_globals s s.
Proof. destruct s; reflexivity. Qed.

Lemma res_same_globals_refl {A : Type} (r : Res A) : res_same_globals r r.
Proof. destruct r; simpl; auto using same_globals_refl. Qed.

Lemma res_same_globals_bind {A B : Type} (m : M A) (k1 k2 : A -> M B) s :
  (forall a s', res_same_globals (k1 a s') (k2 a s')) ->
  res_same_globals (bind m k1 s) (bind m k2 s).
Proof.
  intros H. unfold bind. destruct (m s); simpl; auto using same_globals_refl.
Qed.

Lemma create_save_prog_write w s :
  res_same_globals (create_save_prog WriteOk s) (create_save_prog w s).
Proof.
  unfold create_save_prog.
  do 10 (apply res_same_globals_bind; intros ? ?).
  cbv zeta. unfold bind, assign.
  rewrite !save_never_raises.
  unfold get, shown, subscript, skip, ret, raise, bind. st_simpl.
  destruct (py_index custom_menu_items 0); simpl; [|exact I].
  split; reflexivity.
Qed.

Lemma create_short_press_write w s :
  res_same_globals (create_short_press WriteOk s) (create_short_press w s).
Proof.
  unfold create_short_press. apply res_same_globals_bind. intros cs s'.
  repeat (match goal with
          | |- res_same_globals ((if ?b then _ else _) _) _ => destruct b
          end; [apply res_same_globals_refl|]).
  destruct (cs =? C_CREATE_SAVE_PROG);
    [apply create_save_prog_write | apply res_same_globals_refl].
Qed.

Lemma loop_body_write w inp s :
  res_same_globals (loop_body (with_write WriteOk inp) s)
    (loop_body (with_write w inp) s).
Proof.
  unfold loop_body, state_machine, with_write;
    cbn [enc_value now lid_open btn btn_again stamp write].
  repeat (apply res_same_globals_bind; intros ? ?).
  repeat (match goal with
          | |- res_same_globals ((if ?b then _ else _) _) _ => destruct b
          end; [apply res_same_globals_refl|]).
  destruct (_ =? MODE_CUSTOM_CREATE); [|apply res_same_globals_refl].
  unfold custom_create.
  destruct (is_pressed (btn inp)); [|apply res_same_globals_refl].
  destruct (is_long (btn inp)); [apply res_same_globals_refl|].
  apply create_short_press_write.
Qed.

(** An iteration whose write fails ends as the one whose write succeeds
    does, with the same globals except for the file. *)
Lemma tick_write w inp s :
  match tick (with_write WriteOk inp) s, tick (with_write w inp) s with
  | Some s1, Some s2 =>
      same_globals s1 s2
      /\ saved_programs s2 = saved_programs s1
      /\ heap s2 = heap s1
  | None, None => True
  | _, _ => False
  end.
Proof.
  unfold tick.
  pose proof (loop_body_write w inp s) as H.
  destruct (loop_body (with_write WriteOk inp) s) as [a s1|s1|],
           (loop_body (with_write w inp) s) as [b s2|s2|];
    simpl in H; try contradiction; try exact I.
  - destruct H as [_ H]. split; [exact H|]. rewrite H. split; reflexivity.
  - split; [exact H|]. rewrite H. split; reflexivity.
Qed.

(** The Save confirmation whose write fails: the store has been updated
    before the write (lines 671-672) and stays so. *)
Lemma failed_save_tick inp s cur c ps :
  main_state s = MODE_CUSTOM_CREATE ->
  create_state s = C_CREATE_SAVE_PROG ->
  btn inp = ShortPress ->
  heap s !! current_program s = Some cur ->
  prog_name cur = Some c ->
  deref_all (heap s) (saved_programs s) = Some ps ->
  Forall (fun p => is_Some (prog_name p)) ps ->
  write inp <> WriteOk ->
  exists s',
    tick inp s = Some s'
    /\ saved_programs s'
       = store_after_save c (current_program s) (saved_programs s) ps
    /\ heap s' = heap s
    /\ store_contents s' = Some (contents_after_save c cur ps)
    /\ main_state s' = MODE_CUSTOM_MENU
    /\ programs_file s'
       = file_after_failed_write (write inp) (programs_file s).
Proof.
  intros Hm Hc Hb Hcur Hname Hps Hnamed Hw.
  assert (Hfile : forall programs_list,
            (save_programs_to_file (write inp) programs_list (programs_file s)).2
            = file_after_failed_write (write inp) (programs_file s)).
  { intros l. destruct (write inp); [contradiction|reflexivity|reflexivity]. }
  apply twp_tick_state_machine; [apply create_mode_safe, Hm|].
  intros e cb b a. unfold state_machine. rewrite Hb.
  twp_run.
  eapply twp_subscript; [apply (find_by_name_index cur c ps 0 Hname Hnamed)|].
  cbv beta. unfold store_after_save, contents_after_save, store_contents.
  destruct (name_index c ps) as [i|] eqn:Hidx.
  - replace (Z.to_nat (0 + Z.of_nat i)) with i by lia.
    twp_run.
    eapply twp_subscript;
      [apply (deref_all_insert _ _ _ _ _ i Hps Hcur)|]. cbv beta.
    do 4 twp_step.
    rewrite save_never_raises, Hfile.
    twp_run.
    repeat split; try reflexivity.
    apply (deref_all_insert _ _ _ _ _ i Hps Hcur).
  - twp_run.
    eapply twp_subscript; [apply (deref_all_app _ _ _ _ _ Hps Hcur)|]. cbv beta.
    do 4 twp_step.
    rewrite save_never_raises, Hfile.
    twp_run.
    repeat split; try reflexivity.
    apply (deref_all_app _ _ _ _ _ Hps Hcur).
Qed.

(** Loading agrees with loading the JSON text that the file stands for. *)
Lemma json_load_agrees f :
  Json.load_programs_from_file (Json.of_file f)
  = Returns (Json.of_programs (loaded_from f)).
Proof. destruct f; reflexivity. Qed.

(** C10 as stated fails.  (1) At the Save prompt with a program named like
    the stored one, a Save whose write cannot open the file leaves the file
    with the old program and the store in memory with the new one: the
    store is not what it was before the Save.  (2) A file that parses but
    does not hold programs is not loaded as the empty list: the text
    [[{}]] gives a store of one entry, and the loop dies of [KeyError]
    (line 586) when, after "Custom Mode" was entered from the main menu,
    the Load selection that is active after start-up is confirmed.  (3) Nor is
    any other JSON value with a length: a dictionary is returned as it
    is. *)
Lemma C10_counterexample :
  (store_contents at_save_prompt = Some [demo_program]
   /\ (fun s => (store_contents s, programs_file s, main_state s))
        <$> tick (with_write OpenFails (short_at 2 140)) at_save_prompt
      = Some (Some [authored_program], Stored [demo_program], MODE_CUSTOM_MENU)
   /\ authored_program <> demo_program)
  /\ (load_programs_from_file keyless_file = Returns [empty_program]
      /\ main_state <$> ticks [idle_at 1 0; short_at 1 10]
                          (boot keyless_file 0 0 false true)
         = Some MODE_CUSTOM_MENU
      /\ ticks [idle_at 1 0; short_at 1 10; short_at 1 20]
           (boot keyless_file 0 0 false true) = None)
  /\ Json.load_programs_from_file
       (Json.Text (Some (Json.Dict [("a"%string, Json.Int 1)])))
     = Returns (Json.Dict [("a"%string, Json.Int 1)]).
Proof.
  repeat split; try (vm_compute; reflexivity).
  discriminate.
Qed.

(** C10, amended: the two file helpers never raise.  Loading yields the
    empty list when the file is missing, cannot be read, is not JSON or is
    the JSON text of a value without a length; any other JSON value is
    returned as it was parsed.  Saving never raises to its caller, and a
    write that fails changes nothing but the file: the iteration ends with
    the globals that a successful write gives, so at the Save confirmation
    the store in memory is the one updated with the current program
    (replaced in place or appended), not the one before the Save, the
    device is in the custom menu, and the file has its old content or, when
    the write failed after the file was opened, no JSON text. *)
Theorem C10_file_helpers_never_raise :
  (load_programs_from_file Absent = Returns []
   /\ load_programs_from_file Unreadable = Returns []
   /\ load_programs_from_file Corrupt = Returns []
   /\ (forall f, exists programs, load_programs_from_file f = Returns programs))
  /\ (Json.load_programs_from_file Json.Missing = Returns (Json.List [])
      /\ Json.load_programs_from_file Json.NoAccess = Returns (Json.List [])
      /\ Json.load_programs_from_file (Json.Text None) = Returns (Json.List [])
      /\ (forall v e, Json.len v = Raises e ->
            Json.load_programs_from_file (Json.Text (Some v))
            = Returns (Json.List []))
      /\ (forall v n, Json.len v = Returns n ->
            Json.load_programs_from_file (Json.Text (Some v)) = Returns v)
      /\ (forall f, exists v, Json.load_programs_from_file f = Returns v)
      /\ (forall f, Json.load_programs_from_file (Json.of_file f)
                    = Returns (Json.of_programs (loaded_from f))))
  /\ (forall w programs_list f,
        (save_programs_to_file w programs_list f).1 = Returns tt)
  /\ (forall w inp s,
        match tick (with_write WriteOk inp) s, tick (with_write w inp) s with
        | Some s1, Some s2 =>
            same_globals s1 s2
            /\ saved_programs s2 = saved_programs s1
            /\ heap s2 = heap s1
        | None, None => True
        | _, _ => False
        end)
  /\ (forall inp s cur c ps,
        main_state s = MODE_CUSTOM_CREATE ->
        create_state s = C_CREATE_SAVE_PROG ->
        btn inp = ShortPress ->
        heap s !! current_program s = Some cur ->
        prog_name cur = Some c ->
        deref_all (heap s) (saved_programs s) = Some ps ->
        Forall (fun p => is_Some (prog_name p)) ps ->
        write inp <> WriteOk ->
        exists s',
          tick inp s = Some s'
          /\ saved_programs s'
             = store_after_save c (current_program s) (saved_programs s) ps
          /\ heap s' = heap s
          /\ store_contents s' = Some (contents_after_save c cur ps)
          /\ main_state s' = MODE_CUSTOM_MENU
          /\ programs_file s'
             = file_after_failed_write (write inp) (programs_file s)).
Proof.
  split; [|split; [|split; [|split]]].
  - repeat split; try reflexivity.
    intros f. destruct f; eexists; reflexivity.
  - repeat split; try reflexivity.
    + intros v e H. destruct v; simpl in H; try discriminate; reflexivity.
    + intros v n H. destruct v; simpl in H; try discriminate; reflexivity.
    + intros [| |[v|]]; try (eexists; reflexivity).
      destruct v; eexists; reflexivity.
    + apply json_load_agrees.
  - apply save_never_raises.
  - apply tick_write.
  - apply failed_save_tick.
Qed.

Lemma C10_witness :
  write (with_write WriteFails (short_at 2 140)) <> WriteOk
  /\ exists s',
       tick (with_write WriteFails (short_at 2 140)) at_save_prompt = Some s'
       /\ saved_programs s' = [current_program at_save_prompt]
       /\ store_contents s' = Some [authored_program]
       /\ main_state s' = MODE_CUSTOM_MENU
       /\ programs_file s' = Corrupt.
Proof.
  assert (Hnamed : Forall (fun p => is_Some (prog_name p)) [demo_program]).
  { constructor; [eexists; reflexivity | constructor]. }
  assert (Hw : write (with_write WriteFails (short_at 2 140)) <> WriteOk)
    by discriminate.
  split; [exact Hw|].
  destruct (proj2 (proj2 (proj2 (proj2 C10_file_helpers_never_raise)))
              (with_write WriteFails (short_at 2 140)) at_save_prompt
              authored_program "P-01"%string [demo_program]
              eq_refl eq_refl eq_refl eq_refl eq_refl eq_refl Hnamed Hw)
    as (s' & E & Hsp & _ & Hcont & Hmain & Hfile).
  exists s'. split; [exact E|].
  split; [exact Hsp|]. split; [exact Hcont|]. split; [exact Hmain|exact Hfile].
Defined.
(** ** The encoder bookkeeping *)

(** X1: Every iteration, whichever way it ends, leaves in [_last_enc] the
    encoder value it read, so that the rotation seen by the next iteration
    is the change of the encoder between the two readings. *)
Theorem last_enc_tracks_encoder inp inp' s s' :
  tick inp s = Some s' ->
  _last_enc s' = enc_value inp
  /\ exists s'', read_delta (enc_value inp') s'
                 = Normal (enc_value inp' - enc_value inp) s''.
Proof.
  intros E.
  assert (H : last_enc_is (enc_value inp) s').
  { apply (wp_tick (last_enc_is (enc_value inp)) inp s s'); [|exact E].
    unfold loop_body.
    apply (wp_seq (last_enc_is (enc_value inp))).
    { wp_run; unfold last_enc_is; st_simpl; first [reflexivity | lia]. }
    clear. intros d s H. cbv zeta.
    apply (wp_seq (last_enc_is (enc_value inp))). { wp_run; exact H. }
    clear s H. intros _ s H.
    apply (wp_seq (last_enc_is (enc_value inp))). { wp_run; exact H. }
    clear s H. intros _ s H.
    wp_run; exact H. }
  unfold last_enc_is in H.
  split; [exact H|].
  rewrite (read_delta_eq inp' s'), H. eauto.
Qed.

Lemma last_enc_tracks_encoder_witness :
  let s' := default demo_boot (tick (idle_at 3 10) demo_boot) in
  tick (idle_at 3 10) demo_boot = Some s'
  /\ _last_enc s' = enc_value (idle_at 3 10)
  /\ exists s'', read_delta (enc_value (idle_at 5 20)) s'
                 = Normal (enc_value (idle_at 5 20) - enc_value (idle_at 3 10)) s''.
Proof.
  split; [vm_compute; reflexivity|].
  apply (last_enc_tracks_encoder (idle_at 3 10) (idle_at 5 20) demo_boot).
  vm_compute. reflexivity.
Defined.
(** ** The lid and the UV output *)

Ltac uv_kept_leaf :=
  unfold uv_kept_or_off, no_run, run_in_progress in *; st_simpl;
  first
    [ assumption
    | left; assumption
    | right; reflexivity
    | split;
      [first [assumption | left; assumption | right; reflexivity] | assumption]
    | exfalso;
      repeat match goal with
             | H : main_state ?s = _, H' : context [main_state ?s] |- _ =>
                 rewrite H in H'
             | H : c_start_ts ?s = _, H' : context [c_start_ts ?s] |- _ =>
                 rewrite H in H'
             end;
      simpl in *; congruence ].

(** X2: An iteration that sees the lid open never turns the UV output on and
    never changes its duty to another value: at its end the output is
    what it was or off, in whatever state the iteration began. *)
Theorem lid_open_never_raises_uv inp s s' :
  lid_open inp = true ->
  tick inp s = Some s' ->
  uv s' = uv s \/ uv s' = 0%Q.
Proof.
  intros Hlid E.
  apply (wp_tick (uv_kept_or_off (uv s)) inp s s'); [|exact E].
  unfold loop_body, state_machine. cbv zeta. rewrite Hlid.
  apply (wp_seq (uv_kept_or_off (uv s))). { wp_run; left; reflexivity. }
  generalize (uv s). clear. intros u d s H.
  apply (wp_seq (fun s1 => uv_kept_or_off u s1 /\ no_run s1)).
  { wp_run; uv_kept_leaf. }
  clear s H. intros _ s H.
  apply (wp_seq (fun s1 => uv_kept_or_off u s1 /\ no_run s1)).
  { wp_run; exact H. }
  clear s H. intros _ s [H Hno].
  wp_run; uv_kept_leaf.
Qed.

Lemma lid_open_never_raises_uv_witness :
  let s := default demo_boot (ticks demo_to_run demo_boot) in
  let s' := default demo_boot (tick (lid_open_at 0 50) s) in
  uv s' = uv s \/ uv s' = 0%Q.
Proof.
  apply (lid_open_never_raises_uv (lid_open_at 0 50));
    vm_compute; reflexivity.
Defined.
(** ** An iteration without input *)

(** X3: Outside a run, an iteration in which the encoder has not moved and the
    button is not pressed changes nothing of the control state, whether
    the lid is open or closed, and in whatever state it began: only the
    indicator bookkeeping can change. *)
Theorem untouched_iteration_keeps_control inp s :
  untouched inp s ->
  no_run s ->
  exists s', tick inp s = Some s' /\ control s' = control s.
Proof.
  intros (Henc & Hb & Hb2) Hno.
  apply (twp_tick (fun s1 => control s1 = control s)).
  unfold loop_body, state_machine. cbv zeta. rewrite Hb, Hb2.
  unfold no_run in Hno.
  apply twp_bind. unfold twp at 1. rewrite read_delta_eq. cbv beta iota.
  unfold after_read_delta. rewrite Henc, Z.sub_diag. cbn [Z.eqb negb].
  apply (twp_seq (fun s1 => s1 = s)).
  { unfold safety_check. destruct (lid_open inp); twp_run; reflexivity. }
  intros _ ? ->.
  apply (twp_seq (fun s1 => control s1 = control s /\ no_run s1)).
  { twp_run; (split; [reflexivity | exact Hno]). }
  intros _ s1 [Hc Hno1]. unfold no_run, run_in_progress in Hno1.
  twp_run; try exact Hc.
  all: exfalso;
    repeat match goal with
           | H : main_state ?s = _, H' : context [main_state ?s] |- _ =>
               rewrite H in H'
           | H : simple_state ?s = _, H' : context [simple_state ?s] |- _ =>
               rewrite H in H'
           | H : c_start_ts ?s = _, H' : context [c_start_ts ?s] |- _ =>
               rewrite H in H'
           end; simpl in *; congruence.
Qed.

Lemma untouched_iteration_keeps_control_witness :
  let s := default demo_boot (ticks to_wizard demo_boot) in
  exists s', tick (lid_open_at 2 50) s = Some s' /\ control s' = control s.
Proof.
  apply (untouched_iteration_keeps_control (lid_open_at 2 50)).
  - vm_compute. repeat split.
  - vm_compute. reflexivity.
Defined.
(** ** The settings stay within their limits *)

Lemma time_units_spec idx e :
  py_index TIME_UNITS idx = Some e ->
  time_limits idx = (unit_min e, unit_max e)
  /\ unit_min e <= unit_default e <= unit_max e.
Proof.
  intros E. unfold time_limits. rewrite E. split; [reflexivity|].
  pose proof (py_index_Some _ _ _ E) as Hr. simpl in Hr.
  assert (Hc : idx = -3 \/ idx = -2 \/ idx = -1
               \/ idx = 0 \/ idx = 1 \/ idx = 2) by lia.
  destruct Hc as [-> | [-> | [-> | [-> | [-> | ->]]]]];
    vm_compute in E; injection E as <-; vm_compute; split; congruence.
Qed.

Ltac settings_leaf :=
  unfold settings_inv, settings_in_limits, wizard_unit in *; st_simpl;
  repeat match goal with
         | H : _ /\ _ |- _ => destruct H
         | H : py_index TIME_UNITS _ = Some _ |- _ =>
             let E := fresh in
             destruct (time_units_spec _ _ H) as [E ?];
             pose proof (time_unit_row _ _ H) as (? & _ & _ & ?);
             clear H; rewrite ?E in *
         | H : step_u (temp_step _) = Some _ |- _ => rewrite H in *
         end;
  cbn [fst snd length Z.of_nat Pos.of_succ_nat Pos.succ main_menu_items
       custom_menu_items TIME_UNITS] in *;
  unfold_consts;
  repeat match goal with
         | |- _ /\ _ => split
         | |- _ -> _ => intro
         end;
  first
    [ assumption | reflexivity | discriminate | congruence
    | match goal with
      | H : _ -> _ -> _ = Some _ |- _ = Some _ =>
          first [ apply H; assumption
                | rewrite H by assumption; congruence ]
      end
    | clamp_arith
    | apply Z.mod_pos_bound; lia
    | match goal with
      | H : _ -> _ -> ?x = Some ?i, H' : ?x = Some ?j |- _ =>
          let E := fresh in
          assert (E : Some j = Some i)
            by (rewrite <- H'; apply H; assumption);
          injection E as ->; clamp_arith
      end ].

Lemma settings_inv_state_machine d inp s :
  settings_inv s ->
  wp (state_machine d inp) (fun _ => settings_inv) settings_inv s.
Proof.
  intros H. wp_run.
  all: try exact H.
  all: try solve [settings_leaf].
  (* the time editor of the wizard *)
  destruct H as [Hl Hw]. specialize (Hw e e0). rewrite H0 in Hw.
  injection Hw as ->.
  assert (H : settings_inv s) by (split; [exact Hl | intros _ _; exact H0]).
  clear Hl. settings_leaf.
Qed.

Lemma settings_inv_loop_body inp s :
  settings_inv s -> wp (loop_body inp) (fun _ => settings_inv) settings_inv s.
Proof.
  intros H. unfold loop_body.
  apply (wp_seq settings_inv). { wp_run; exact H. }
  clear s H. intros d s H. cbv zeta.
  apply (wp_seq settings_inv). { wp_run; try exact H. all: settings_leaf. }
  clear s H. intros _ s H.
  apply (wp_seq settings_inv). { wp_run; exact H. }
  clear s H. intros _ s H.
  apply settings_inv_state_machine, H.
Qed.

Lemma settings_inv_boot f enc0 t0 lid np : settings_inv (boot f enc0 t0 lid np).
Proof.
  split; [|intros H; discriminate H].
  unfold settings_in_limits. simpl. vm_compute. repeat split; congruence.
Qed.

(** X4: At the end of every iteration the controller can reach, whatever the
    programs file held, the two menu selections and the time-unit
    selection point into their tables, the time value is within the limits
    of the selected unit, the intensity is within 0..100 and the loop
    count within 1..99. *)
Theorem settings_always_in_limits s :
  reachable s -> settings_in_limits s.
Proof.
  intros Hr.
  assert (H : settings_inv s); [|exact (proj1 H)].
  induction Hr as [f enc0 t0 lid np | inp s s' _ IH E].
  - apply settings_inv_boot.
  - eapply wp_tick; [|exact E]. apply settings_inv_loop_body, IH.
Qed.

Lemma at_simple_run_reachable : reachable at_simple_run.
Proof.
  apply (ticks_reachable to_simple_run demo_boot); [apply reachable_boot|].
  vm_compute. reflexivity.
Defined.

Lemma settings_always_in_limits_witness :
  s_set_value at_simple_run = 61 /\ settings_in_limits at_simple_run.
Proof.
  split; [vm_compute; reflexivity|].
  apply (settings_always_in_limits at_simple_run at_simple_run_reachable).
Defined.
(** ** The loop never dies *)

Lemma heap_ok_app h p :
  heap_ok h -> p = empty_program \/ complete_program p -> heap_ok (h ++ [p]).
Proof. intros H Hp. apply Forall_app. split; [exact H | constructor; [exact Hp | constructor]]. Qed.

Lemma heap_ok_insert h i p :
  heap_ok h -> complete_program p -> heap_ok (<[i := p]> h).
Proof. intros H Hp. apply Forall_insert; [exact H | right; exact Hp]. Qed.

Lemma heap_ok_lookup h r p :
  heap_ok h -> h !! r = Some p -> p = empty_program \/ complete_program p.
Proof. intros H E. exact (proj1 (Forall_lookup _ _) H r p E). Qed.

Lemma store_ok_app_heap h sp p : store_ok h sp -> store_ok (h ++ [p]) sp.
Proof.
  intros H. eapply Forall_impl; [exact H|].
  intros r (q & E & Hq). exists q. split; [|exact Hq].
  rewrite lookup_app_l; [exact E | eapply lookup_lt_Some, E].
Qed.

Lemma store_ok_insert_heap h sp i p :
  store_ok h sp -> complete_program p -> store_ok (<[i := p]> h) sp.
Proof.
  intros H Hp. eapply Forall_impl; [exact H|]. intros r (q & E & Hq).
  destruct (decide (i = r)) as [->|Hne].
  - exists p. split; [|exact Hp].
    apply list_lookup_insert_eq. eapply lookup_lt_Some, E.
  - exists q. split; [|exact Hq]. rewrite list_lookup_insert_ne by exact Hne.
    exact E.
Qed.

Lemma store_ok_snoc h sp r p :
  store_ok h sp -> h !! r = Some p -> complete_program p ->
  store_ok h (sp ++ [r]).
Proof.
  intros H E Hp. apply Forall_app. split; [exact H|].
  constructor; [|constructor]. exists p. auto.
Qed.

Lemma store_ok_replace h sp i r p :
  store_ok h sp -> h !! r = Some p -> complete_program p ->
  store_ok h (<[i := r]> sp).
Proof. intros H E Hp. apply Forall_insert; [exact H|]. exists p. auto. Qed.

Lemma store_ok_elem h sp r :
  store_ok h sp -> r ∈ sp -> exists p, h !! r = Some p /\ complete_program p.
Proof. intros H Hr. exact (proj1 (Forall_forall _ _) H r Hr). Qed.

Lemma is_Some_None_absurd {A : Type} (P : Prop) : is_Some (@None A) -> P.
Proof. intros [? ?]; discriminate. Qed.

Lemma nonempty_length_pos {A : Type} (l : list A) :
  l <> [] -> 0 < Z.of_nat (length l).
Proof. destruct l; simpl; [congruence | lia]. Qed.

Lemma py_index_length_pos {A : Type} (l : list A) i x :
  py_index l i = Some x -> 0 < Z.of_nat (length l).
Proof. intros E. apply py_index_Some in E. lia. Qed.

Lemma complete_program_append p sts t :
  complete_program p ->
  prog_steps p = Some sts ->
  complete_step t ->
  complete_program (mkProgram (prog_name p) (prog_loops p) (Some (sts ++ [t]))).
Proof.
  intros (Hn & Hl & sts' & E & Hall) Hs Ht. rewrite Hs in E. injection E as <-.
  split; [exact Hn|]. split; [exact Hl|]. exists (sts ++ [t]).
  split; [reflexivity|]. apply Forall_app. split; [exact Hall|].
  constructor; [exact Ht | constructor].
Qed.

Lemma complete_program_set_loops p n :
  complete_program p ->
  complete_program (mkProgram (prog_name p) (Some n) (prog_steps p)).
Proof. intros (Hn & Hl & Hs). split; [exact Hn|]. split; [eauto | exact Hs]. Qed.

Lemma complete_program_set_name p n :
  complete_program p ->
  complete_program (mkProgram (Some n) (prog_loops p) (prog_steps p)).
Proof. intros (Hn & Hl & Hs). split; [eauto|]. split; [exact Hl | exact Hs]. Qed.

Lemma complete_program_new :
  complete_program (mkProgram (Some "New"%string) (Some 1) (Some [])).
Proof. split; [eauto|]. split; [eauto|]. exists []. split; [reflexivity | constructor]. Qed.

(** Facts that the hypotheses of a leaf imply. *)
Ltac obj_facts :=
  repeat match goal with
         | H : _ && _ = true |- _ =>
             apply andb_true_iff in H; destruct H
         | H : negb _ = true |- _ => apply negb_true_iff in H
         | H : bool_decide _ = false |- _ => apply bool_decide_eq_false in H
         | H : bool_decide _ = true |- _ => apply bool_decide_eq_true in H
         end;
  repeat match goal with
         | Hst : store_ok (heap ?s) (saved_programs ?s),
           H : py_index (saved_programs ?s) _ = Some ?r |- _ =>
             lazymatch goal with
             | _ : r ∈ saved_programs s |- _ => fail
             | _ =>
                 let Hin := fresh "Hin" in
                 pose proof (py_index_elem _ _ _ H) as Hin;
                 let q := fresh "q" in
                 let Eq := fresh "Eq" in
                 let Hq := fresh "Hq" in
                 destruct (store_ok_elem _ _ _ Hst Hin) as (q & Eq & Hq)
             end
         end.

(** Two lookups of the same key give the same value. *)
Ltac same_lookups :=
  repeat match goal with
         | H : ?x = Some ?a, H' : ?x = Some ?b |- _ =>
             first [ constr_eq a b; fail 1
                   | let E := fresh in
                     assert (E : a = b) by congruence;
                     first [subst b | subst a | (rewrite E in *; clear H')] ]
         end.

(** What the invariant says in the branch at hand. *)
Ltac obj_invariant :=
  match goal with
  | H : objects_inv _ |- _ =>
      destruct H as (Hh & Hcp & Hst & [Hli0 Hli1] & Hsi & Hcu & Hwi)
  end;
  unfold load_idx_ok, simple_ok, cursor_ok, wizard_ok in *;
  try match goal with
      | H : c_start_ts ?s = Some _,
        Hc : is_Some (c_start_ts ?s) -> _ |- _ =>
          let Hls := fresh "Hls" in
          let Hk := fresh "Hk" in
          destruct (Hc (mk_is_Some _ _ H)) as (Hls & ? & ? & ? & ? & Hk)
      end;
  try match goal with
      | H : main_state ?s = MODE_CUSTOM_CREATE,
        Hw : main_state ?s = MODE_CUSTOM_CREATE -> _ |- _ =>
          let Hnc := fresh "Hnc" in
          let Hcomp := fresh "Hcomp" in
          let Hts := fresh "Hts" in
          let Hti := fresh "Hti" in
          destruct (Hw H) as (Hnc & (? & ? & Hcomp) & Hts & Hti);
          try match goal with
              | E : create_state ?s = C_CREATE_SET_TIME |- _ =>
                  pose proof (Hts E)
              | E : create_state ?s = C_CREATE_SET_INTENS |- _ =>
                  destruct (Hti E)
              end
      end;
  obj_facts;
  same_lookups;
  repeat match goal with
         | H : py_index ?l ?i = Some _ |- _ =>
             lazymatch goal with
             | _ : - Z.of_nat (length l) <= i < Z.of_nat (length l) |- _ => fail
             | _ => pose proof (py_index_Some _ _ _ H)
             end
         end.

Ltac obj_complete :=
  first
    [ assumption
    | apply complete_program_new
    | apply complete_program_set_loops; assumption
    | apply complete_program_set_name; assumption
    | apply complete_program_append;
      [ assumption | assumption
      | split; [|split]; cbn [step_u step_v step_i]; eauto ] ].

Ltac obj_heap :=
  first
    [ apply heap_ok_app; [assumption | right; obj_complete]
    | apply heap_ok_insert; [assumption | obj_complete]
    | apply store_ok_app_heap; assumption
    | apply store_ok_insert_heap; [assumption | obj_complete]
    | eapply store_ok_snoc; [assumption | eassumption | obj_complete]
    | eapply store_ok_replace; [assumption | eassumption | obj_complete]
    | rewrite length_app; simpl; lia
    | rewrite length_insert; assumption
    | eapply lookup_lt_Some; eassumption ].

Ltac obj_load_idx :=
  first
    [ lia
    | left; reflexivity
    | match goal with
      | H : saved_programs ?s <> [] |- _ =>
          let Hp := fresh in
          pose proof (nonempty_length_pos _ H) as Hp;
          try match goal with
              | |- context [?x mod ?n] => pose proof (Z.mod_pos_bound x n Hp)
              end;
          first [lia | right; lia]
      end
    | rewrite length_app; simpl; lia
    | rewrite length_insert; lia ].

Ltac obj_cursor :=
  let Hc := fresh "Hc" in
  intros Hc;
  first
    [ match goal with
      | H : c_start_ts _ = None |- _ =>
          rewrite H in Hc; exact (is_Some_None_absurd _ Hc)
      end
    | exfalso; unfold_consts; lia
    | split;
      [ first [reflexivity | assumption | unfold_consts; lia]
      | eexists _, _; split; [eassumption | split; [eassumption | lia]] ] ].

Ltac obj_wizard :=
  let Hm := fresh "Hm" in
  intros Hm;
  first
    [ exfalso; unfold_consts; first [lia | congruence]
    | split; [assumption|];
      split;
      [ first
          [ eexists; split; [eassumption | assumption]
          | eexists; split;
            [ first [ apply list_lookup_middle; reflexivity
                    | apply list_lookup_insert_eq; assumption ]
            | obj_complete ] ]
      | split; intros ?;
        first
          [ exfalso; unfold_consts; first [lia | congruence]
          | cbn [step_u step_v step_i]; first [split; eauto | eauto] ] ] ].

(** Re-establishes the invariant at the end of a branch. *)
Ltac obj_leaf :=
  obj_invariant;
  unfold objects_inv, load_idx_ok, simple_ok, cursor_ok, wizard_ok;
  st_simpl;
  repeat match goal with |- _ /\ _ => split end;
  try assumption;
  try solve [apply is_Some_None_absurd];
  try solve [intros; exfalso; unfold_consts; first [lia | congruence]];
  try solve [intros; eauto];
  try solve [obj_load_idx];
  try solve [obj_heap];
  try solve [obj_cursor];
  try solve [obj_wizard].

Lemma objects_inv_state_machine d inp s :
  objects_inv s ->
  wp (state_machine d inp) (fun _ => objects_inv) objects_inv s.
Proof.
  intros H. wp_run. all: try exact H. all: obj_leaf.
Qed.

Lemma objects_inv_loop_body inp s :
  objects_inv s -> wp (loop_body inp) (fun _ => objects_inv) objects_inv s.
Proof.
  intros H. unfold loop_body.
  apply (wp_seq objects_inv). { wp_run; exact H. }
  clear s H. intros d s H. cbv zeta.
  apply (wp_seq objects_inv). { wp_run; try exact H. all: obj_leaf. }
  clear s H. intros _ s H.
  apply (wp_seq objects_inv). { wp_run; exact H. }
  clear s H. intros _ s H.
  apply objects_inv_state_machine, H.
Qed.

Lemma objects_inv_boot f enc0 t0 lid np :
  complete_file f -> objects_inv (boot f enc0 t0 lid np).
Proof.
  intros Hf.
  set (loaded := match load_programs_from_file f with
                 | Returns programs => programs
                 | Raises _ => []
                 end).
  assert (Hl : Forall complete_program loaded).
  { subst loaded. destruct f; simpl; try constructor. exact Hf. }
  unfold objects_inv, boot. fold loaded. st_simpl.
  split.
  { constructor; [left; reflexivity|].
    eapply Forall_impl; [exact Hl|]. intros p Hp. right. exact Hp. }
  split; [simpl; lia|].
  split.
  { apply Forall_forall. intros r Hr. apply elem_of_seq in Hr.
    destruct (lookup_lt_is_Some_2 loaded (r - 1)) as [p Hp]; [lia|].
    exists p. split.
    - destruct r as [|r]; [lia|]. simpl in *. rewrite ?Nat.sub_0_r in Hp. exact Hp.
    - exact (proj1 (Forall_lookup _ _) Hl _ _ Hp). }
  split; [split; [reflexivity | left; reflexivity]|].
  split; [intros H; discriminate H|].
  split; [intros [? H]; discriminate H|].
  intros H; discriminate H.
Qed.

Lemma py_index_None {A : Type} (l : list A) i :
  py_index l i = None ->
  i < - Z.of_nat (length l) \/ Z.of_nat (length l) <= i.
Proof.
  unfold py_index. intros E.
  destruct (Z.leb_spec 0 i), (Z.ltb_spec i (Z.of_nat (length l)));
    cbn [andb] in E; try lia.
  - apply lookup_ge_None in E. lia.
  - destruct (Z.leb_spec (- Z.of_nat (length l)) i), (Z.ltb_spec i 0);
      cbn [andb] in E; try lia.
    apply lookup_ge_None in E. lia.
Qed.

Lemma store_ok_names h sp : store_ok h sp -> is_Some (names_of h sp).
Proof.
  induction 1 as [|r sp (p & E & [n Hn] & _) _ [ns IH]]; simpl; [eauto|].
  rewrite E. simpl. rewrite Hn. simpl. rewrite IH. simpl. eauto.
Qed.

Lemma store_ok_deref_all h sp :
  store_ok h sp ->
  exists ps, deref_all h sp = Some ps /\ Forall complete_program ps.
Proof.
  induction 1 as [|r sp (p & E & Hp) _ (ps & IH & Hall)]; simpl.
  - exists []. split; [reflexivity | constructor].
  - rewrite E. simpl. rewrite IH. simpl. exists (p :: ps).
    split; [reflexivity | constructor; assumption].
Qed.

Lemma find_by_name_is_Some ps cur :
  Forall complete_program ps ->
  complete_program cur ->
  is_Some (find_by_name ps cur 0).
Proof.
  intros Hall ([c Hc] & _). rewrite (find_by_name_index cur c ps 0 Hc); [eauto|].
  eapply Forall_impl; [exact Hall|]. intros p (Hn & _). exact Hn.
Qed.

Lemma complete_step_at sts k st :
  Forall complete_step sts -> py_index sts k = Some st -> complete_step st.
Proof.
  intros Hall E. exact (proj1 (Forall_forall _ _) Hall st (py_index_elem _ _ _ E)).
Qed.

(** What the invariants say about the objects in the hypotheses. *)
Ltac nr_facts :=
  try match goal with
      | Hs : settings_inv _ |- _ =>
          destruct Hs as [(? & ? & ? & ? & ? & ?) ?]; unfold wizard_unit in *
      end;
  obj_invariant;
  try match goal with
      | Hw : main_state ?s = MODE_CUSTOM_CREATE ->
             create_state ?s = C_CREATE_SET_TIME -> _,
        H1 : main_state ?s = MODE_CUSTOM_CREATE,
        H2 : create_state ?s = C_CREATE_SET_TIME |- _ =>
          pose proof (Hw H1 H2)
      end;
  try match goal with
      | Hs : simple_state ?s = S_RUNNING -> is_Some _,
        H1 : simple_state ?s = S_RUNNING |- _ =>
          destruct (Hs H1)
      end;
  repeat match goal with
         | H : saved_programs ?s = _ :: _ |- _ =>
             lazymatch goal with
             | _ : saved_programs s <> [] |- _ => fail
             | _ =>
                 assert (saved_programs s <> []) by (rewrite H; discriminate)
             end
         end;
  repeat match goal with
         | H : ?l <> [] |- _ =>
             lazymatch goal with
             | _ : 0 < Z.of_nat (length l) |- _ => fail
             | _ => pose proof (nonempty_length_pos _ H)
             end
         end;
  repeat match goal with
         | Hh : heap_ok (heap ?s), H : heap ?s !! ?r = Some ?a |- _ =>
             lazymatch goal with
             | _ : complete_program a |- _ => fail
             | _ =>
                 destruct (heap_ok_lookup _ _ _ Hh H) as [-> | ?];
                 [ cbn [prog_name prog_loops prog_steps empty_program
                        dict_is_empty no_steps orb] in *;
                   try discriminate
                 | ]
             end
         end;
  repeat match goal with
         | H : complete_program ?p |- _ =>
             let Hc := fresh "Hc" in
             assert (Hc : id (complete_program p)) by exact H;
             destruct H as ([? ?] & [? ?] & ? & ? & ?)
         end;
  same_lookups;
  repeat match goal with
         | Hall : Forall complete_step ?sts,
           H : py_index ?sts _ = Some ?st |- _ =>
             lazymatch goal with
             | _ : complete_step st |- _ => fail
             | _ =>
                 pose proof (complete_step_at _ _ _ Hall H);
                 destruct (complete_step_at _ _ _ Hall H)
                   as ([? ?] & [? ?] & [? ?])
             end
         end;
  same_lookups.

(** Refutes the failure [E : o = None] of a subscript. *)
Ltac nr_absurd :=
  nr_facts;
  cbn [length main_menu_items custom_menu_items TIME_UNITS TIME_STEPS
       Z.of_nat Pos.of_succ_nat Pos.succ] in *;
  unfold_consts;
  first
    [ congruence
    | lia
    | match goal with
      | E : py_index _ _ = None |- _ =>
          apply py_index_None in E;
          cbn [length main_menu_items custom_menu_items TIME_UNITS TIME_STEPS
               Z.of_nat Pos.of_succ_nat Pos.succ] in E;
          repeat match type of E with
                 | context [?x mod ?n] =>
                     lazymatch goal with
                     | _ : 0 <= x mod n < n |- _ => fail
                     | _ =>
                         let Hn := fresh in
                         assert (Hn : 0 < n) by lia;
                         pose proof (Z.mod_pos_bound x n Hn)
                     end
                 end;
          lia
      | E : _ !! _ = None |- _ => apply lookup_ge_None in E; lia
      | E : get_duration_sec ?st = None,
        Hu : step_u ?st = Some _, Hv : step_v ?st = Some _ |- _ =>
          unfold get_duration_sec in E; rewrite Hu, Hv in E; discriminate E
      | E : names_of ?h ?sp = None |- _ =>
          let Hst := fresh in
          assert (Hst : store_ok h sp)
            by first [ assumption
                     | apply store_ok_insert_heap;
                       [ assumption
                       | first [ apply complete_program_set_loops
                               | apply complete_program_set_name ];
                         assumption ] ];
          destruct (store_ok_names _ _ Hst); congruence
      | E : deref_all ?h ?sp = None, Hst : store_ok ?h ?sp |- _ =>
          destruct (store_ok_deref_all _ _ Hst) as (? & ? & _); congruence
      | E : deref_all ?h (?sp ++ [?cp]) = None,
        E1 : deref_all ?h ?sp = Some _, E2 : ?h !! ?cp = Some _ |- _ =>
          rewrite (deref_all_app _ _ _ _ _ E1 E2) in E; discriminate E
      | E : deref_all ?h (<[?i := ?cp]> ?sp) = None,
        E1 : deref_all ?h ?sp = Some _, E2 : ?h !! ?cp = Some _ |- _ =>
          rewrite (deref_all_insert _ _ _ _ _ i E1 E2) in E; discriminate E
      | E : find_by_name ?l ?p 0 = None,
        E1 : deref_all ?h ?sp = Some ?l, Hst : store_ok ?h ?sp |- _ =>
          let Hall := fresh in
          destruct (store_ok_deref_all _ _ Hst) as (? & ? & Hall);
          same_lookups;
          destruct (find_by_name_is_Some l p Hall); [assumption | congruence]
      | E : py_index ?l 0 = None, H : no_steps ?p = false,
        Hs : prog_steps ?p = Some ?l |- _ =>
          unfold no_steps in H; rewrite Hs in H;
          destruct l; [discriminate H | unfold py_index in E; simpl in E;
                                        discriminate E]
      | E : no_steps _ = false |- _ =>
          unfold no_steps in E;
          repeat match type of E with
                 | context [match ?x with _ => _ end] => destruct x eqn:?
                 end; simpl in *; congruence
      end ].

Ltac nr_step :=
  lazymatch goal with
  | |- twp (subscript ?o) _ _ _ =>
      first
        [ eapply twp_subscript; [solve [eassumption | reflexivity] |]
        | let E := fresh "E" in
          destruct o eqn:E;
          [ eapply twp_subscript; [reflexivity|]
          | exfalso; try solve [nr_absurd] ] ]
  | |- twp (match (save_programs_to_file ?w ?l ?f).1 with _ => _ end) _ _ _ =>
      rewrite (save_never_raises w l f)
  | |- twp _ _ _ _ => twp_step
  end; cbv beta; st_simpl.

Ltac nr_run := repeat nr_step.

Lemma state_machine_no_raise d inp s :
  settings_inv s -> objects_inv s ->
  twp (state_machine d inp) (fun _ _ => True) (fun _ => True) s.
Proof. intros Hs Ho. nr_run. all: exact I. Qed.

Lemma twp_of_wp {A : Type} (m : M A) Q Qc s :
  twp m (fun _ _ => True) (fun _ => True) s -> wp m Q Qc s -> twp m Q Qc s.
Proof. unfold twp, wp. destruct (m s); auto. Qed.

Lemma wp_wf {A : Type} (m : M A) s :
  wp m (fun _ => settings_inv) settings_inv s ->
  wp m (fun _ => objects_inv) objects_inv s ->
  wp m (fun _ => wf) wf s.
Proof. unfold wp, wf. destruct (m s); auto. Qed.

Lemma wf_loop_body inp s :
  wf s -> twp (loop_body inp) (fun _ => wf) wf s.
Proof.
  intros H. unfold loop_body.
  apply (twp_seq wf).
  { apply twp_of_wp; [unfold read_delta; twp_run; exact I|].
    destruct H as [Hs Ho]. apply wp_wf; wp_run; assumption. }
  clear s H. intros d s H. cbv zeta.
  apply (twp_seq wf).
  { apply twp_of_wp; [twp_run; exact I|].
    destruct H as [Hs Ho]. apply wp_wf.
    - wp_run; try exact Hs. all: settings_leaf.
    - wp_run; try exact Ho. all: obj_leaf. }
  clear s H. intros _ s H.
  apply (twp_seq wf).
  { apply twp_of_wp; [twp_run; exact I|].
    destruct H as [Hs Ho]. apply wp_wf; wp_run; assumption. }
  clear s H. intros _ s [Hs Ho].
  apply twp_of_wp; [apply state_machine_no_raise; assumption|].
  apply wp_wf.
  - apply settings_inv_state_machine, Hs.
  - apply objects_inv_state_machine, Ho.
Qed.

Lemma wf_boot f enc0 t0 lid np :
  complete_file f -> wf (boot f enc0 t0 lid np).
Proof.
  intros Hf. split; [apply settings_inv_boot | apply objects_inv_boot, Hf].
Qed.

Lemma wf_ticks inps : forall s,
  wf s -> exists s', ticks inps s = Some s' /\ wf s'.
Proof.
  induction inps as [|inp inps IH]; intros s H; simpl; [eauto|].
  destruct (twp_tick wf inp s (wf_loop_body inp s H)) as (s1 & -> & H1).
  apply IH, H1.
Qed.

(** A file of programs within the editors' limits holds complete
    programs. *)
Lemma editor_file_complete f : editor_file f -> complete_file f.
Proof.
  destruct f as [| | |ps]; simpl; try exact id.
  intros H. eapply Forall_impl; [exact H|].
  intros p (name & loops & sts & -> & _ & Hsts).
  split; [eexists; reflexivity|]. split; [eexists; reflexivity|].
  exists sts. split; [reflexivity|].
  eapply Forall_impl; [exact Hsts|].
  intros st (u & v & i & -> & _). repeat split; eexists; reflexivity.
Qed.

(** X5: When the programs file is missing, cannot be read, is not JSON, or
    holds a list of program dictionaries each with a string as "name", an
    integer from 1 to 99 as "loops" and a list as "steps" of dictionaries
    with an integer "u" in 0..2, an integer "v" within the limits of that
    unit and an integer "i" in 0..100, no sequence of readings makes an
    iteration of the super loop raise: every iteration runs to its end, and
    the cursor of a custom run always points to a step of the current
    program. *)
Theorem loop_never_dies f enc0 t0 lid np inps :
  editor_file f ->
  exists s',
    ticks inps (boot f enc0 t0 lid np) = Some s'
    /\ cursor_ok s'.
Proof.
  intros Hf.
  destruct (wf_ticks inps _
              (wf_boot f enc0 t0 lid np (editor_file_complete f Hf)))
    as (s' & E & _ & Ho).
  exists s'. split; [exact E|]. apply Ho.
Qed.

Lemma loop_never_dies_witness :
  editor_file (Stored [demo_program])
  /\ exists s',
       ticks (demo_to_run ++ demo_expiries) (boot (Stored [demo_program]) 0 0 false true)
       = Some s'
       /\ cursor_ok s'.
Proof.
  assert (H : editor_file (Stored [demo_program])).
  { constructor; [|constructor].
    exists "P-01"%string, 2,
      [mkStep (Some 0) (Some 10) (Some 30); mkStep (Some 2) (Some 500) (Some 90)].
    split; [reflexivity|]. split; [lia|].
    constructor; [|constructor; [|constructor]].
    - exists 0, 10, 30. vm_compute. intuition congruence.
    - exists 2, 500, 90. vm_compute. intuition congruence. }
  split; [exact H|].
  apply (loop_never_dies (Stored [demo_program]) 0 0 false true
           (demo_to_run ++ demo_expiries) H).
Defined.
(** ** The duty stays between 0 and 1 *)

Lemma percent_duty i :
  INT_MIN <= i <= INT_MAX -> (0 <= inject_Z i / 100 <= 1)%Q.
Proof.
  unfold INT_MIN, INT_MAX, Qle, Qdiv, Qmult, Qinv, inject_Z. simpl. lia.
Qed.

Lemma zero_duty : (0 <= 0 <= 1)%Q.
Proof. split; discriminate. Qed.

Lemma program_duty_ok_at h r p sts k st :
  Forall program_duty_ok h ->
  h !! r = Some p -> prog_steps p = Some sts -> py_index sts k = Some st ->
  step_duty_ok st.
Proof.
  intros Hh Hp Hs Hk.
  pose proof (proj1 (Forall_lookup _ _) Hh r p Hp sts Hs) as Hall.
  exact (proj1 (Forall_forall _ _) Hall st (py_index_elem _ _ _ Hk)).
Qed.

Lemma program_duty_ok_append p sts t :
  program_duty_ok p -> prog_steps p = Some sts -> step_duty_ok t ->
  program_duty_ok (mkProgram (prog_name p) (prog_loops p) (Some (sts ++ [t]))).
Proof.
  intros Hp Hs Ht sts' E. simpl in E. injection E as <-.
  apply Forall_app. split; [exact (Hp sts Hs)|]. constructor; [exact Ht | constructor].
Qed.

Ltac duty_leaf :=
  match goal with
  | H : duty_inv _ |- _ => destruct H as (Hh & Ht & Hu0 & Hu1)
  end;
  match goal with
  | H : settings_inv _ |- _ =>
      destruct H as [(_ & _ & _ & _ & Hint & _) _]
  end;
  unfold duty_inv; st_simpl;
  repeat match goal with |- _ /\ _ => split end;
  try assumption;
  first
    [ apply zero_duty
    | apply percent_duty; first
        [ assumption
        | apply clamp_range; unfold INT_MIN, INT_MAX; lia
        | match goal with
          | E : step_i ?st = Some ?i, Hk : py_index ?sts _ = Some ?st,
            Hs : prog_steps ?p = Some ?sts, Hp : heap _ !! _ = Some ?p,
            Hh : Forall program_duty_ok _ |- INT_MIN <= ?i <= INT_MAX =>
              exact (program_duty_ok_at _ _ _ _ _ _ Hh Hp Hs Hk i E)
          end ]
    | intros ? E; cbn [step_i empty_step] in E;
      first [ discriminate E
            | injection E as <-; assumption
            | match goal with
              | Ht : step_duty_ok _ |- _ => exact (Ht _ E)
              end ]
    | apply Forall_app; split; [assumption|];
      constructor; [|constructor];
      intros ? E; injection E as <-; constructor
    | apply Forall_insert; [assumption|];
      first
        [ apply program_duty_ok_append;
          [ eapply (proj1 (Forall_lookup _ _)); eassumption
          | assumption
          | intros ? E; cbn [step_i] in E; injection E as <-; assumption ]
        | intros ? E; cbn [prog_steps] in E;
          match goal with
          | Hh : Forall program_duty_ok ?h, Hp : ?h !! _ = Some ?p |- _ =>
              exact (proj1 (Forall_lookup _ _) Hh _ _ Hp _ E)
          end ] ].

Lemma duty_inv_state_machine d inp s :
  settings_inv s -> duty_inv s ->
  wp (state_machine d inp) (fun _ => duty_inv) duty_inv s.
Proof.
  intros Hs H. wp_run.
  all: try exact H.
  all: duty_leaf.
Qed.

Lemma wp_conj {A : Type} (m : M A) (Q1 Q2 : A -> State -> Prop)
    (Qc1 Qc2 : State -> Prop) s :
  wp m Q1 Qc1 s -> wp m Q2 Qc2 s ->
  wp m (fun a s' => Q1 a s' /\ Q2 a s') (fun s' => Qc1 s' /\ Qc2 s') s.
Proof. unfold wp. destruct (m s); auto. Qed.

Lemma duty_inv_loop_body inp s :
  settings_inv s -> duty_inv s ->
  wp (loop_body inp) (fun _ s' => settings_inv s' /\ duty_inv s')
    (fun s' => settings_inv s' /\ duty_inv s') s.
Proof.
  intros Hs H. apply wp_conj; [apply settings_inv_loop_body, Hs|].
  unfold loop_body.
  apply (wp_seq (fun s' => settings_inv s' /\ duty_inv s')).
  { wp_run; split; assumption. }
  clear s Hs H. intros d s [Hs H]. cbv zeta.
  apply (wp_seq (fun s' => settings_inv s' /\ duty_inv s')).
  { wp_run; try (split; assumption). duty_leaf. }
  clear s Hs H. intros _ s [Hs H].
  apply (wp_seq (fun s' => settings_inv s' /\ duty_inv s')).
  { wp_run; split; assumption. }
  clear s Hs H. intros _ s [Hs H].
  apply duty_inv_state_machine; assumption.
Qed.

Lemma duty_inv_boot f enc0 t0 lid np :
  duty_file f -> duty_inv (boot f enc0 t0 lid np).
Proof.
  intros Hf. split; [|split; [intros i E; discriminate E | apply zero_duty]].
  unfold boot. st_simpl. constructor; [intros sts E; discriminate E|].
  destruct f; simpl; try constructor. exact Hf.
Qed.

Lemma duty_inv_ticks inps : forall s s',
  settings_inv s -> duty_inv s -> ticks inps s = Some s' -> duty_inv s'.
Proof.
  induction inps as [|inp inps IH]; simpl; intros s s' Hs H E.
  - injection E as <-. exact H.
  - destruct (tick inp s) as [s1|] eqn:E1; [|discriminate].
    destruct (wp_tick (fun s' => settings_inv s' /\ duty_inv s') inp s s1
                (duty_inv_loop_body inp s Hs H) E1) as [Hs1 H1].
    exact (IH s1 s' Hs1 H1 E).
Qed.

(** X6: When every intensity in the programs file is a percentage (0..100), or
    the file holds no programs, the duty written to the UV output is
    between 0 and 1 at the end of every iteration, whatever the readings
    were. *)
Theorem duty_always_between_0_and_1 f enc0 t0 lid np inps s' :
  duty_file f ->
  ticks inps (boot f enc0 t0 lid np) = Some s' ->
  (0 <= uv s' <= 1)%Q.
Proof.
  intros Hf E.
  apply (duty_inv_ticks inps _ s' (settings_inv_boot f enc0 t0 lid np)
           (duty_inv_boot f enc0 t0 lid np Hf) E).
Qed.

Lemma duty_always_between_0_and_1_witness :
  uv (default demo_boot (ticks demo_to_run demo_boot)) == 3 # 10
  /\ (0 <= uv (default demo_boot (ticks demo_to_run demo_boot)) <= 1)%Q.
Proof.
  split; [vm_compute; reflexivity|].
  apply (duty_always_between_0_and_1 (Stored [demo_program]) 0 0 false true
           demo_to_run).
  - constructor; [|constructor]. intros sts E. injection E as <-.
    constructor; [|constructor; [|constructor]];
      intros i E; injection E as <-; unfold INT_MIN, INT_MAX; lia.
  - vm_compute. reflexivity.
Defined.

(** ** What is saved is what a restart loads *)

Lemma deref_all_lt h : forall refs ps,
  deref_all h refs = Some ps -> Forall (fun r => (r < length h)%nat) refs.
Proof.
  induction refs as [|r refs IH]; simpl; intros ps E; [constructor|].
  destruct (h !! r) as [p|] eqn:Hr; [|discriminate]. simpl in E.
  destruct (deref_all h refs) as [ps'|]; [|discriminate].
  constructor; [eapply lookup_lt_Some, Hr | eapply IH; reflexivity].
Qed.

Lemma deref_all_app_heap h p : forall refs ps,
  deref_all h refs = Some ps -> deref_all (h ++ [p]) refs = Some ps.
Proof.
  induction refs as [|r refs IH]; cbn [deref_all]; intros ps E; [exact E|].
  destruct (h !! r) as [q|] eqn:Hr; [|discriminate]. simpl in E.
  destruct (deref_all h refs) as [ps'|]; [|discriminate].
  rewrite (lookup_app_l_Some _ _ _ _ Hr). simpl.
  rewrite (IH ps' eq_refl). exact E.
Qed.

Lemma deref_all_insert_heap h cp p : forall refs,
  cp ∉ refs -> deref_all (<[cp := p]> h) refs = deref_all h refs.
Proof.
  induction refs as [|r refs IH]; cbn [deref_all]; intros Hn; [reflexivity|].
  apply not_elem_of_cons in Hn as [Hne Hn].
  rewrite list_lookup_insert_ne by exact Hne. rewrite (IH Hn). reflexivity.
Qed.

Lemma fresh_not_stored h refs ps :
  deref_all h refs = Some ps -> length h ∉ refs.
Proof.
  intros E Hin.
  pose proof (proj1 (Forall_forall _ _) (deref_all_lt _ _ _ E) _ Hin) as Hlt.
  cbv beta in Hlt. lia.
Qed.

Ltac sync_leaf :=
  match goal with
  | H : sync_inv _ |- _ => destruct H as (Hsync & Hfresh)
  end;
  unfold sync_inv, store_contents in *; st_simpl;
  repeat match goal with |- _ /\ _ => split end;
  try assumption;
  try solve [intros; exfalso; unfold_consts; first [lia | congruence]];
  first
    [ rewrite deref_all_insert_heap
        by (match goal with
            | Hf : _ -> _ ∉ _ |- _ => apply Hf; assumption
            end);
      assumption
    | apply deref_all_app_heap; assumption
    | intros _; eapply fresh_not_stored; eassumption ].

Lemma sync_inv_state_machine d inp s :
  write inp = WriteOk ->
  sync_inv s ->
  wp (state_machine d inp) (fun _ => sync_inv) sync_inv s.
Proof.
  intros Hw H. unfold state_machine. rewrite Hw. wp_run.
  all: try exact H.
  all: sync_leaf.
Qed.

Lemma sync_inv_loop_body inp s :
  write inp = WriteOk ->
  sync_inv s -> wp (loop_body inp) (fun _ => sync_inv) sync_inv s.
Proof.
  intros Hw H. unfold loop_body.
  apply (wp_seq sync_inv). { wp_run; exact H. }
  clear s H. intros d s H. cbv zeta.
  apply (wp_seq sync_inv). { wp_run; try exact H. sync_leaf. }
  clear s H. intros _ s H.
  apply (wp_seq sync_inv). { wp_run; exact H. }
  clear s H. intros _ s H.
  apply sync_inv_state_machine; assumption.
Qed.

Lemma deref_all_seq (ps : list Program) p0 :
  deref_all (p0 :: ps) (seq 1 (length ps)) = Some ps.
Proof.
  assert (H : forall pre, deref_all (pre ++ ps) (seq (length pre) (length ps))
                          = Some ps).
  { induction ps as [|p ps IH]; intros pre; [reflexivity|].
    cbn [length seq deref_all]. unfold loc.
    rewrite (list_lookup_middle pre ps p (length pre) eq_refl). simpl.
    specialize (IH (pre ++ [p])).
    rewrite length_app, Nat.add_1_r, <- app_assoc in IH. simpl in IH.
    rewrite IH. reflexivity. }
  exact (H [p0]).
Qed.

Lemma boot_store_contents f enc0 t0 lid np :
  store_contents (boot f enc0 t0 lid np) = Some (loaded_from f).
Proof. unfold store_contents, boot, loaded_from. st_simpl. apply deref_all_seq. Qed.

Lemma sync_inv_boot f enc0 t0 lid np : sync_inv (boot f enc0 t0 lid np).
Proof.
  split; [apply boot_store_contents | intros H; discriminate H].
Qed.

Lemma sync_inv_ticks inps : forall s s',
  Forall (fun inp => write inp = WriteOk) inps ->
  sync_inv s -> ticks inps s = Some s' -> sync_inv s'.
Proof.
  induction inps as [|inp inps IH]; simpl; intros s s' Hw H E.
  - injection E as <-. exact H.
  - destruct (tick inp s) as [s1|] eqn:E1; [|discriminate].
    apply Forall_cons in Hw as [Hw1 Hw].
    apply (IH s1 s' Hw); [|exact E].
    exact (wp_tick sync_inv inp s s1 (sync_inv_loop_body inp s Hw1 H) E1).
Qed.

(** X7: As long as the writes to the programs file succeed, the store in
    memory and the file agree at the end of every iteration: a restart at
    that point loads exactly the programs the store holds, in the same
    order, with the contents they have in memory. *)
Theorem restart_loads_the_store f enc0 t0 lid np inps s' enc1 t1 lid1 np1 :
  Forall (fun inp => write inp = WriteOk) inps ->
  ticks inps (boot f enc0 t0 lid np) = Some s' ->
  store_contents (boot (programs_file s') enc1 t1 lid1 np1)
  = store_contents s'.
Proof.
  intros Hw E.
  destruct (sync_inv_ticks inps _ s' Hw (sync_inv_boot f enc0 t0 lid np) E)
    as [Hsync _].
  rewrite boot_store_contents, Hsync. reflexivity.
Qed.

Lemma restart_loads_the_store_witness :
  let s' := default demo_boot (ticks author_and_save demo_boot) in
  store_contents s'
  = Some [demo_program;
          mkProgram (Some "P-02"%string) (Some 1)
            (Some [mkStep (Some 0) (Some 60) (Some 50)]) ]
  /\ store_contents (boot (programs_file s') 7 8 true false)
     = store_contents s'.
Proof.
  split; [vm_compute; reflexivity|].
  apply (restart_loads_the_store (Stored [demo_program]) 0 0 false true
           author_and_save).
  - repeat constructor.
  - vm_compute. reflexivity.
Defined.
(** ** No two stored programs have the same name *)

Lemma names_of_lt h : forall refs ns,
  names_of h refs = Some ns -> Forall (fun r => (r < length h)%nat) refs.
Proof.
  induction refs as [|r refs IH]; cbn [names_of]; intros ns E; [constructor|].
  destruct (h !! r) as [p|] eqn:Hr; [|discriminate]. simpl in E.
  destruct (prog_name p); [|discriminate]. simpl in E.
  destruct (names_of h refs) as [ns'|]; [|discriminate].
  constructor; [eapply lookup_lt_Some, Hr | eapply IH; reflexivity].
Qed.

Lemma names_of_app_heap h p : forall refs ns,
  names_of h refs = Some ns -> names_of (h ++ [p]) refs = Some ns.
Proof.
  induction refs as [|r refs IH]; cbn [names_of]; intros ns E; [exact E|].
  destruct (h !! r) as [q|] eqn:Hr; [|discriminate]. simpl in E.
  rewrite (lookup_app_l_Some _ _ _ _ Hr). simpl.
  destruct (prog_name q); [|discriminate]. simpl in *.
  destruct (names_of h refs) as [ns'|]; [|discriminate].
  rewrite (IH ns' eq_refl). exact E.
Qed.

Lemma names_of_insert_heap h cp p : forall refs,
  cp ∉ refs -> names_of (<[cp := p]> h) refs = names_of h refs.
Proof.
  induction refs as [|r refs IH]; cbn [names_of]; intros Hn; [reflexivity|].
  apply not_elem_of_cons in Hn as [Hne Hn].
  rewrite list_lookup_insert_ne by exact Hne. rewrite (IH Hn). reflexivity.
Qed.

Lemma names_of_fresh h refs ns :
  names_of h refs = Some ns -> length h ∉ refs.
Proof.
  intros E Hin.
  pose proof (proj1 (Forall_forall _ _) (names_of_lt _ _ _ E) _ Hin) as Hlt.
  cbv beta in Hlt. lia.
Qed.

(** The names are those of the dereferenced programs. *)
Lemma names_of_deref_all h : forall refs ns ps,
  names_of h refs = Some ns ->
  deref_all h refs = Some ps ->
  Forall2 (fun p n => prog_name p = Some n) ps ns.
Proof.
  induction refs as [|r refs IH]; cbn [names_of deref_all]; intros ns ps En Ep.
  - injection En as <-. injection Ep as <-. constructor.
  - destruct (h !! r) as [p|]; [|discriminate]. simpl in En, Ep.
    destruct (prog_name p) as [n|] eqn:Hn; [|discriminate]. simpl in En.
    destruct (names_of h refs) as [ns'|]; [|discriminate].
    destruct (deref_all h refs) as [ps'|]; [|discriminate].
    injection En as <-. injection Ep as <-.
    constructor; [exact Hn | apply IH; reflexivity].
Qed.

Lemma names_of_snoc h (cp : loc) cur c : forall refs ns,
  names_of h refs = Some ns ->
  h !! cp = Some cur -> prog_name cur = Some c ->
  names_of h (refs ++ [cp]) = Some (ns ++ [c]).
Proof.
  induction refs as [|r refs IH]; cbn [names_of app]; unfold loc in *;
    intros ns E Hcp Hc.
  - injection E as <-. rewrite Hcp. simpl. rewrite Hc. reflexivity.
  - destruct (h !! r) as [p|]; [|discriminate]. simpl in *.
    destruct (prog_name p) as [n|]; [|discriminate]. simpl in *.
    destruct (names_of h refs) as [ns'|]; [|discriminate].
    injection E as <-. rewrite (IH ns' eq_refl Hcp Hc). reflexivity.
Qed.

Lemma names_of_replace h (cp : loc) cur c : forall refs ns i,
  names_of h refs = Some ns ->
  h !! cp = Some cur -> prog_name cur = Some c ->
  names_of h (<[i := cp]> refs) = Some (<[i := c]> ns).
Proof.
  induction refs as [|r refs IH]; cbn [names_of]; unfold loc in *;
    intros ns i E Hcp Hc.
  - injection E as <-. reflexivity.
  - destruct (h !! r) as [p|] eqn:Hr; [|discriminate]. simpl in E.
    destruct (prog_name p) as [n|] eqn:Hn; [|discriminate]. simpl in E.
    destruct (names_of h refs) as [ns'|] eqn:E'; [|discriminate].
    injection E as <-. destruct i as [|i].
    + change (<[0%nat := cp]> (r :: refs)) with (cp :: refs).
      cbn [names_of]; unfold loc in *.
      rewrite Hcp. simpl. rewrite Hc. simpl. rewrite E'. reflexivity.
    + change (<[S i := cp]> (r :: refs)) with (r :: <[i := cp]> refs).
      cbn [names_of]; unfold loc in *.
      rewrite Hr. simpl. rewrite Hn. simpl.
      rewrite (IH ns' i eq_refl Hcp Hc). reflexivity.
Qed.

(** The index found by name is that of the name in the list of names. *)
Lemma name_index_names c : forall ps ns,
  Forall2 (fun p n => prog_name p = Some n) ps ns ->
  match name_index c ps with
  | Some i => ns !! i = Some c
  | None => c ∉ ns
  end.
Proof.
  induction 1 as [|p n ps ns Hn _ IH]; cbn [name_index].
  - apply not_elem_of_nil.
  - destruct (bool_decide (prog_name p = Some c)) eqn:Hd.
    + apply bool_decide_eq_true in Hd. rewrite Hn in Hd. injection Hd as ->.
      reflexivity.
    + apply bool_decide_eq_false in Hd.
      destruct (name_index c ps) as [i|]; simpl; [exact IH|].
      apply not_elem_of_cons. split; [|exact IH].
      intros ->. apply Hd. exact Hn.
Qed.

(** The store after Save has unique names. *)
Lemma names_after_save h sp cp ps cur z ns :
  names_of h sp = Some ns -> NoDup ns ->
  deref_all h sp = Some ps ->
  h !! cp = Some cur -> is_Some (prog_name cur) ->
  find_by_name ps cur 0 = Some z ->
  exists ns',
    names_of h (if negb (z =? -1) then <[Z.to_nat z := cp]> sp else sp ++ [cp])
    = Some ns'
    /\ NoDup ns'.
Proof.
  intros En Hnd Ep Hcp [c Hc] Ef.
  pose proof (names_of_deref_all _ _ _ _ En Ep) as H2.
  rewrite (find_by_name_index cur c ps 0 Hc) in Ef.
  2:{ eapply Forall2_Forall_l; [exact H2|]. apply Forall_true. eauto. }
  pose proof (name_index_names c ps ns H2) as Hi.
  destruct (name_index c ps) as [i|]; injection Ef as <-.
  - replace (negb (0 + Z.of_nat i =? -1)) with true
      by (symmetry; apply negb_true_iff, Z.eqb_neq; lia).
    exists ns. split; [|exact Hnd].
    rewrite (names_of_replace _ _ _ _ _ _ (Z.to_nat (0 + Z.of_nat i)) En Hcp Hc).
    f_equal. apply list_insert_id.
    replace (Z.to_nat (0 + Z.of_nat i)) with i by lia. exact Hi.
  - simpl. exists (ns ++ [c]). split; [exact (names_of_snoc _ _ _ _ _ _ En Hcp Hc)|].
    apply NoDup_app. split; [exact Hnd|]. split.
    + intros x Hx Hx'. apply list_elem_of_singleton in Hx' as ->. exact (Hi Hx).
    + apply NoDup_singleton.
Qed.

Ltac names_leaf :=
  match goal with
  | H : names_inv _ |- _ => destruct H as ((ns & En & Hnd) & Hfresh)
  end;
  unfold names_inv, store_names in *; st_simpl;
  try match goal with
      | Hf : main_state ?s = MODE_CUSTOM_CREATE -> _,
        e : main_state ?s = MODE_CUSTOM_CREATE |- _ =>
          let Hnotin := fresh "Hnotin" in
          let Hnamed := fresh "Hnamed" in
          destruct (Hf e) as (Hnotin & ? & ? & Hnamed)
      end;
  same_lookups;
  split;
  [ first
      [ eexists; split; eassumption
      | eexists; split; [apply names_of_app_heap; eassumption | assumption]
      | rewrite names_of_insert_heap by assumption;
        eexists; split; eassumption
      | match goal with
        | Ep : deref_all ?h ?sp = Some ?ps, Hcp : ?h !! ?cp = Some ?cur,
          Ef : find_by_name ?ps ?cur 0 = Some ?z,
          En : names_of ?h ?sp = Some ?ns, Hnd : NoDup ?ns,
          Hnamed : is_Some (prog_name ?cur) |- _ =>
            let E' := fresh in
            destruct (names_after_save h sp cp ps cur z ns En Hnd Ep Hcp Hnamed Ef)
              as (? & E' & ?);
            destruct (Z.eqb_spec z (-1)); [|]; cbn [negb] in E';
            first [lia | contradiction | eexists; split; eassumption]
        end ]
  | first
      [ assumption
      | intros; exfalso; unfold_consts; first [lia | congruence]
      | intros _; split;
        [ first [ assumption | eapply names_of_fresh; eassumption ]
        | eexists; split;
          [ first [ apply list_lookup_middle; reflexivity
                  | apply list_lookup_insert_eq; eapply lookup_lt_Some;
                    eassumption ]
          | cbn [prog_name]; first [assumption | eauto] ] ] ] ].

Lemma names_inv_state_machine d inp s :
  names_inv s ->
  wp (state_machine d inp) (fun _ => names_inv) names_inv s.
Proof.
  intros H. wp_run.
  all: try exact H.
  all: names_leaf.
Qed.

Lemma names_inv_loop_body inp s :
  names_inv s -> wp (loop_body inp) (fun _ => names_inv) names_inv s.
Proof.
  intros H. unfold loop_body.
  apply (wp_seq names_inv). { wp_run; exact H. }
  clear s H. intros d s H. cbv zeta.
  apply (wp_seq names_inv). { wp_run; try exact H. names_leaf. }
  clear s H. intros _ s H.
  apply (wp_seq names_inv). { wp_run; exact H. }
  clear s H. intros _ s H.
  apply names_inv_state_machine, H.
Qed.

Lemma names_of_seq (ps : list Program) ns p0 :
  Forall2 (fun p n => prog_name p = Some n) ps ns ->
  names_of (p0 :: ps) (seq 1 (length ps)) = Some ns.
Proof.
  intros H2.
  assert (H : forall pre, names_of (pre ++ ps) (seq (length pre) (length ps))
                          = Some ns).
  { induction H2 as [|p n ps ns Hn _ IH]; intros pre; [reflexivity|].
    cbn [length seq names_of]. unfold loc.
    rewrite (list_lookup_middle pre ps p (length pre) eq_refl). simpl.
    rewrite Hn. simpl.
    specialize (IH (pre ++ [p])).
    rewrite length_app, Nat.add_1_r, <- app_assoc in IH. simpl in IH.
    rewrite IH. reflexivity. }
  exact (H [p0]).
Qed.

Lemma names_inv_boot f enc0 t0 lid np :
  unique_names f -> names_inv (boot f enc0 t0 lid np).
Proof.
  intros Hf. split; [|intros H; discriminate H].
  unfold store_names, boot. st_simpl.
  destruct f as [| | |ps]; simpl; try (exists []; split; [reflexivity | constructor]).
  destruct Hf as (ns & H2 & Hnd). exists ns. split; [|exact Hnd].
  apply names_of_seq, H2.
Qed.

Lemma names_inv_ticks inps : forall s s',
  names_inv s -> ticks inps s = Some s' -> names_inv s'.
Proof.
  induction inps as [|inp inps IH]; simpl; intros s s' H E.
  - injection E as <-. exact H.
  - destruct (tick inp s) as [s1|] eqn:E1; [|discriminate].
    apply (IH s1 s'); [|exact E].
    exact (wp_tick names_inv inp s s1 (names_inv_loop_body inp s H) E1).
Qed.

(** X8: When the programs of the file are named, no two alike (or the file
    holds none), the stored programs are named, no two alike, at the end
    of every iteration: Save never adds a second program of a name that
    the store has already. *)
Theorem store_names_stay_unique f enc0 t0 lid np inps s' :
  unique_names f ->
  ticks inps (boot f enc0 t0 lid np) = Some s' ->
  exists ns, store_names s' = Some ns /\ NoDup ns.
Proof.
  intros Hf E.
  exact (proj1 (names_inv_ticks inps _ s' (names_inv_boot f enc0 t0 lid np Hf) E)).
Qed.

Lemma store_names_stay_unique_witness :
  store_names (default demo_boot (ticks author_same_name demo_boot))
  = Some ["P-01"%string]
  /\ exists ns,
       store_names (default demo_boot (ticks author_same_name demo_boot))
       = Some ns /\ NoDup ns.
Proof.
  split; [vm_compute; reflexivity|].
  apply (store_names_stay_unique (Stored [demo_program]) 0 0 false true
           author_same_name).
  - exists ["P-01"%string]. split.
    + constructor; [reflexivity | constructor].
    + apply NoDup_singleton.
  - vm_compute. reflexivity.
Defined.
(** ** A Simple run lasts until its expiry *)

(** For readings without a wrap of the counter between them and less than
    2^29 ms apart, the wrapped difference is the plain one. *)
Lemma ticks_diff_not_wrapped a b :
  - 2 ^ 29 <= a - b < 2 ^ 29 -> ticks_diff_wrapped a b = ticks_diff a b.
Proof.
  intros H. unfold ticks_diff_wrapped, ticks_diff.
  rewrite Z.mod_small; lia.
Qed.

(** A start timestamp near the end of the counter's period and a reading
    after the wrap: the library gives the 60 s between them. *)
Lemma ticks_diff_wrapped_example :
  ticks_diff_wrapped 30000 1073711824 = 60000.
Proof. reflexivity. Qed.

(** X9: A Simple run that is neither cancelled by a long press nor stopped by
    the lid is left as it is, whatever the encoder and a short press do,
    by every iteration in which the remaining time that the code computes
    (the set duration less [ticks_diff(now, s_start_ts) / 1000]) is still
    positive; the iteration in which it is zero or less turns the UV
    output off and enters the Done state. *)
Theorem simple_run_lasts_until_expiry inp s start :
  main_state s = MODE_SIMPLE ->
  simple_state s = S_RUNNING ->
  s_start_ts s = Some start ->
  lid_open inp = false ->
  is_long (btn inp) = false ->
  exists s',
    tick inp s = Some s'
    /\ if expired (remaining (s_run_duration_sec s)
                     (elapsed_sec (now inp) start))
       then uv s' = 0%Q /\ simple_state s' = S_DONE /\ s_start_ts s' = None
            /\ main_state s' = MODE_SIMPLE
       else control s' = control s.
Proof.
  intros Hm Hs Hts Hlid Hb.
  apply twp_tick_state_machine; [apply lid_closed_safe, Hlid|].
  intros e c b a. unfold state_machine.
  twp_run.
  - (* expired *)
    repeat split; assumption.
  - (* not yet *)
    reflexivity.
Qed.

Lemma simple_run_lasts_until_expiry_witness :
  exists s',
    tick (short_at 5 60000) at_simple_run = Some s'
    /\ if expired (remaining (s_run_duration_sec at_simple_run)
                     (elapsed_sec (now (short_at 5 60000)) 40))
       then uv s' = 0%Q /\ simple_state s' = S_DONE /\ s_start_ts s' = None
            /\ main_state s' = MODE_SIMPLE
       else control s' = control at_simple_run.
Proof.
  apply (simple_run_lasts_until_expiry (short_at 5 60000) at_simple_run 40);
    vm_compute; reflexivity.
Defined.
(** ** The Load selection with an empty store *)

(** X10: In the Load selection (which is active when the custom menu is first
    entered after start-up) with no stored program, the encoder and a
    short press do nothing, with the lid open or closed: the control state
    is unchanged; a long press leaves the selection for the custom
    menu. *)
Theorem empty_load_selection_needs_long_press inp s :
  selecting_load s ->
  saved_programs s = [] ->
  is_Some (py_index custom_menu_items (custom_menu_idx s)) ->
  exists s',
    tick inp s = Some s'
    /\ ((is_long (btn inp) = false -> control s' = control s)
        /\ (is_long (btn inp) = true ->
            load_state s' = -1 /\ navigating s')).
Proof.
  intros (Hm & Hts & Hrs & Hls) Hsp [item Hitem].
  assert (Hbd : bool_decide (saved_programs s = []) = true)
    by (apply bool_decide_eq_true, Hsp).
  apply twp_tick_state_machine; [apply no_cursor_safe; assumption|].
  intros e c b a. unfold state_machine.
  destruct (btn inp); cbn [is_long is_pressed]; twp_run.
  all: split; intros H; try discriminate H; try reflexivity.
  all: unfold navigating; st_simpl; repeat split; assumption.
Qed.

Lemma empty_load_selection_needs_long_press_witness :
  exists s',
    tick (short_at 2 20) first_custom_menu = Some s'
    /\ ((is_long (btn (short_at 2 20)) = false ->
         control s' = control first_custom_menu)
        /\ (is_long (btn (short_at 2 20)) = true ->
            load_state s' = -1 /\ navigating s')).
Proof.
  apply (empty_load_selection_needs_long_press (short_at 2 20) first_custom_menu).
  - vm_compute. repeat split; discriminate.
  - vm_compute. reflexivity.
  - vm_compute. eauto.
Defined.
(** ** "Run Program" with nothing to run *)

(** X11: Selecting "Run Program" while the current program is the empty
    dictionary (nothing was loaded or created since start-up) or has no
    step starts nothing: the UV output, the cursor and all other globals
    stay as they are, but for the menu selection the same iteration
    turned to. *)
Theorem run_without_steps_starts_nothing inp s p :
  navigating s ->
  lid_open inp = false ->
  btn inp = ShortPress ->
  menu_idx_after inp s = C_MENU_RUN ->
  heap s !! current_program s = Some p ->
  dict_is_empty p || no_steps p = true ->
  exists s',
    tick inp s = Some s'
    /\ control s' = control (set_custom_menu_idx C_MENU_RUN s).
Proof.
  intros (Hm & Hts & Hrs & Hls) Hlid Hb Hidx Hp Hne.
  apply twp_tick_state_machine; [apply lid_closed_safe, Hlid|].
  intros e c b a. unfold state_machine. rewrite Hlid, Hb.
  unfold menu_idx_after in Hidx. cbv zeta in Hidx.
  apply orb_true_iff in Hne.
  destruct (Z.eqb_spec (enc_value inp - _last_enc s) 0) as [Hd|Hd];
    destruct Hne as [Hne|Hne];
    twp_run; rewrite ?Hidx; twp_run;
    unfold control; st_simpl; rewrite ?Hidx; reflexivity.
Qed.

Lemma run_without_steps_starts_nothing_witness :
  let s := default demo_boot
             (ticks [idle_at 1 0; short_at 1 10; long_at 1 20; idle_at 0 30]
                demo_boot) in
  exists s',
    tick (short_at 0 40) s = Some s'
    /\ control s' = control (set_custom_menu_idx C_MENU_RUN s).
Proof.
  apply (run_without_steps_starts_nothing (short_at 0 40) _ empty_program).
  - vm_compute. repeat split; discriminate.
  - reflexivity.
  - reflexivity.
  - vm_compute. reflexivity.
  - vm_compute. reflexivity.
  - reflexivity.
Defined.
(** ** What the time displays show *)

(** The two formats agree on two digits. *)
Lemma fmt_0d_2 n : 0 <= n < 100 -> fmt_0d 2 n = fmt_02d n.
Proof.
  intros Hn.
  assert (Hall : forallb (fun k => String.eqb (fmt_0d 2 k) (fmt_02d k))
                   (map Z.of_nat (seq 0 100)) = true)
    by (vm_compute; reflexivity).
  rewrite forallb_forall in Hall.
  apply String.eqb_eq, Hall.
  apply in_map_iff. exists (Z.to_nat n). split; [lia|]. apply in_seq. lia.
Qed.

Lemma string_length_app (a b : string) :
  String.length (a ++ b) = (String.length a + String.length b)%nat.
Proof. induction a as [|c a IH]; simpl; [reflexivity | rewrite IH; reflexivity]. Qed.

Lemma string_app_inj (a a' b b' : string) :
  String.length a = String.length a' ->
  (a ++ b)%string = (a' ++ b')%string -> a = a' /\ b = b'.
Proof.
  revert a'. induction a as [|c a IH]; intros [|c' a'] Hl E;
    simpl in Hl; try discriminate.
  - split; [reflexivity | exact E].
  - simpl in E. injection E as -> E. injection Hl as Hl.
    destruct (IH a' Hl E) as [-> ->]. split; reflexivity.
Qed.

(** A slice that is longer than the string is the string. *)
Lemma py_prefix_short n s :
  (String.length s <= n)%nat -> py_prefix n s = s.
Proof.
  unfold py_prefix. revert n.
  induction s as [|c s IH]; intros [|n] H; simpl in *; try reflexivity; try lia.
  rewrite IH by lia. reflexivity.
Qed.

Lemma py_prefix_length n s : (String.length (py_prefix n s) <= n)%nat.
Proof.
  unfold py_prefix. revert n.
  induction s as [|c s IH]; intros [|n]; simpl; try lia.
  specialize (IH n). lia.
Qed.

Lemma fmt_02d_length n : 0 <= n < 100 -> String.length (fmt_02d n) = 2%nat.
Proof.
  intros Hn.
  assert (Hall : forallb (fun k => (String.length (fmt_02d k) =? 2)%nat)
                   (map Z.of_nat (seq 0 100)) = true)
    by (vm_compute; reflexivity).
  rewrite forallb_forall in Hall.
  apply Nat.eqb_eq, Hall.
  apply in_map_iff. exists (Z.to_nat n). split; [lia|]. apply in_seq. lia.
Qed.

(** Three digits, which [int] reads back. *)
Lemma fmt_03d_spec n :
  0 <= n < 1000 ->
  String.length (fmt_03d n) = 3%nat /\ py_int (fmt_03d n) = Some n.
Proof.
  intros Hn.
  assert (Hall : forallb (fun k => (String.length (fmt_03d k) =? 3)%nat
                                   && bool_decide (py_int (fmt_03d k) = Some k))
                   (map Z.of_nat (seq 0 1000)) = true)
    by (vm_compute; reflexivity).
  rewrite forallb_forall in Hall.
  specialize (Hall n).
  destruct (andb_prop _ _ (Hall ltac:(apply in_map_iff; exists (Z.to_nat n);
                                       split; [lia | apply in_seq; lia])))
    as [H1 H2].
  split; [apply Nat.eqb_eq, H1 | apply bool_decide_eq_true in H2; exact H2].
Qed.

Lemma fmt_02d_inj m n : 0 <= m -> 0 <= n -> fmt_02d m = fmt_02d n -> m = n.
Proof.
  intros Hm Hn E.
  pose proof (py_int_fmt_02d m Hm) as H1. rewrite E in H1.
  rewrite (py_int_fmt_02d n Hn) in H1. congruence.
Qed.

(** Two fields of two digits. *)
Lemma two_fields_spec q r q' r' :
  0 <= q < 100 -> 0 <= r < 100 -> 0 <= q' < 100 -> 0 <= r' < 100 ->
  String.length (fmt_02d q ++ ":" ++ fmt_02d r) = 5%nat
  /\ ((fmt_02d q' ++ ":" ++ fmt_02d r')%string
      = (fmt_02d q ++ ":" ++ fmt_02d r)%string ->
      q' = q /\ r' = r).
Proof.
  intros Hq Hr Hq' Hr'. split.
  - rewrite !string_length_app, !fmt_02d_length by assumption. reflexivity.
  - intros E. apply string_app_inj in E as [E1 E2];
      [|rewrite !fmt_02d_length by assumption; reflexivity].
    apply (string_app_inj ":" ":") in E2 as [_ E2]; [|reflexivity].
    split; apply fmt_02d_inj; (lia || assumption).
Qed.

(** X12: Within the limits of its unit, a time value is shown in a text of
    fixed width (5 characters, 8 for the unit sec:ms), which the display
    helper does not cut, and two values within the limits are shown alike
    only if they are equal. *)
Theorem fmt_time_within_limits u e v :
  0 <= u ->
  py_index TIME_UNITS u = Some e ->
  unit_min e <= v <= unit_max e ->
  exists t,
    fmt_time v u = Some t
    /\ String.length t = (if u =? 2 then 8%nat else 5%nat)
    /\ lcd_print "Set Time" t = mkScreen "Set Time"%string t
    /\ forall v',
         unit_min e <= v' <= unit_max e -> fmt_time v' u = Some t -> v' = v.
Proof.
  intros Hu He Hv.
  pose proof (py_index_Some _ _ _ He) as Hr. simpl in Hr.
  assert (Hc : u = 0 \/ u = 1 \/ u = 2) by lia.
  assert (Hshow : forall t, (String.length t <= 8)%nat ->
                    lcd_print "Set Time" t = mkScreen "Set Time"%string t).
  { intros t Ht. unfold lcd_print. rewrite (py_prefix_short 21 t) by lia.
    reflexivity. }
  destruct Hc as [-> | [-> | ->]]; vm_compute in He; injection He as <-;
    unfold unit_min, unit_max in *; cbn [fst snd] in *;
    unfold fmt_time; cbn [Z.eqb Pos.eqb]; cbv zeta.
  - (* min:sec *)
    pose proof (Z.div_mod v 60 ltac:(lia)) as Hd.
    pose proof (Z.mod_pos_bound v 60 ltac:(lia)) as Hm.
    assert (Hq : 0 <= v / 60 < 100)
      by (split; [apply Z.div_pos; lia | apply Z.div_lt_upper_bound; lia]).
    destruct (two_fields_spec (v / 60) (v mod 60) 0 0 Hq ltac:(lia)
                ltac:(lia) ltac:(lia)) as [Hlen _].
    eexists. split; [reflexivity|]. split; [exact Hlen|].
    split; [apply Hshow; rewrite Hlen; lia|].
    intros v' Hv' E. injection E as E.
    pose proof (Z.div_mod v' 60 ltac:(lia)) as Hd'.
    pose proof (Z.mod_pos_bound v' 60 ltac:(lia)) as Hm'.
    assert (Hq' : 0 <= v' / 60 < 100)
      by (split; [apply Z.div_pos; lia | apply Z.div_lt_upper_bound; lia]).
    destruct (two_fields_spec (v / 60) (v mod 60) (v' / 60) (v' mod 60)
                Hq ltac:(lia) Hq' ltac:(lia)) as [_ Hinj].
    destruct (Hinj E) as [E1 E2]. lia.
  - (* hr:min *)
    pose proof (Z.div_mod v 60 ltac:(lia)) as Hd.
    pose proof (Z.mod_pos_bound v 60 ltac:(lia)) as Hm.
    assert (Hq : 0 <= v / 60 < 100)
      by (split; [apply Z.div_pos; lia | apply Z.div_lt_upper_bound; lia]).
    destruct (two_fields_spec (v / 60) (v mod 60) 0 0 Hq ltac:(lia)
                ltac:(lia) ltac:(lia)) as [Hlen _].
    eexists. split; [reflexivity|]. split; [exact Hlen|].
    split; [apply Hshow; rewrite Hlen; lia|].
    intros v' Hv' E. injection E as E.
    pose proof (Z.div_mod v' 60 ltac:(lia)) as Hd'.
    pose proof (Z.mod_pos_bound v' 60 ltac:(lia)) as Hm'.
    assert (Hq' : 0 <= v' / 60 < 100)
      by (split; [apply Z.div_pos; lia | apply Z.div_lt_upper_bound; lia]).
    destruct (two_fields_spec (v / 60) (v mod 60) (v' / 60) (v' mod 60)
                Hq ltac:(lia) Hq' ltac:(lia)) as [_ Hinj].
    destruct (Hinj E) as [E1 E2]. lia.
  - (* sec:ms *)
    pose proof (Z.div_mod v 1000 ltac:(lia)) as Hd.
    pose proof (Z.mod_pos_bound v 1000 ltac:(lia)) as Hm.
    assert (Hq : 0 <= v / 1000 < 100)
      by (split; [apply Z.div_pos; lia | apply Z.div_lt_upper_bound; lia]).
    destruct (fmt_03d_spec (v mod 1000) Hm) as [Hl3 Hi3].
    assert (Hlen : String.length
                     (fmt_02d (v / 1000) ++ ":" ++ fmt_03d (v mod 1000) ++ "ms")
                   = 8%nat).
    { rewrite !string_length_app, fmt_02d_length, Hl3 by assumption.
      reflexivity. }
    eexists. split; [reflexivity|]. split; [exact Hlen|].
    split; [apply Hshow; rewrite Hlen; lia|].
    intros v' Hv' E. injection E as E.
    pose proof (Z.div_mod v' 1000 ltac:(lia)) as Hd'.
    pose proof (Z.mod_pos_bound v' 1000 ltac:(lia)) as Hm'.
    assert (Hq' : 0 <= v' / 1000 < 100)
      by (split; [apply Z.div_pos; lia | apply Z.div_lt_upper_bound; lia]).
    destruct (fmt_03d_spec (v' mod 1000) Hm') as [Hl3' Hi3'].
    apply string_app_inj in E as [E1 E2];
      [|rewrite !fmt_02d_length by assumption; reflexivity].
    apply (string_app_inj ":" ":") in E2 as [_ E2]; [|reflexivity].
    apply string_app_inj in E2 as [E2 _]; [|congruence].
    apply fmt_02d_inj in E1; [|lia|lia].
    rewrite E2, Hi3 in Hi3'. injection Hi3' as E3. lia.
Qed.

Lemma fmt_time_within_limits_witness :
  exists t,
    fmt_time 1500 2 = Some t
    /\ String.length t = (if 2 =? 2 then 8%nat else 5%nat)
    /\ lcd_print "Set Time" t = mkScreen "Set Time"%string t
    /\ forall v',
         unit_min ("sec:ms"%string, 1000, 100, 60000) <= v'
         <= unit_max ("sec:ms"%string, 1000, 100, 60000) ->
         fmt_time v' 2 = Some t -> v' = 1500.
Proof.
  apply (fmt_time_within_limits 2 ("sec:ms"%string, 1000, 100, 60000) 1500).
  - lia.
  - reflexivity.
  - vm_compute. split; discriminate.
Defined.

(** ** The countdown *)

Lemma py_trunc_nonneg secs : (0 <= secs)%Q -> py_trunc secs = Qfloor secs.
Proof.
  intros H. unfold py_trunc.
  apply Qle_bool_iff in H. rewrite H. reflexivity.
Qed.

Lemma py_trunc_Z n : py_trunc (inject_Z n) = n.
Proof.
  unfold py_trunc. destruct (Qle_bool 0 (inject_Z n));
    [apply Qfloor_Z | apply Qceiling_Z].
Qed.

Lemma Qfloor_zero_iff secs :
  (0 <= secs)%Q -> Qfloor secs = 0 <-> (secs < 1)%Q.
Proof.
  intros H.
  pose proof (Qfloor_le secs) as Hle.
  pose proof (Qlt_floor secs) as Hlt.
  assert (H0 : 0 <= Qfloor secs)
    by (change 0 with (Qfloor 0); apply Qfloor_resp_le, H).
  split.
  - intros E. rewrite E in Hlt. exact Hlt.
  - intros H1.
    assert (Hf : (inject_Z (Qfloor secs) < inject_Z 1)%Q)
      by (eapply Qle_lt_trans; [exact Hle | exact H1]).
    rewrite <- Zlt_Qlt in Hf. lia.
Qed.

(** X13: The countdown shows the time rounded down to whole seconds, in the
    text the min:sec editor shows for that number of seconds; it reads
    00:00 exactly when less than one second is left. *)
Theorem countdown_shows_whole_seconds secs :
  (0 <= secs)%Q ->
  fmt_time_simple secs = fmt_time_simple (inject_Z (Qfloor secs))
  /\ fmt_time (Qfloor secs) 0 = Some (fmt_time_simple secs)
  /\ (fmt_time_simple secs = "00:00"%string <-> (secs < 1)%Q).
Proof.
  intros H. unfold fmt_time_simple, fmt_time. cbn [Z.eqb]. cbv zeta.
  rewrite py_trunc_Z, (py_trunc_nonneg secs H).
  split; [reflexivity|]. split; [reflexivity|].
  rewrite <- (Qfloor_zero_iff secs H).
  assert (H0 : 0 <= Qfloor secs)
    by (change 0 with (Qfloor 0); apply Qfloor_resp_le, H).
  set (n := Qfloor secs) in *.
  pose proof (Z.div_mod n 60 ltac:(lia)) as Hd.
  pose proof (Z.mod_pos_bound n 60 ltac:(lia)) as Hm.
  assert (Hq : 0 <= n / 60) by (apply Z.div_pos; lia).
  split.
  - intros E.
    assert (Hl : String.length (fmt_02d (n / 60)) = 2%nat).
    { apply (f_equal String.length) in E.
      rewrite !string_length_app, (fmt_02d_length (n mod 60)) in E by lia.
      simpl in E. lia. }
    apply (string_app_inj _ "00") in E as [E1 E2]; [|exact Hl].
    apply (string_app_inj ":" ":") in E2 as [_ E2]; [|reflexivity].
    apply (fmt_02d_inj _ 0) in E1; [|lia|lia].
    apply (fmt_02d_inj _ 0) in E2; [|lia|lia].
    lia.
  - intros ->. reflexivity.
Qed.

Lemma countdown_shows_whole_seconds_witness :
  fmt_time_simple (9 # 10) = fmt_time_simple (inject_Z (Qfloor (9 # 10)))
  /\ fmt_time (Qfloor (9 # 10)) 0 = Some (fmt_time_simple (9 # 10))
  /\ (fmt_time_simple (9 # 10) = "00:00"%string <-> (9 # 10 < 1)%Q).
Proof.
  apply (countdown_shows_whole_seconds (9 # 10)). discriminate.
Defined.

(** ** The display helpers *)

(** X14: Neither helper hands the display a line of more than 21 characters; a
    text that fits (19 characters for a menu item, which follows the
    2-character selector) is shown whole; and every item of the two menus
    fits. *)
Theorem display_lines_fit l1 l2 selected :
  (String.length (line_0 (lcd_print l1 l2)) <= 21)%nat
  /\ (String.length (line_16 (lcd_print l1 l2)) <= 21)%nat
  /\ (String.length (line_0 (lcd_print_menu l1 l2 selected)) <= 21)%nat
  /\ (String.length (line_16 (lcd_print_menu l1 l2 selected)) <= 21)%nat
  /\ ((String.length l1 <= 21)%nat -> line_0 (lcd_print l1 l2) = l1)
  /\ ((String.length l2 <= 21)%nat -> line_16 (lcd_print l1 l2) = l2)
  /\ ((String.length l2 <= 19)%nat ->
      line_16 (lcd_print_menu l1 l2 selected)
      = ((if selected then "> " else "  ") ++ l2)%string)
  /\ Forall (fun item => (String.length item <= 19)%nat)
       (main_menu_items ++ custom_menu_items).
Proof.
  unfold lcd_print, lcd_print_menu. cbn [line_0 line_16].
  pose proof (py_prefix_length 21 l1). pose proof (py_prefix_length 21 l2).
  pose proof (py_prefix_length 19 l2).
  repeat split; try assumption.
  - rewrite string_length_app. destruct selected; simpl; lia.
  - apply py_prefix_short.
  - apply py_prefix_short.
  - intros Hl. rewrite py_prefix_short by exact Hl. reflexivity.
  - repeat constructor.
Qed.
(** ** The encoder example prints the changes *)

Lemma last_cons_default (l : list Z) : forall x d,
  List.last (x :: l) d = List.last l x.
Proof.
  induction l as [|y l IH]; intros x d; [reflexivity|].
  change (List.last (x :: y :: l) d) with (List.last (y :: l) d).
  rewrite !IH. reflexivity.
Qed.

Lemma knob_loop_spec readings : forall last_,
  sublist (knob_loop readings last_).1 readings
  /\ no_repeat last_ (knob_loop readings last_).1
  /\ (knob_loop readings last_).2 = List.last readings last_
  /\ (no_repeat last_ readings -> (knob_loop readings last_).1 = readings).
Proof.
  induction readings as [|v rest IH]; intros last_; cbn [knob_loop].
  - repeat split; constructor.
  - unfold knob_iteration.
    destruct (IH last_) as (H1 & H2 & H3 & H4).
    destruct (IH v) as (H1' & H2' & H3' & H4').
    destruct (Z.eqb_spec v last_) as [E|Hne]; cbn [negb fst snd app].
    + subst v. split; [apply sublist_cons, H1|]. split; [exact H2|].
      split; [rewrite H3, last_cons_default; destruct rest; [reflexivity|];
              rewrite last_cons_default; reflexivity|].
      intros [Hc _]. contradiction.
    + split; [apply sublist_skip, H1'|]. split; [split; assumption|].
      split; [rewrite H3', last_cons_default; reflexivity|].
      intros [_ Hr]. rewrite (H4' Hr). reflexivity.
Qed.

(** X15: For every sequence of encoder readings, the values printed are
    readings in their order, none equal to the one printed before it (nor
    the first to the initial 0); at the end [last] is the last reading;
    and when no reading repeats its predecessor, every reading is
    printed. *)
Theorem knob_prints_the_changes readings :
  sublist (knob readings).1 readings
  /\ no_repeat 0 (knob readings).1
  /\ (knob readings).2 = List.last readings 0
  /\ (no_repeat 0 readings -> (knob readings).1 = readings).
Proof. apply knob_loop_spec. Qed.
(** ** The proposed name *)

(** The search loop passes only over names that are in use. *)
Lemma first_unused_minimal p_names : forall fuel p_num k,
  p_num <= k < first_unused fuel p_num p_names ->
  In (program_name k) p_names.
Proof.
  induction fuel as [|fuel IH]; intros p_num k Hk; cbn [first_unused] in Hk.
  - lia.
  - destruct (existsb (String.eqb (program_name p_num)) p_names) eqn:Hused;
      [|lia].
    destruct (Z.eq_dec k p_num) as [->|Hne].
    + apply name_used_iff, Hused.
    + apply (IH (p_num + 1)). lia.
Qed.

Lemma first_unused_ge p_names : forall fuel p_num,
  p_num <= first_unused fuel p_num p_names.
Proof.
  induction fuel as [|fuel IH]; intros p_num; cbn [first_unused]; [lia|].
  destruct (existsb _ p_names); [|lia].
  specialize (IH (p_num + 1)). lia.
Qed.

(** Writing a key other than the name leaves the names as they are. *)
Lemma names_of_insert_same_name h (cp : loc) p p' :
  h !! cp = Some p -> prog_name p' = prog_name p ->
  forall refs, names_of (<[cp := p']> h) refs = names_of h refs.
Proof.
  intros Hp Hn. induction refs as [|r refs IH]; cbn [names_of]; unfold loc in *;
    [reflexivity|].
  rewrite IH. destruct (decide (cp = r)) as [<-|Hne].
  - rewrite list_lookup_insert_eq by (eapply lookup_lt_Some, Hp).
    rewrite Hp. simpl. rewrite Hn. reflexivity.
  - rewrite list_lookup_insert_ne by exact Hne. reflexivity.
Qed.

(** X16: Confirming the loop count in the wizard proposes the name P-n, in the
    two-digit format, for the least n >= 1 such that no stored program is
    called P-n: the proposed name is not in use, and every P-k with
    1 <= k < n is. *)
Theorem proposed_name_is_first_unused inp s ns p :
  main_state s = MODE_CUSTOM_CREATE ->
  create_state s = C_CREATE_SET_LOOPS ->
  btn inp = ShortPress ->
  store_names s = Some ns ->
  heap s !! current_program s = Some p ->
  exists s' n,
    tick inp s = Some s'
    /\ (create_state s' = C_CREATE_SET_NAME
        /\ temp_program_name s' = program_name n
        /\ 1 <= n
        /\ (program_name n ∉ ns)
        /\ forall k, 1 <= k < n -> program_name k ∈ ns).
Proof.
  intros Hm Hs Hb Hns Hp. unfold store_names in Hns.
  set (n := first_unused (length ns) 1 ns).
  assert (Hns' : names_of
                   (<[current_program s :=
                        mkProgram (prog_name p) (Some (temp_program_loops s))
                          (prog_steps p)]> (heap s))
                   (saved_programs s) = Some ns).
  { rewrite (names_of_insert_same_name _ _ p) by (exact Hp || reflexivity).
    exact Hns. }
  assert (H : exists s',
            tick inp s = Some s'
            /\ (create_state s' = C_CREATE_SET_NAME
                /\ temp_program_name s' = program_name n)).
  { apply twp_tick_state_machine; [apply create_mode_safe, Hm|].
    intros e c b a. unfold state_machine. rewrite Hb.
    twp_run. split; reflexivity. }
  destruct H as (s' & E & Hc & Hname).
  exists s', n. split; [exact E|]. split; [exact Hc|]. split; [exact Hname|].
  split; [apply first_unused_ge|]. split.
  - intros Hin. apply list_elem_of_In, name_used_iff in Hin.
    pose proof (first_unused_is_unused ns) as Hfree. fold n in Hfree.
    congruence.
  - intros k Hk. apply list_elem_of_In.
    apply (first_unused_minimal ns (length ns) 1). exact Hk.
Qed.

Lemma proposed_name_is_first_unused_witness :
  let s := default demo_boot
             (ticks (to_wizard ++ one_step ++ [idle_at 3 90; short_at 3 100])
                demo_boot) in
  exists s' n,
    tick (short_at 3 110) s = Some s'
    /\ (create_state s' = C_CREATE_SET_NAME
        /\ temp_program_name s' = program_name n
        /\ 1 <= n
        /\ (program_name n ∉ ["P-01"%string])
        /\ forall k, 1 <= k < n -> program_name k ∈ ["P-01"%string]).
Proof.
  apply (proposed_name_is_first_unused (short_at 3 110) _ ["P-01"%string]
           partial_program); vm_compute; reflexivity.
Defined.
(** ** Instances of the interlock and of the long-press cancel *)

Lemma lid_open_stops_run_witness :
  tick (lid_open_at 0 50) demo_running
  = Some (set_c_start_ts None (set_simple_state S_IDLE
            (set_main_state MODE_MAIN_MENU
               (set_uv 0%Q (after_read_delta (lid_open_at 0 50) demo_running))))).
Proof.
  apply (lid_open_stops_run (lid_open_at 0 50) demo_running);
    vm_compute; reflexivity.
Defined.

Lemma simple_long_press_cancels_witness :
  exists s',
    tick (long_at 1 1000) at_simple_run = Some s'
    /\ (uv s' = 0%Q /\ main_state s' = MODE_MAIN_MENU
        /\ simple_state s' = S_IDLE /\ s_start_ts s' = None).
Proof.
  apply (simple_long_press_cancels (long_at 1 1000) at_simple_run 40);
    vm_compute; reflexivity.
Defined.

Lemma custom_long_press_cancels_witness :
  exists s',
    tick (long_at 0 1000) demo_running = Some s'
    /\ (uv s' = 0%Q
        /\ main_state s' = MODE_MAIN_MENU
        /\ c_start_ts s' = None
        /\ simple_state s' = simple_state demo_running).
Proof.
  apply (custom_long_press_cancels demo_program 2
           [mkStep (Some 0) (Some 10) (Some 30);
            mkStep (Some 2) (Some 500) (Some 90)] 0 (long_at 0 1000)
           demo_running).
  - split; [reflexivity|]. split; [reflexivity|]. split; [discriminate|].
    split; [|lia]. repeat constructor; eexists; reflexivity.
  - split; [reflexivity|]. split; [reflexivity|]. split; [reflexivity|].
    split; [eexists; reflexivity|]. split; [reflexivity|].
    split; [reflexivity|].
    exists (mkStep (Some 0) (Some 10) (Some 30)).
    split; [reflexivity|]. split; vm_compute; reflexivity.
  - reflexivity.
  - reflexivity.
  - vm_compute. reflexivity.
Defined.
(** ** After a run *)

(** X20: A press (short or long) in the Done state of either mode returns to
    the main menu, with the Simple sub-state Idle, respectively the runner
    reset (the Done mark of the other mode, if set, is left as it is); the
    UV output, already off or not, is not touched, and [lid_was_open] is
    set so that the next iteration restores the indicator colours. *)
Theorem done_is_left_by_a_press inp s :
  awaiting_acknowledgement s ->
  is_pressed (btn inp) = true ->
  is_Some (py_index main_menu_items (main_menu_idx s)) ->
  exists s',
    tick inp s = Some s'
    /\ (main_state s' = MODE_MAIN_MENU
        /\ (main_state s = MODE_SIMPLE ->
            simple_state s' = S_IDLE /\ run_state s' = run_state s)
        /\ (main_state s = MODE_CUSTOM_MENU ->
            run_state s' = C_RUN_START /\ simple_state s' = simple_state s)
        /\ lid_was_open s' = true
        /\ uv s' = uv s
        /\ main_menu_idx s' = main_menu_idx s).
Proof.
  intros Hd Hb [item Hitem].
  assert (Hsafe : lid_open inp
                  && run_in_progress (main_state s) (simple_state s)
                       (c_start_ts s) = false).
  { destruct Hd as [(Hm & Hs) | (Hm & Hts & _)].
    - apply editing_simple_safe; [exact Hm | rewrite Hs; discriminate].
    - apply no_cursor_safe; assumption. }
  apply twp_tick_state_machine; [exact Hsafe|].
  intros e c b a. unfold state_machine.
  destruct Hd as [(Hm & Hs) | (Hm & Hts & Hrs & Hls)].
  - twp_run. repeat split; try reflexivity; intros; exfalso; unfold_consts; lia.
  - twp_run. repeat split; try reflexivity; intros; exfalso; unfold_consts; lia.
Qed.

Lemma done_is_left_by_a_press_witness :
  exists s',
    tick (short_at 0 30000) demo_finished = Some s'
    /\ (main_state s' = MODE_MAIN_MENU
        /\ (main_state demo_finished = MODE_SIMPLE ->
            simple_state s' = S_IDLE /\ run_state s' = run_state demo_finished)
        /\ (main_state demo_finished = MODE_CUSTOM_MENU ->
            run_state s' = C_RUN_START
            /\ simple_state s' = simple_state demo_finished)
        /\ lid_was_open s' = true
        /\ uv s' = uv demo_finished
        /\ main_menu_idx s' = main_menu_idx demo_finished).
Proof.
  apply (done_is_left_by_a_press (short_at 0 30000) demo_finished).
  - right. vm_compute. repeat split.
  - reflexivity.
  - vm_compute. eauto.
Defined.
(** ** The indicator after a run *)

(** X21: While a finished run waits to be acknowledged and nothing is touched,
    the indicator blinks: with the NeoPixels present, an iteration toggles
    the blink state and restarts the blink timer when more than
    [blink_interval_ms] have passed since the timer was started, and
    leaves both as they are otherwise; the lid is not looked at and
    [lid_was_open] is not updated, so the lid alarm is not shown in this
    state. *)
Theorem done_blinks inp s :
  awaiting_acknowledgement s ->
  untouched inp s ->
  exists s',
    tick inp s = Some s'
    /\ (control s' = control s
        /\ lid_was_open s' = lid_was_open s
        /\ (blink_state_on s', last_blink_ms s')
           = if neopixel s
                && (blink_interval_ms <? ticks_diff (now inp) (last_blink_ms s))
             then (negb (blink_state_on s), now inp)
             else (blink_state_on s, last_blink_ms s)).
Proof.
  intros Hd (Henc & Hb & Hb2).
  apply (twp_tick (fun s1 =>
           control s1 = control s
           /\ lid_was_open s1 = lid_was_open s
           /\ (blink_state_on s1, last_blink_ms s1)
              = if neopixel s
                   && (blink_interval_ms
                       <? ticks_diff (now inp) (last_blink_ms s))
                then (negb (blink_state_on s), now inp)
                else (blink_state_on s, last_blink_ms s))).
  assert (Hno : no_run s).
  { unfold no_run, run_in_progress.
    destruct Hd as [(-> & ->) | (-> & -> & _)]; reflexivity. }
  assert (Hdone : (simple_state s =? S_DONE) || (run_state s =? C_RUN_DONE)
                  = true).
  { destruct Hd as [(_ & ->) | (_ & _ & -> & _)];
      [reflexivity | apply orb_true_r]. }
  unfold loop_body, state_machine. cbv zeta. rewrite Hb, Hb2.
  apply twp_bind. unfold twp at 1. rewrite read_delta_eq. cbv beta iota.
  unfold after_read_delta. rewrite Henc, Z.sub_diag. cbn [Z.eqb negb].
  apply (twp_seq (fun s1 => s1 = s)).
  { unfold safety_check. unfold no_run in Hno.
    destruct (lid_open inp); twp_run; reflexivity. }
  intros _ ? ->.
  apply (twp_seq (fun s1 =>
           control s1 = control s
           /\ lid_was_open s1 = lid_was_open s
           /\ (blink_state_on s1, last_blink_ms s1)
              = (if neopixel s
                    && (blink_interval_ms
                        <? ticks_diff (now inp) (last_blink_ms s))
                 then (negb (blink_state_on s), now inp)
                 else (blink_state_on s, last_blink_ms s))
           /\ awaiting_acknowledgement s1)).
  { unfold indicator. apply twp_bind, twp_get. apply twp_bind, twp_get.
    rewrite Hdone. unfold blink_toggle.
    apply twp_bind, twp_get. apply twp_bind, twp_get.
    destruct (neopixel s
              && (blink_interval_ms <? ticks_diff (now inp) (last_blink_ms s)));
      unfold when; twp_run; repeat split; exact Hd. }
  intros _ s1 (Hc & Hl & Hbl & Hd1).
  destruct Hd1 as [(Hm & Hs) | (Hm & Hts & Hrs & Hls)];
    twp_run; repeat split; assumption.
Qed.

Lemma done_blinks_witness :
  exists s',
    tick (idle_at 0 21600) demo_finished = Some s'
    /\ (control s' = control demo_finished
        /\ lid_was_open s' = lid_was_open demo_finished
        /\ (blink_state_on s', last_blink_ms s')
           = if neopixel demo_finished
                && (blink_interval_ms
                    <? ticks_diff (now (idle_at 0 21600))
                         (last_blink_ms demo_finished))
             then (negb (blink_state_on demo_finished), now (idle_at 0 21600))
             else (blink_state_on demo_finished, last_blink_ms demo_finished)).
Proof.
  apply (done_blinks (idle_at 0 21600) demo_finished).
  - right. vm_compute. repeat split.
  - vm_compute. repeat split.
Defined.
